(** * News feed tools: a shallow embedding of the custom_server package

  The package exposes one tool per news source.  Every tool runs the same
  pipeline: fetch the feed over HTTP, parse the XML into a list of story
  dictionaries, cut the list to the requested count, format every story and
  join the results.  This file embeds the five source modules
  (hackernews, techcrunch, wsj, wired, ainews) and the tool layer of app.py,
  and then states and proves properties of them.

  Conventions of the embedding.
  - A Python [str] is a [string]; one [ascii] stands for one character, so
    the texts covered are those whose code points are below 256.
  - A Python [int] is a [Z].
  - A story dictionary is a [gmap string value].
  - Four library calls are taken as parameters of the development:
    the HTTP request of httpx, [ET.fromstring] of xml.etree.ElementTree,
    the character reference substitution inside [html.unescape], and the
    [repr] of a list, which only matters when a formatter is given a list
    where the parsers store a text.
  - Only exceptions deriving from [Exception] are modelled. *)

From Stdlib Require Import ZArith String Ascii List Bool Lia.
From stdpp Require Import gmap strings list fin_maps.
Import ListNotations.

Local Open Scope Z_scope.

(* ===================================================================== *)
(** * The Python runtime fragment used by the package                     *)
(* ===================================================================== *)

Module Py.

(** Characters that cannot be written inside a string literal here. *)
Definition nl_char : ascii := ascii_of_nat 10.
Definition dq_char : ascii := ascii_of_nat 34.
Definition nl : string := String nl_char EmptyString.
Definition dq : string := String dq_char EmptyString.

(** [s.startswith(p)] *)
Definition startswith (s p : string) : bool := String.prefix p s.

(** [sep.join(xs)] for a list of [str]. *)
Definition join (sep : string) (xs : list string) : string :=
  String.concat sep xs.

(** [c in s] for a one-character [c]. *)
Fixpoint contains_char (c : ascii) (s : string) : bool :=
  match s with
  | EmptyString => false
  | String a s' => if Ascii.eqb a c then true else contains_char c s'
  end.

(** [str.isspace] on one character, for code points below 256:
    TAB, LF, VT, FF, CR, the four separators FS GS RS US, SPACE, NEL and
    the no-break space. *)
Definition isspace (c : ascii) : bool :=
  let n := nat_of_ascii c in
  ((9 <=? n)%nat && (n <=? 13)%nat)
  || ((28 <=? n)%nat && (n <=? 32)%nat)
  || (n =? 133)%nat || (n =? 160)%nat.

Fixpoint lstrip (s : string) : string :=
  match s with
  | EmptyString => EmptyString
  | String a s' => if isspace a then lstrip s' else s
  end.

Fixpoint rstrip (s : string) : string :=
  match s with
  | EmptyString => EmptyString
  | String a s' =>
      match rstrip s' with
      | EmptyString => if isspace a then EmptyString else String a EmptyString
      | r => String a r
      end
  end.

(** [s.strip()] *)
Definition strip (s : string) : string := rstrip (lstrip s).

(** [s[n:]] for a non-negative [n]. *)
Fixpoint drop_chars (n : nat) (s : string) : string :=
  match n, s with
  | O, _ => s
  | S n', String _ s' => drop_chars n' s'
  | S _, EmptyString => EmptyString
  end.

(** [s[:n]] for a non-negative [n]. *)
Fixpoint take_chars (n : nat) (s : string) : string :=
  match n, s with
  | S n', String a s' => String a (take_chars n' s')
  | _, _ => EmptyString
  end.

(** [xs[:stop]]: a negative [stop] counts from the end, and both ends are
    clamped to the list. *)
Definition slice_to {A} (xs : list A) (stop : Z) : list A :=
  let n := Z.of_nat (length xs) in
  let stop' := if stop <? 0 then Z.max 0 (stop + n) else Z.min stop n in
  take (Z.to_nat stop') xs.

(** ** Exceptions

    The classes are the builtin ones the package can meet, [ParseError] of
    xml.etree.ElementTree, and the hierarchy that httpx publishes in
    httpx/_exceptions.py. *)
Inductive exn_class : Type :=
| Exception
| TypeError | ValueError | LookupError | KeyError | OSError
| SyntaxError | ParseError
| HTTPError
| RequestError | HTTPStatusError
| TransportError | DecodingError | TooManyRedirects
| TimeoutException | NetworkError | ProtocolError | ProxyError
| UnsupportedProtocol
| ConnectTimeout | ReadTimeout | WriteTimeout | PoolTimeout
| ConnectError | ReadError | WriteError | CloseError
| LocalProtocolError | RemoteProtocolError
| InvalidURL.

(** The direct base class; [Exception] is the root of what is modelled. *)
Definition base (c : exn_class) : option exn_class :=
  match c with
  | Exception => None
  | TypeError | ValueError | LookupError | OSError | SyntaxError => Some Exception
  | KeyError => Some LookupError
  | ParseError => Some SyntaxError
  | HTTPError => Some Exception
  | RequestError | HTTPStatusError => Some HTTPError
  | TransportError | DecodingError | TooManyRedirects => Some RequestError
  | TimeoutException | NetworkError | ProtocolError | ProxyError
  | UnsupportedProtocol => Some TransportError
  | ConnectTimeout | ReadTimeout | WriteTimeout | PoolTimeout =>
      Some TimeoutException
  | ConnectError | ReadError | WriteError | CloseError => Some NetworkError
  | LocalProtocolError | RemoteProtocolError => Some ProtocolError
  | InvalidURL => Some Exception
  end.

Definition exn_class_eqb (c d : exn_class) : bool :=
  match c, d with
  | Exception, Exception | TypeError, TypeError | ValueError, ValueError
  | LookupError, LookupError | KeyError, KeyError | OSError, OSError
  | SyntaxError, SyntaxError | ParseError, ParseError
  | HTTPError, HTTPError | RequestError, RequestError
  | HTTPStatusError, HTTPStatusError | TransportError, TransportError
  | DecodingError, DecodingError | TooManyRedirects, TooManyRedirects
  | TimeoutException, TimeoutException | NetworkError, NetworkError
  | ProtocolError, ProtocolError | ProxyError, ProxyError
  | UnsupportedProtocol, UnsupportedProtocol
  | ConnectTimeout, ConnectTimeout | ReadTimeout, ReadTimeout
  | WriteTimeout, WriteTimeout | PoolTimeout, PoolTimeout
  | ConnectError, ConnectError | ReadError, ReadError
  | WriteError, WriteError | CloseError, CloseError
  | LocalProtocolError, LocalProtocolError
  | RemoteProtocolError, RemoteProtocolError
  | InvalidURL, InvalidURL => true
  | _, _ => false
  end.

(** [issubclass(c, d)]: walk the chain of bases of [c].  The deepest chain
    has six classes, so the walk is given six steps. *)
Fixpoint issubclass_upto (steps : nat) (c d : exn_class) : bool :=
  exn_class_eqb c d
  || match steps with
     | O => false
     | S k => match base c with
              | Some b => issubclass_upto k b d
              | None => false
              end
     end.

Definition issubclass (c d : exn_class) : bool := issubclass_upto 6 c d.

(** A raised exception: its class and what [str(e)] gives. *)
Record exn : Type := mkExn { exn_cls : exn_class; exn_str : string }.

Definition isinstance (e : exn) (c : exn_class) : bool :=
  issubclass (exn_cls e) c.

(** The outcome of a call: a value, or an exception that leaves it. *)
Inductive res (A : Type) : Type :=
| Ok (a : A)
| Raise (e : exn).
Arguments Ok {A} a.
Arguments Raise {A} e.

Definition bind {A B} (m : res A) (k : A -> res B) : res B :=
  match m with
  | Ok a => k a
  | Raise e => Raise e
  end.

(** [[f(x) for x in xs]] when [f] may raise: the first exception leaves
    the comprehension. *)
Fixpoint map_res {A B} (f : A -> res B) (xs : list A) : res (list B) :=
  match xs with
  | [] => Ok []
  | x :: xs' =>
      bind (f x) (fun y => bind (map_res f xs') (fun ys => Ok (y :: ys)))
  end.

(** ** Values stored in story dictionaries *)
Inductive value : Type :=
| VNone
| VStr (s : string)
| VList (xs : list string)
| VDicts (ds : list (gmap string string)).

(** Truth value of an object in a condition. *)
Definition truthy (v : value) : bool :=
  match v with
  | VNone => false
  | VStr EmptyString => false
  | VStr _ => true
  | VList [] => false
  | VList _ => true
  | VDicts [] => false
  | VDicts _ => true
  end.

Definition str_truthy (s : string) : bool :=
  match s with EmptyString => false | _ => true end.

(** [el.text or default]-style test on an optional text. *)
Definition text_truthy (t : option string) : bool :=
  match t with Some s => str_truthy s | None => false end.

Definition of_text (t : option string) : value :=
  match t with Some s => VStr s | None => VNone end.

(** [str(v)], as an f-string applies it.  For a container it is its [repr],
    which the development leaves to the parameter [repr]. *)
Definition str (repr : value -> string) (v : value) : string :=
  match v with
  | VNone => "None"
  | VStr s => s
  | _ => repr v
  end.

(** [d.get(k, dflt)] *)
Definition get (d : gmap string value) (k : string) (dflt : value) : value :=
  default dflt (d !! k).

Fixpoint chars (s : string) : list string :=
  match s with
  | EmptyString => []
  | String a s' => String a EmptyString :: chars s'
  end.

(** The dictionary a parser returns in place of stories: one key, [error]. *)
Definition error_record (msg : string) : gmap string value :=
  {[ "error" := VStr msg ]}.

(** [d[k]] on a dictionary of strings. *)
Definition getitem (d : gmap string string) (k : string) : res string :=
  match d !! k with
  | Some v => Ok v
  | None => Raise (mkExn KeyError ("'" +:+ k +:+ "'"))
  end.

(** [sep.join(v)]: a [str] is joined character by character, and an item
    that is not a [str] raises [TypeError]. *)
Definition join_value (sep : string) (v : value) : res string :=
  match v with
  | VList xs => Ok (join sep xs)
  | VStr s => Ok (join sep (chars s))
  | VDicts [] => Ok EmptyString
  | VDicts (_ :: _) =>
      Raise (mkExn TypeError "sequence item 0: expected str instance, dict found")
  | VNone => Raise (mkExn TypeError "can only join an iterable")
  end.

End Py.

(* ===================================================================== *)
(** * Regular expressions: the backtracking matcher of the [re] module     *)
(* ===================================================================== *)

Module Re.

(** A set of characters standing at one position of a pattern. *)
Inductive cset : Type :=
| Dot          (** [.] under [re.DOTALL]: any character *)
| DotLine      (** [.] without flags: any character but the line feed *)
| NotChar (c : ascii).  (** [[^c]] *)

Definition cset_mem (k : cset) (a : ascii) : bool :=
  match k with
  | Dot => true
  | DotLine => negb (Ascii.eqb a Py.nl_char)
  | NotChar c => negb (Ascii.eqb a c)
  end.

(** The patterns of the package need literals, the lazy star and the greedy
    plus over one character set, numbered groups, sequence, ordered
    alternation and the two anchors. *)
Inductive re : Type :=
| Lit (s : string)
| LazyStar (k : cset)
| Plus (k : cset)
| Group (g : nat) (r : re)
| Seq (r1 r2 : re)
| Alt (r1 r2 : re)
| Bos
| Eos.

(** Captured groups, the most recent binding first. *)
Definition caps : Type := list (nat * string).

(** [strip_prefix p s] is [Some rest] when [s = p ++ rest]. *)
Fixpoint strip_prefix (p s : string) : option string :=
  match p, s with
  | EmptyString, _ => Some s
  | String a p', String b s' =>
      if Ascii.eqb a b then strip_prefix p' s' else None
  | String _ _, EmptyString => None
  end.

(** [$] without [re.MULTILINE]: the end of the text, or just before a line
    feed that ends the text. *)
Definition at_eos (s : string) : bool :=
  match s with
  | EmptyString => true
  | String a EmptyString => Ascii.eqb a Py.nl_char
  | _ => false
  end.

Section Matcher.
Context {R : Type}.

(** A continuation receives the position reached, the text left and the
    groups captured so far. *)
Definition cont : Type := nat -> string -> caps -> option R.

(** [k*?]: try the rest of the pattern first, take one more character only
    when that fails. *)
Fixpoint lazy_star (k : cset) (kont : cont) (n : nat) (s : string) (c : caps)
  : option R :=
  match kont n s c with
  | Some x => Some x
  | None =>
      match s with
      | String a s' => if cset_mem k a then lazy_star k kont (S n) s' c else None
      | EmptyString => None
      end
  end.

(** [k*]: take as many characters as possible, give them back one by one. *)
Fixpoint greedy_star (k : cset) (kont : cont) (n : nat) (s : string) (c : caps)
  : option R :=
  match s with
  | String a s' =>
      if cset_mem k a then
        match greedy_star k kont (S n) s' c with
        | Some x => Some x
        | None => kont n s c
        end
      else kont n s c
  | EmptyString => kont n s c
  end.

Fixpoint run (r : re) (n : nat) (s : string) (c : caps) (kont : cont)
  : option R :=
  match r with
  | Lit l =>
      match strip_prefix l s with
      | Some s' => kont (n + String.length l)%nat s' c
      | None => None
      end
  | LazyStar k => lazy_star k kont n s c
  | Plus k =>
      match s with
      | String a s' => if cset_mem k a then greedy_star k kont (S n) s' c else None
      | EmptyString => None
      end
  | Group g r' =>
      run r' n s c (fun n' s' c' => kont n' s' ((g, Py.take_chars (n' - n) s) :: c'))
  | Seq r1 r2 => run r1 n s c (fun n' s' c' => run r2 n' s' c' kont)
  | Alt r1 r2 =>
      match run r1 n s c kont with
      | Some x => Some x
      | None => run r2 n s c kont
      end
  | Bos => if (n =? 0)%nat then kont n s c else None
  | Eos => if at_eos s then kont n s c else None
  end.

End Matcher.

(** A match object: the span of group 0, its text, and the groups. *)
Record match_obj : Type := mkMatch
  { m_start : nat; m_end : nat; m_text : string; m_caps : caps }.

(** [m.group(g)] for [g >= 1]; a group that took no part gives [None]. *)
Fixpoint lookup_group (g : nat) (c : caps) : option string :=
  match c with
  | [] => None
  | (g', t) :: c' => if (g =? g')%nat then Some t else lookup_group g c'
  end.

Definition group (m : match_obj) (g : nat) : option string :=
  match g with
  | O => Some (m_text m)
  | _ => lookup_group g (m_caps m)
  end.

(** One attempt at position [n], where [s] is the text from [n] on.  With
    [nonempty] the attempt must consume something. *)
Definition match_at (nonempty : bool) (r : re) (n : nat) (s : string)
  : option match_obj :=
  run r n s []
    (fun n' _ c' =>
       if nonempty && (n' =? n)%nat then None
       else Some (mkMatch n n' (Py.take_chars (n' - n) s) c')).

(** [re.match(r, s)] *)
Definition rmatch (r : re) (s : string) : option match_obj :=
  match_at false r 0 s.

Fixpoint search_from (r : re) (n : nat) (s : string) : option match_obj :=
  match match_at false r n s with
  | Some m => Some m
  | None =>
      match s with
      | String _ s' => search_from r (S n) s'
      | EmptyString => None
      end
  end.

(** [re.search(r, s)] *)
Definition search (r : re) (s : string) : option match_obj :=
  search_from r 0 s.

(** All matches from left to right, without overlap.  [skip] counts the
    characters of the last match still to pass.  After an empty match the
    same position is tried once more for a match that consumes something,
    as the scanner of CPython does since 3.7. *)
Fixpoint scan (r : re) (n skip : nat) (s : string) : list match_obj :=
  let step (k : nat) : list match_obj :=
    match s with
    | String _ s' => scan r (S n) k s'
    | EmptyString => []
    end in
  match skip with
  | S k => step k
  | O =>
      match match_at false r n s with
      | None => step O
      | Some m =>
          if (m_end m =? n)%nat then
            m :: match match_at true r n s with
                 | Some m2 => m2 :: step (m_end m2 - n - 1)%nat
                 | None => step O
                 end
          else m :: step (m_end m - n - 1)%nat
      end
  end.

(** [re.finditer(r, s)] *)
Definition finditer (r : re) (s : string) : list match_obj := scan r 0 0 s.

(** [re.findall(r, s)] for a pattern with exactly one group: the text of
    group 1 of every match, the empty string where it took no part. *)
Definition findall1 (r : re) (s : string) : list string :=
  map (fun m => default EmptyString (group m 1)) (finditer r s).

Definition in_span (n : nat) (m : match_obj) : bool :=
  (m_start m <=? n)%nat && (n <? m_end m)%nat.

Fixpoint delete_spans (ms : list match_obj) (n : nat) (s : string) : string :=
  match s with
  | EmptyString => EmptyString
  | String a s' =>
      if existsb (in_span n) ms then delete_spans ms (S n) s'
      else String a (delete_spans ms (S n) s')
  end.

(** [re.sub(r, "", s)]: the text with every match removed. *)
Definition sub_empty (r : re) (s : string) : string :=
  delete_spans (finditer r s) 0 s.

End Re.

(* ===================================================================== *)
(** * Element trees and the path queries of xml.etree.ElementTree          *)
(* ===================================================================== *)

Module ET.
#[local] Set Warnings "-register-all".

(** An element: its tag (a namespaced tag is written [{uri}local]), its
    attributes, its text ([None] when there is none) and its children in
    document order. *)
Inductive Element : Type :=
| mkElement (tag : string) (attrib : gmap string string)
            (text : option string) (children : list Element).

Definition tag (e : Element) : string :=
  match e with mkElement t _ _ _ => t end.
Definition attrib (e : Element) : gmap string string :=
  match e with mkElement _ a _ _ => a end.
Definition text (e : Element) : option string :=
  match e with mkElement _ _ x _ => x end.
Definition children (e : Element) : list Element :=
  match e with mkElement _ _ _ cs => cs end.

(** [e.iter()]: the element and everything below it, in document order. *)
Fixpoint iter (e : Element) : list Element :=
  match e with
  | mkElement _ _ _ cs => e :: flat_map iter cs
  end.

(** Everything strictly below the element, in document order. *)
Definition descendants (e : Element) : list Element :=
  flat_map iter (children e).

(** The three shapes of path the package passes to [find] and [findall]. *)
Inductive path : Type :=
| Child (t : string)            (** [tag]: children with that tag *)
| Descendant (t : string)       (** [.//tag]: elements below, at any depth *)
| StarDescendant (t : string).  (** [*//tag]: elements below any child *)

Definition has_tag (t : string) (e : Element) : bool := String.eqb (tag e) t.

(** [e.iterfind(p)] *)
Definition iterfind (e : Element) (p : path) : list Element :=
  match p with
  | Child t => List.filter (has_tag t) (children e)
  | Descendant t => List.filter (has_tag t) (descendants e)
  | StarDescendant t =>
      List.filter (has_tag t) (flat_map descendants (children e))
  end.

(** [e.findall(p)] *)
Definition findall (e : Element) (p : path) : list Element := iterfind e p.

(** [e.find(p)]: the first match, or [None]. *)
Definition find (e : Element) (p : path) : option Element :=
  head (iterfind e p).

(** Namespaces that the feeds use. *)
Definition DC : string := "http://purl.org/dc/elements/1.1/".
Definition MRSS : string := "http://search.yahoo.com/mrss/".
Definition CONTENT : string := "http://purl.org/rss/1.0/modules/content/".

(** [{uri}local] *)
Definition qname (uri local : string) : string := "{" +:+ uri +:+ "}" +:+ local.

(** [el.text if el is not None and el.text else dflt] *)
Definition text_or (el : option Element) (dflt : string) : string :=
  match el with
  | Some e => if Py.text_truthy (text e) then default EmptyString (text e) else dflt
  | None => dflt
  end.

(** [[x.text for x in els if x.text]] *)
Definition texts (els : list Element) : list string :=
  omap (fun e => if Py.text_truthy (text e) then text e else None) els.

End ET.

(* ===================================================================== *)
(** * hackernews.py                                                        *)
(* ===================================================================== *)

Module Hackernews.
Import Py ET.

Definition DEFAULT_HN_RSS_URL : string := "https://news.ycombinator.com/rss".
Definition USER_AGENT : string := "hackernews-reader/1.0".

Section Env.
(** [http_get url agent]: the GET request with its User-Agent header and
    its ten second timeout, followed by [raise_for_status] and the reading
    of the body. *)
Variable http_get : string -> string -> res string.
Variable fromstring : string -> res Element.
(** [repr] of a container value, which [str] falls back to. *)
Variable repr : value -> string.

Definition fetch_hn_rss (feed_url : string) : string :=
  match http_get feed_url USER_AGENT with
  | Ok body => body
  | Raise e =>
      if isinstance e HTTPError then
        "HTTP Error fetching RSS: " +:+ exn_str e
      else if isinstance e TimeoutException then
        "Timeout fetching RSS from " +:+ feed_url
      else
        "Error fetching RSS: " +:+ exn_str e
  end.

(** [item.find(t).text if item.find(t) is not None else dflt] *)
Definition field (item : Element) (t : string) (dflt : string) : value :=
  match find item (Child t) with
  | Some el => of_text (text el)
  | None => VStr dflt
  end.

Definition story_of (item : Element) : gmap string value :=
  {[ "title" := field item "title" "No title";
     "link" := field item "link" EmptyString;
     "description" := field item "description" "No description";
     "pubDate" := field item "pubDate" EmptyString ]}.

Definition parse_hn_rss (rss_content : string) : list (gmap string value) :=
  match fromstring rss_content with
  | Ok root => map story_of (findall root (Descendant "item"))
  | Raise e => [ error_record ("Error parsing RSS: " +:+ exn_str e) ]
  end.

Definition format_hn_story (story : gmap string value) : string :=
  nl +:+ "Title: " +:+ str repr (get story "title" (VStr "Unknown")) +:+ nl
  +:+ "Link: " +:+ str repr (get story "link" (VStr "No link")) +:+ nl
  +:+ "Published: " +:+ str repr (get story "pubDate" (VStr "Unknown")) +:+ nl.

End Env.
End Hackernews.

(* ===================================================================== *)
(** * techcrunch.py                                                        *)
(* ===================================================================== *)

Module Techcrunch.
Import Py ET.

Definition DEFAULT_TC_RSS_URL : string := "https://techcrunch.com/feed/".
Definition USER_AGENT : string := "techcrunch-reader/1.0".

(** Helper function to safely extract element text. *)
Definition get_element_text (element : Element) (t : string) (dflt : string)
  : string :=
  text_or (find element (Child t)) dflt.

Definition article_of (item : Element) : gmap string value :=
  let guid_element := find item (Child "guid") in
  {[ "title" := VStr (get_element_text item "title" "No title");
     "link" := VStr (get_element_text item "link" EmptyString);
     "pubDate" := VStr (get_element_text item "pubDate" EmptyString);
     "description" := VStr (get_element_text item "description" "No description");
     "author" := VStr (text_or (find item (Descendant (qname DC "creator"))) EmptyString);
     "guid" := VStr (match guid_element with
                     | Some g => if text_truthy (text g)
                                 then default EmptyString (text g)
                                 else EmptyString
                     | None => EmptyString
                     end);
     "guid_permalink" := VStr (match guid_element with
                               | Some g => default "false" (attrib g !! "isPermaLink")
                               | None => "false"
                               end);
     "categories" := VList (texts (findall item (Child "category"))) ]}.

Section Env.
Variable http_get : string -> string -> res string.
Variable fromstring : string -> res Element.
Variable repr : value -> string.

Definition fetch_tc_rss (feed_url : string) : string :=
  match http_get feed_url USER_AGENT with
  | Ok body => body
  | Raise e =>
      if isinstance e HTTPError then
        "HTTP Error fetching RSS: " +:+ exn_str e
      else if isinstance e TimeoutException then
        "Timeout fetching RSS from " +:+ feed_url
      else
        "Error fetching RSS: " +:+ exn_str e
  end.

Definition parse_tc_rss (rss_content : string) : list (gmap string value) :=
  match fromstring rss_content with
  | Ok root =>
      match find root (Child "channel") with
      | None =>
          [ error_record "Invalid RSS format: No channel element found" ]
      | Some channel => map article_of (findall channel (Child "item"))
      end
  | Raise e =>
      if isinstance e ParseError then
        [ error_record ("Error parsing XML: " +:+ exn_str e) ]
      else
        [ error_record ("Error parsing RSS: " +:+ exn_str e) ]
  end.

Definition format_tc_story (story : gmap string value) : res string :=
  match story !! "error" with
  | Some err => Ok ("ERROR: " +:+ str repr err)
  | None =>
      let title := get story "title" (VStr "Unknown Title") in
      let link := get story "link" (VStr "No link available") in
      let pub_date := get story "pubDate" (VStr "Unknown publication date") in
      let description := get story "description" (VStr "No description available") in
      let author := get story "author" (VStr EmptyString) in
      let categories := get story "categories" (VList []) in
      let formatted :=
        nl +:+ "Title: " +:+ str repr title +:+ nl +:+ "Link: " +:+ str repr link in
      let formatted :=
        if truthy author then formatted +:+ nl +:+ "Author: " +:+ str repr author
        else formatted in
      let formatted := formatted +:+ nl +:+ "Published: " +:+ str repr pub_date in
      bind (if truthy categories then
              bind (join_value ", " categories)
                   (fun cs => Ok (formatted +:+ nl +:+ "Categories: " +:+ cs))
            else Ok formatted)
           (fun formatted =>
              Ok (formatted +:+ nl +:+ nl +:+ str repr description +:+ nl))
  end.

End Env.
End Techcrunch.

(* ===================================================================== *)
(** * wsj.py                                                               *)
(* ===================================================================== *)

Module Wsj.
Import Py ET.

Definition DEFAULT_WSJ_RSS_URL : string :=
  "https://feeds.content.dowjones.io/public/rss/RSSWSJD".
Definition USER_AGENT : string := "wsj-reader/1.0".

(** Helper function to safely extract element text: the plain child first,
    then the Dublin Core creator for the tag [creator], and for any other tag
    an element of that name below any child. *)
Definition get_element_text (element : Element) (t : string) (dflt : string)
  : string :=
  let el :=
    match find element (Child t) with
    | Some e => Some e
    | None =>
        if String.eqb t "creator" then find element (Descendant (qname DC "creator"))
        else find element (StarDescendant t)
    end in
  text_or el dflt.

(** Extract image URL from various possible elements. *)
Definition extract_image_url (item : Element) : string :=
  let url_of (el : option Element) : option string :=
    match el with
    | Some e => attrib e !! "url"
    | None => None
    end in
  match url_of (find item (Descendant (qname MRSS "content"))) with
  | Some u => u
  | None =>
      match url_of (find item (Descendant (qname MRSS "thumbnail"))) with
      | Some u => u
      | None =>
          match url_of (find item (Child "enclosure")) with
          | Some u => u
          | None => EmptyString
          end
      end
  end.

Definition article_of (item : Element) : gmap string value :=
  {[ "title" := VStr (get_element_text item "title" "No title");
     "link" := VStr (get_element_text item "link" EmptyString);
     "pubDate" := VStr (get_element_text item "pubDate" EmptyString);
     "description" := VStr (get_element_text item "description" "No description");
     "author" := VStr (join ", " (texts (findall item (Descendant (qname DC "creator")))));
     "guid" := VStr (get_element_text item "guid" EmptyString);
     "category" := VStr (get_element_text item "category" EmptyString);
     "id" := VStr (get_element_text item "id" EmptyString);
     "image_url" := VStr (extract_image_url item) ]}.

Section Env.
Variable http_get : string -> string -> res string.
Variable fromstring : string -> res Element.
Variable repr : value -> string.

Definition fetch_wsj_rss (feed_url : string) : string :=
  match http_get feed_url USER_AGENT with
  | Ok body => body
  | Raise e =>
      if isinstance e HTTPError then
        "HTTP Error fetching RSS: " +:+ exn_str e
      else if isinstance e TimeoutException then
        "Timeout fetching RSS from " +:+ feed_url
      else
        "Error fetching RSS: " +:+ exn_str e
  end.

Definition parse_wsj_rss (rss_content : string) : list (gmap string value) :=
  match fromstring rss_content with
  | Ok root =>
      match find root (Child "channel") with
      | None =>
          [ error_record "Invalid RSS format: No channel element found" ]
      | Some channel => map article_of (findall channel (Child "item"))
      end
  | Raise e =>
      if isinstance e ParseError then
        [ error_record ("Error parsing XML: " +:+ exn_str e) ]
      else
        [ error_record ("Error parsing RSS: " +:+ exn_str e) ]
  end.

Definition format_wsj_story (story : gmap string value) : string :=
  match story !! "error" with
  | Some err => "ERROR: " +:+ str repr err
  | None =>
      let title := get story "title" (VStr "Unknown Title") in
      let link := get story "link" (VStr "No link available") in
      let pub_date := get story "pubDate" (VStr "Unknown publication date") in
      let description := get story "description" (VStr "No description available") in
      let author := get story "author" (VStr EmptyString) in
      let formatted :=
        nl +:+ "Title: " +:+ str repr title +:+ nl +:+ "Link: " +:+ str repr link in
      let formatted :=
        if truthy author then formatted +:+ nl +:+ "Author: " +:+ str repr author
        else formatted in
      formatted +:+ nl +:+ "Published: " +:+ str repr pub_date +:+ nl
      +:+ nl +:+ str repr description +:+ nl
  end.

End Env.
End Wsj.

(* ===================================================================== *)
(** * wired.py                                                             *)
(* ===================================================================== *)

Module Wired.
Import Py ET.

Definition DEFAULT_WIRED_RSS_URL : string :=
  "https://www.wired.com/feed/tag/ai/latest/rss".
Definition USER_AGENT : string := "wired-reader/1.0".

(** Helper function to safely extract element text. *)
Definition get_element_text (element : Element) (t : string) (dflt : string)
  : string :=
  text_or (find element (Child t)) dflt.

Definition article_of (item : Element) : gmap string value :=
  let thumbnail :=
    match find item (Descendant (qname MRSS "thumbnail")) with
    | Some th => match attrib th !! "url" with
                 | Some u => Some (th, u)
                 | None => None
                 end
    | None => None
    end in
  {[ "title" := VStr (get_element_text item "title" "No title");
     "link" := VStr (get_element_text item "link" EmptyString);
     "pubDate" := VStr (get_element_text item "pubDate" EmptyString);
     "description" := VStr (get_element_text item "description" "No description");
     "guid" := VStr (get_element_text item "guid" EmptyString);
     "author" := VStr (text_or (find item (Descendant (qname DC "creator"))) EmptyString);
     "subject" := VStr (text_or (find item (Descendant (qname DC "subject"))) EmptyString);
     "categories" := VList (texts (findall item (Child "category")));
     "image_url" := VStr (match thumbnail with
                          | Some (_, u) => u
                          | None => EmptyString
                          end);
     "image_width" := VStr (match thumbnail with
                            | Some (th, _) => default EmptyString (attrib th !! "width")
                            | None => EmptyString
                            end);
     "image_height" := VStr (match thumbnail with
                             | Some (th, _) => default EmptyString (attrib th !! "height")
                             | None => EmptyString
                             end) ]}.

Section Env.
Variable http_get : string -> string -> res string.
Variable fromstring : string -> res Element.
Variable repr : value -> string.

Definition fetch_wired_rss (feed_url : string) : string :=
  match http_get feed_url USER_AGENT with
  | Ok body => body
  | Raise e =>
      if isinstance e HTTPError then
        "HTTP Error fetching RSS: " +:+ exn_str e
      else if isinstance e TimeoutException then
        "Timeout fetching RSS from " +:+ feed_url
      else
        "Error fetching RSS: " +:+ exn_str e
  end.

Definition parse_wired_rss (rss_content : string) : list (gmap string value) :=
  match fromstring rss_content with
  | Ok root =>
      match find root (Child "channel") with
      | None =>
          [ error_record "Invalid RSS format: No channel element found" ]
      | Some channel => map article_of (findall channel (Child "item"))
      end
  | Raise e =>
      if isinstance e ParseError then
        [ error_record ("Error parsing XML: " +:+ exn_str e) ]
      else
        [ error_record ("Error parsing RSS: " +:+ exn_str e) ]
  end.

Definition format_wired_story (story : gmap string value) : res string :=
  match story !! "error" with
  | Some err => Ok ("ERROR: " +:+ str repr err)
  | None =>
      let title := get story "title" (VStr "Unknown Title") in
      let link := get story "link" (VStr "No link available") in
      let pub_date := get story "pubDate" (VStr "Unknown publication date") in
      let description := get story "description" (VStr "No description available") in
      let author := get story "author" (VStr EmptyString) in
      let subject := get story "subject" (VStr EmptyString) in
      let categories := get story "categories" (VList []) in
      let formatted :=
        nl +:+ "Title: " +:+ str repr title +:+ nl +:+ "Link: " +:+ str repr link in
      let formatted :=
        if truthy author then formatted +:+ nl +:+ "Author: " +:+ str repr author
        else formatted in
      let formatted :=
        if truthy subject then formatted +:+ nl +:+ "Subject: " +:+ str repr subject
        else formatted in
      let formatted := formatted +:+ nl +:+ "Published: " +:+ str repr pub_date in
      bind (if truthy categories then
              bind (join_value ", " categories)
                   (fun cs => Ok (formatted +:+ nl +:+ "Categories: " +:+ cs))
            else Ok formatted)
           (fun formatted =>
              Ok (formatted +:+ nl +:+ nl +:+ str repr description +:+ nl))
  end.

End Env.
End Wired.

(* ===================================================================== *)
(** * ainews.py                                                            *)
(* ===================================================================== *)

Module Ainews.
Import Py ET Re.

Definition DEFAULT_AINEWS_RSS_URL : string := "https://news.smol.ai/rss.xml".
Definition USER_AGENT : string := "ainews-reader/1.0".

(** The patterns of [extract_twitter_recap], in the order they are used:
    - [<h1>AI Twitter Recap</h1>(.*?)(?:<h1>|$)] with [re.DOTALL],
    - [<li>(.*?)</li>] with [re.DOTALL],
    - [<.*?>],
    - [^(.*?):],
    - the opening of an anchor up to the closing quote of its [href], whose
      group is [[^q]+] for the double quote [q]. *)
Definition recap_section_re : re :=
  Seq (Lit "<h1>AI Twitter Recap</h1>")
      (Seq (Group 1 (LazyStar Dot)) (Alt (Lit "<h1>") Eos)).

Definition bullet_re : re :=
  Seq (Lit "<li>") (Seq (Group 1 (LazyStar Dot)) (Lit "</li>")).

Definition tag_re : re :=
  Seq (Lit "<") (Seq (LazyStar DotLine) (Lit ">")).

Definition title_re : re :=
  Seq Bos (Seq (Group 1 (LazyStar DotLine)) (Lit ":")).

Definition href_re : re :=
  Seq (Lit ("<a href=" +:+ dq)) (Seq (Group 1 (Plus (NotChar dq_char))) (Lit dq)).

Section Env.
Variable http_get : string -> string -> res string.
Variable fromstring : string -> res Element.
Variable repr : value -> string.
(** [_charref.sub(_replace_charref, s)]: the replacement of the character
    references of [s], which [html.unescape] runs when [s] has an ampersand. *)
Variable charref_sub : string -> string.

Definition fetch_ainews_rss (feed_url : string) : string :=
  match http_get feed_url USER_AGENT with
  | Ok body => body
  | Raise e =>
      if isinstance e HTTPError then
        "HTTP Error fetching RSS: " +:+ exn_str e
      else if isinstance e TimeoutException then
        "Timeout fetching RSS from " +:+ feed_url
      else
        "Error fetching RSS: " +:+ exn_str e
  end.

(** [html.unescape(s)] *)
Definition unescape (s : string) : string :=
  if contains_char "&"%char s then charref_sub s else s.

Definition bullet_point (bullet : string) : gmap string string :=
  let clean_bullet := strip (sub_empty tag_re bullet) in
  let title_match := rmatch title_re clean_bullet in
  let title :=
    match title_match with
    | Some m => strip (default EmptyString (group m 1))
    | None => clean_bullet
    end in
  let description :=
    match title_match with
    | Some m => strip (drop_chars (String.length (m_text m)) clean_bullet)
    | None => EmptyString
    end in
  let link :=
    match search href_re bullet with
    | Some m => default EmptyString (group m 1)
    | None => EmptyString
    end in
  {[ "title" := title; "description" := description; "link" := link ]}.

Definition extract_twitter_recap (content : string) : list (gmap string string) :=
  let content := unescape content in
  match search recap_section_re content with
  | None => []
  | Some twitter_recap_match =>
      let twitter_recap_section :=
        default EmptyString (group twitter_recap_match 1) in
      map bullet_point (findall1 bullet_re twitter_recap_section)
  end.

(** [item.find(t).text if item.find(t) is not None else dflt] *)
Definition field (item : Element) (t : string) (dflt : string) : value :=
  match find item (Child t) with
  | Some el => of_text (text el)
  | None => VStr dflt
  end.

Definition story_of (item : Element) : gmap string value :=
  let content_element := find item (Descendant (qname CONTENT "encoded")) in
  let content : option string :=
    match content_element with
    | Some el => if text_truthy (text el) then text el else None
    | None => None
    end in
  {[ "title" := field item "title" "No title";
     "link" := field item "link" EmptyString;
     "description" := field item "description" "No description";
     "pubDate" := field item "pubDate" EmptyString;
     "content" := VStr (default EmptyString content);
     "twitter_recap" := VDicts (match content with
                                | Some c => extract_twitter_recap c
                                | None => []
                                end);
     "categories" := VList (texts (findall item (Child "category"))) ]}.

Definition parse_ainews_rss (rss_content : string) : list (gmap string value) :=
  match fromstring rss_content with
  | Ok root =>
      match findall root (Descendant "item") with
      | item :: _ => [ story_of item ]
      | [] => []
      end
  | Raise e =>
      if isinstance e ParseError then
        [ error_record ("Error parsing XML: " +:+ exn_str e) ]
      else
        [ error_record ("Error parsing RSS: " +:+ exn_str e) ]
  end.

(** One round of the loop over the recap items. *)
Definition format_recap_item (formatted : string) (item : gmap string string)
  : res string :=
  bind (getitem item "title") (fun t =>
  bind (getitem item "link") (fun l =>
  bind (getitem item "description") (fun d =>
  Ok (formatted +:+ "Title: " +:+ t +:+ nl +:+ "Link: " +:+ l +:+ nl
      +:+ "Description: " +:+ d +:+ nl +:+ nl)))).

Fixpoint format_recap (formatted : string) (items : list (gmap string string))
  : res string :=
  match items with
  | [] => Ok formatted
  | item :: items' =>
      bind (format_recap_item formatted item) (fun f => format_recap f items')
  end.

Definition format_ainews_story (story : gmap string value) : res string :=
  match story !! "error" with
  | Some err => Ok ("ERROR: " +:+ str repr err)
  | None =>
      let title := get story "title" (VStr "Unknown Title") in
      let link := get story "link" (VStr "No link available") in
      let pub_date := get story "pubDate" (VStr "Unknown publication date") in
      let description := get story "description" (VStr "No description available") in
      let formatted :=
        nl +:+ "Title: " +:+ str repr title +:+ nl
        +:+ "Link: " +:+ str repr link +:+ nl
        +:+ "Description: " +:+ str repr description +:+ nl
        +:+ "Published: " +:+ str repr pub_date +:+ nl in
      let twitter_recap := get story "twitter_recap" (VDicts []) in
      bind (if truthy twitter_recap then
              match twitter_recap with
              | VDicts items => format_recap (formatted +:+ nl +:+ nl) items
              | _ => Raise (mkExn TypeError "string indices must be integers, not 'str'")
              end
            else Ok formatted)
           (fun formatted =>
              let categories := get story "categories" (VList []) in
              if truthy categories then
                bind (join_value ", " categories)
                     (fun cs => Ok (formatted +:+ nl +:+ "Categories: " +:+ cs))
              else Ok formatted)
  end.

End Env.
End Ainews.

(* ===================================================================== *)
(** * app.py: the tools                                                    *)
(* ===================================================================== *)

Module App.
Import Py ET.

(** The separator between two formatted stories. *)
Definition SEPARATOR : string := nl +:+ "---" +:+ nl.

(** [stories and "error" in stories[0]], with the value of the key. *)
Definition first_error (stories : list (gmap string value)) : option value :=
  match stories with
  | s0 :: _ => s0 !! "error"
  | [] => None
  end.

Section Env.
Variable http_get : string -> string -> res string.
Variable fromstring : string -> res Element.
Variable repr : value -> string.
Variable charref_sub : string -> string.

Definition get_hackernews_stories (feed_url : string) (count : Z) : res value :=
  let rss_content := Hackernews.fetch_hn_rss http_get feed_url in
  if startswith rss_content "Error" then Ok (VStr rss_content)
  else
    let stories := Hackernews.parse_hn_rss fromstring rss_content in
    let stories := slice_to stories (Z.min count (Z.of_nat (length stories))) in
    match stories with
    | [] => Ok (VStr "No stories found.")
    | _ =>
        let formatted_stories := map (Hackernews.format_hn_story repr) stories in
        Ok (VStr (join SEPARATOR formatted_stories))
    end.

Definition get_wallstreetjournal_stories (feed_url : string) (count : Z)
  : res value :=
  let rss_content := Wsj.fetch_wsj_rss http_get feed_url in
  if startswith rss_content "Error" then Ok (VStr rss_content)
  else
    let stories := Wsj.parse_wsj_rss fromstring rss_content in
    match first_error stories with
    | Some err => Ok err
    | None =>
        let stories := slice_to stories (Z.min count (Z.of_nat (length stories))) in
        match stories with
        | [] => Ok (VStr "No stories found.")
        | _ =>
            let formatted_stories := map (Wsj.format_wsj_story repr) stories in
            Ok (VStr (join SEPARATOR formatted_stories))
        end
    end.

Definition get_techcrunch_stories (feed_url : string) (count : Z) : res value :=
  let rss_content := Techcrunch.fetch_tc_rss http_get feed_url in
  if startswith rss_content "Error" then Ok (VStr rss_content)
  else
    let stories := Techcrunch.parse_tc_rss fromstring rss_content in
    match first_error stories with
    | Some err => Ok err
    | None =>
        let stories := slice_to stories (Z.min count (Z.of_nat (length stories))) in
        match stories with
        | [] => Ok (VStr "No stories found.")
        | _ =>
            bind (map_res (Techcrunch.format_tc_story repr) stories)
                 (fun formatted_stories =>
                    Ok (VStr (join SEPARATOR formatted_stories)))
        end
    end.

Definition get_ainews_latest (feed_url : string) : res value :=
  let rss_content := Ainews.fetch_ainews_rss http_get feed_url in
  if startswith rss_content "Error" then Ok (VStr rss_content)
  else
    let stories := Ainews.parse_ainews_rss fromstring charref_sub rss_content in
    match first_error stories with
    | Some err => Ok err
    | None =>
        match stories with
        | [] => Ok (VStr "No stories found.")
        | s0 :: _ => bind (Ainews.format_ainews_story repr s0) (fun f => Ok (VStr f))
        end
    end.

Definition get_wired_stories (feed_url : string) (count : Z) : res value :=
  let rss_content := Wired.fetch_wired_rss http_get feed_url in
  if startswith rss_content "Error" then Ok (VStr rss_content)
  else
    let stories := Wired.parse_wired_rss fromstring rss_content in
    match first_error stories with
    | Some err => Ok err
    | None =>
        let stories := slice_to stories (Z.min count (Z.of_nat (length stories))) in
        match stories with
        | [] => Ok (VStr "No stories found.")
        | _ =>
            bind (map_res (Wired.format_wired_story repr) stories)
                 (fun formatted_stories =>
                    Ok (VStr (join SEPARATOR formatted_stories)))
        end
    end.

End Env.
End App.

(* ===================================================================== *)
(** * Sample environments and documents used by the examples              *)
(* ===================================================================== *)

Module Samples.
Import Py ET.

Definition ids : list string :=
  ["a"; "b"; "c"; "d"; "e"; "f"; "g"; "h"; "i"; "j"].

(** A feed with ten items, as text and as the tree it parses to. *)
Definition item_xml (i : string) : string :=
  "<item><title>Story " +:+ i +:+ "</title><link>http://example.com/" +:+ i
  +:+ "</link></item>".

Definition feed_xml : string :=
  "<rss><channel>" +:+ String.concat EmptyString (map item_xml ids)
  +:+ "</channel></rss>".

Definition leaf (t x : string) : Element := mkElement t ∅ (Some x) [].

Definition item_tree (i : string) : Element :=
  mkElement "item" ∅ None
    [ leaf "title" ("Story " +:+ i); leaf "link" ("http://example.com/" +:+ i) ].

Definition feed_tree : Element :=
  mkElement "rss" ∅ None [ mkElement "channel" ∅ None (map item_tree ids) ].

(** A well-formed document whose root has no channel child. *)
Definition no_channel_xml : string := "<feed><entry/></feed>".
Definition no_channel_tree : Element :=
  mkElement "feed" ∅ None [ mkElement "entry" ∅ None [] ].

(** A stand-in for [ET.fromstring] that knows the two documents above and
    rejects any other text the way expat rejects a text with no markup. *)
Definition syntax_error : exn :=
  mkExn ParseError "syntax error: line 1, column 0".

Definition sample_fromstring (s : string) : res Element :=
  if String.eqb s feed_xml then Ok feed_tree
  else if String.eqb s no_channel_xml then Ok no_channel_tree
  else Raise syntax_error.

(** Network stand-ins: one that serves the ten item feed, one whose request
    ends in the given exception. *)
Definition serve_feed (url agent : string) : res string := Ok feed_xml.
Definition failing (e : exn) (url agent : string) : res string := Raise e.

Definition sample_repr (v : value) : string := "[...]".

(** A text without ampersand is never handed to the substitution, so the
    identity serves wherever such a text is processed. *)
Definition no_charrefs (s : string) : string := s.

(** The timeout classes of httpx. *)
Definition timeout_classes : list exn_class :=
  [ TimeoutException; ConnectTimeout; ReadTimeout; WriteTimeout; PoolTimeout ].

(** An item carrying a Media RSS content, a Media RSS thumbnail and an
    enclosure, each with its own URL. *)
Definition url_attr (u : string) : gmap string string := {[ "url" := u ]}.

Definition media_item : Element :=
  mkElement "item" ∅ None
    [ leaf "title" "With pictures";
      mkElement "enclosure" (url_attr "http://img/enclosure.jpg") None [];
      mkElement (qname MRSS "group") ∅ None
        [ mkElement (qname MRSS "thumbnail") (url_attr "http://img/thumb.jpg") None [];
          mkElement (qname MRSS "content") (url_attr "http://img/content.jpg") None [] ] ].

(** The text of the recap example, up to and including the heading that
    closes the section; what follows it is a parameter. *)
Definition recap_head : string :=
  "<h1>AI Twitter Recap</h1><ul><li>OpenAI: released a model <a href="
  +:+ dq +:+ "http://x" +:+ dq +:+ ">link</a></li></ul><h1>Other</h1>".

Definition recap_example : string := recap_head +:+ "...".

Definition recap_item (title description link : string) : gmap string string :=
  {[ "title" := title; "description" := description; "link" := link ]}.

(** A network stand-in that answers every request with the given body. *)
Definition serve (body : string) (url agent : string) : res string := Ok body.

(** An item whose title element is present and empty, as [<title/>] parses. *)
Definition untitled_item : Element :=
  mkElement "item" ∅ None
    [ mkElement "title" ∅ None []; leaf "link" "http://example.com/x" ].

(** An item that keeps its title inside a wrapper element. *)
Definition wrapped_item : Element :=
  mkElement "item" ∅ None
    [ mkElement "meta" ∅ None [ leaf "title" "Nested title" ] ].

(** A content with two sections of bullet points. *)
Definition two_sections : string :=
  "<p>Intro</p><h1>AI Twitter Recap</h1><ul><li>Ann: ships</li></ul>"
  +:+ "<h1>AI Reddit Recap</h1><ul><li>Bob: posts</li></ul>".

(** A bullet of two lines, with a colon on the second line only. *)
Definition two_line_bullet : string := "Summary" +:+ nl +:+ "Key: value".

(** A bullet with two anchors. *)
Definition two_anchor_bullet : string :=
  "Qwen: see <a href=" +:+ dq +:+ "http://first" +:+ dq +:+ ">one</a> and <a href="
  +:+ dq +:+ "http://second" +:+ dq +:+ ">two</a>".

(** An item with two Dublin Core creators. *)
Definition two_authors_item : Element :=
  mkElement "item" ∅ None
    [ leaf "title" "Joint work";
      leaf (qname DC "creator") "Alice"; leaf (qname DC "creator") "Bob" ].

(** An item whose thumbnail has a width but no URL. *)
Definition thumb_no_url_item : Element :=
  mkElement "item" ∅ None
    [ mkElement (qname MRSS "thumbnail") {[ "width" := "640" ]} None [];
      mkElement (qname MRSS "content") (url_attr "http://img/content.jpg") None [] ].

End Samples.

(* ===================================================================== *)
(** * Predicates used in the statements                                   *)
(* ===================================================================== *)

Module Spec.
Import Py.

(** The record carries an [error] key. *)
Definition is_error (r : gmap string value) : Prop := is_Some (r !! "error").

(** The record is an article: it has no [error] key. *)
Definition is_article (r : gmap string value) : Prop := r !! "error" = None.

(** A result list in which an error record, if there is one, stands alone. *)
Definition error_is_sole (stories : list (gmap string value)) : Prop :=
  forall r, r ∈ stories -> is_error r -> stories = [r].

(** The [url] attribute of the first element that [p] finds under [item],
    when there is such an element and it has the attribute. *)
Definition url_at (item : ET.Element) (p : ET.path) : option string :=
  match ET.find item p with
  | Some el => ET.attrib el !! "url"
  | None => None
  end.

(** [fs] are the formatted strings of [stories], one by one and in order,
    for a formatter that may raise. *)
Definition formatted_by (fmt : gmap string value -> res string)
  (stories : list (gmap string value)) (fs : list string) : Prop :=
  Forall2 (fun s f => fmt s = Ok f) stories fs.

(** The outcome [out] of a tool is the first [n] stories, each formatted by
    [fmt], joined by the separator. *)
Definition joined_first (n : nat) (fmt : gmap string value -> res string)
  (stories : list (gmap string value)) (out : res value) : Prop :=
  exists fs, formatted_by fmt (take n stories) fs
             /\ out = Ok (VStr (join App.SEPARATOR fs)).

(** The text begins with the character [a]. *)
Definition begins_with (a : ascii) (s : string) : Prop :=
  exists t, s = String a t.

(** The texts a tool can return for a body that it hands to the parser: the
    notice that there are no stories, a text that begins with a line feed
    (formatted stories), or one that begins with the letter E or I (the
    message of an error record). *)
Definition tool_text (r : string) : Prop :=
  r = "No stories found."
  \/ begins_with nl_char r
  \/ begins_with "E" r
  \/ begins_with "I" r.

(** The messages a parser puts in an error record. *)
Definition parse_message (msg : string) : Prop :=
  msg = "Invalid RSS format: No channel element found"
  \/ (exists d, msg = "Error parsing XML: " +:+ d)
  \/ (exists d, msg = "Error parsing RSS: " +:+ d).

(** What a parser can return: one error record, or the records that [mk]
    builds from a list of items. *)
Inductive parse_shape (mk : ET.Element -> gmap string value)
  (stories : list (gmap string value)) : Prop :=
| shape_error (msg : string) (E : stories = [error_record msg])
    (M : parse_message msg)
| shape_articles (items : list ET.Element) (E : stories = map mk items).

(** [p] occurs in [s]: some suffix of [s] begins with [p]. *)
Fixpoint occurs (p s : string) : bool :=
  match Re.strip_prefix p s with
  | Some _ => true
  | None =>
      match s with
      | String _ s' => occurs p s'
      | EmptyString => false
      end
  end.

(** The keys of the records of each parser. *)
Definition hn_keys : gset string :=
  {[ "title"; "link"; "description"; "pubDate" ]}.
Definition tc_keys : gset string :=
  {[ "title"; "link"; "pubDate"; "description"; "author"; "guid";
     "guid_permalink"; "categories" ]}.
Definition wsj_keys : gset string :=
  {[ "title"; "link"; "pubDate"; "description"; "author"; "guid"; "category";
     "id"; "image_url" ]}.
Definition wired_keys : gset string :=
  {[ "title"; "link"; "pubDate"; "description"; "guid"; "author"; "subject";
     "categories"; "image_url"; "image_width"; "image_height" ]}.
Definition ainews_keys : gset string :=
  {[ "title"; "link"; "description"; "pubDate"; "content"; "twitter_recap";
     "categories" ]}.
Definition recap_keys : gset string := {[ "title"; "description"; "link" ]}.

(** What a tool call comes to, given the text [body] its fetcher returned:
    always a text, and one of four kinds.  It is the body itself when the
    body begins with [Error]; otherwise the notice that there are no stories,
    the bare message of a parser, or formatted stories, which begin with a
    line feed. *)
Definition tool_outcome (body : string) (out : res value) : Prop :=
  exists r, out = Ok (VStr r)
            /\ ((startswith body "Error" = true /\ r = body)
                \/ r = "No stories found."
                \/ parse_message r
                \/ begins_with nl_char r).

(** The value is a text that is not empty. *)
Definition nonempty_text (v : option value) : Prop :=
  exists t, v = Some (VStr t) /\ t <> EmptyString.

(** Two records agree on every key of [ks]. *)
Definition agree_on (ks : list string) (s1 s2 : gmap string value) : Prop :=
  Forall (fun k => s1 !! k = s2 !! k) ks.

(** The outcome [out] of a tool is the text made of the first three of
    [stories], each formatted by [fmt], in their order, with the text [sep]
    between one and the next and nothing before or after. *)
Definition first_three_joined (sep : string)
  (fmt : gmap string value -> res string)
  (stories : list (gmap string value)) (out : res value) : Prop :=
  exists s1 s2 s3 rest f1 f2 f3,
    stories = s1 :: s2 :: s3 :: rest
    /\ fmt s1 = Ok f1 /\ fmt s2 = Ok f2 /\ fmt s3 = Ok f3
    /\ out = Ok (VStr (f1 +:+ sep +:+ f2 +:+ sep +:+ f3)).

(** The text [r] for the records [shown] that a tool is left with: the
    notice when there is none; otherwise every one of them formatted by
    [fmt], in order, with a line feed, three hyphens and a line feed between
    one and the next, a text that begins with a line feed. *)
Definition shown_text (fmt : gmap string value -> res string)
  (shown : list (gmap string value)) (r : string) : Prop :=
  match shown with
  | [] => r = "No stories found."
  | _ :: _ =>
      begins_with nl_char r
      /\ exists fs, formatted_by fmt shown fs
                    /\ r = join (String "010"%char "---" +:+ String "010"%char "") fs
  end.

(** What a tool call comes to, case by case.  [body] is the text of the
    fetcher, [stories] the result of the parser on it, [shown] the records
    the tool keeps, and [checks_error] tells whether the tool looks for an
    error record.  The outcome is always a text [r]: the body itself when the
    body begins with [Error]; otherwise, in a tool that looks for it, the bare
    message of the error record when the parser returned one; and in every
    other case the text of [shown]. *)
Definition tool_answer (checks_error : bool)
  (fmt : gmap string value -> res string) (body : string)
  (stories shown : list (gmap string value)) (out : res value) : Prop :=
  exists r, out = Ok (VStr r)
    /\ if startswith body "Error" then r = body
       else if checks_error
            then (stories = [error_record r] /\ parse_message r)
                 \/ (Forall is_article stories /\ shown_text fmt shown r)
            else shown_text fmt shown r.

End Spec.

(* ===================================================================== *)
(** * Properties                                                           *)
(* ===================================================================== *)

Import Py ET.

(** ** Strings *)

Lemma append_cons_head (a : ascii) (s t : string) :
  String a s +:+ t = String a (s +:+ t).
Proof. reflexivity. Qed.

(** A join whose first piece starts with [a] starts with [a]. *)
Lemma join_head (sep : string) (a : ascii) (x : string) (xs : list string) :
  exists t, join sep (String a x :: xs) = String a t.
Proof.
  unfold join. destruct xs as [|y ys]; simpl; eauto.
Qed.

(** ** Exceptions *)

(** Whatever the timeout handler of a fetcher would catch, the HTTP error
    handler before it catches first. *)
Lemma timeout_handler_shadowed (e : exn) :
  isinstance e TimeoutException = true -> isinstance e HTTPError = true.
Proof. destruct e as [c msg]. destruct c; vm_compute; congruence. Qed.

(** C3.  A request that times out raises one of the timeout classes of
    httpx.  Each of them derives from [HTTPError], whose handler comes first
    in every fetcher, so the fetcher answers with the HTTP error text and the
    timeout text is never produced. *)
Theorem fetch_timeout_yields_http_error :
  Forall (fun c : exn_class =>
            forall (url msg : string),
              let net := Samples.failing (mkExn c msg) in
              let got := "HTTP Error fetching RSS: " +:+ msg in
              Hackernews.fetch_hn_rss net url = got
              /\ Techcrunch.fetch_tc_rss net url = got
              /\ Wsj.fetch_wsj_rss net url = got
              /\ Wired.fetch_wired_rss net url = got
              /\ Ainews.fetch_ainews_rss net url = got
              /\ got <> "Timeout fetching RSS from " +:+ url)
         Samples.timeout_classes.
Proof.
  repeat constructor; try reflexivity; discriminate.
Qed.

(** ** Story dictionaries *)

Lemma error_record_lookup (msg : string) :
  error_record msg !! "error" = Some (VStr msg).
Proof. reflexivity. Qed.

Lemma error_record_inj (m1 m2 : string) :
  error_record m1 = error_record m2 -> m1 = m2.
Proof.
  intros H. apply (f_equal (fun d => d !! "error")) in H.
  rewrite !error_record_lookup in H. congruence.
Qed.

Lemma error_list_inj (m1 m2 : string) :
  [ error_record m1 ] = [ error_record m2 ] -> m1 = m2.
Proof.
  intros H. apply error_record_inj.
  exact (f_equal (fun l => match l with [d] => d | _ => ∅ end) H).
Qed.

Lemma hn_story_no_error (item : Element) :
  Hackernews.story_of item !! "error" = None.
Proof. reflexivity. Qed.

Lemma tc_article_no_error (item : Element) :
  Techcrunch.article_of item !! "error" = None.
Proof. reflexivity. Qed.

Lemma wsj_article_no_error (item : Element) :
  Wsj.article_of item !! "error" = None.
Proof. reflexivity. Qed.

Lemma wired_article_no_error (item : Element) :
  Wired.article_of item !! "error" = None.
Proof. reflexivity. Qed.

Lemma ainews_story_no_error (charref_sub : string -> string) (item : Element) :
  Ainews.story_of charref_sub item !! "error" = None.
Proof. reflexivity. Qed.

(** ** Parsers *)

Section Parsers.
Variable fromstring : string -> res Element.
Variable charref_sub : string -> string.

Ltac error_shape :=
  refine (Spec.shape_error _ _ _ eq_refl _); unfold Spec.parse_message; eauto.

Lemma parse_hn_rss_shape (s : string) :
  Spec.parse_shape Hackernews.story_of (Hackernews.parse_hn_rss fromstring s).
Proof.
  unfold Hackernews.parse_hn_rss. destruct (fromstring s) as [root|e].
  - eapply Spec.shape_articles; reflexivity.
  - error_shape.
Qed.

Lemma parse_tc_rss_shape (s : string) :
  Spec.parse_shape Techcrunch.article_of (Techcrunch.parse_tc_rss fromstring s).
Proof.
  unfold Techcrunch.parse_tc_rss. destruct (fromstring s) as [root|e].
  - destruct (find root (Child "channel")) as [channel|].
    + eapply Spec.shape_articles; reflexivity.
    + error_shape.
  - destruct (isinstance e ParseError); error_shape.
Qed.

Lemma parse_wsj_rss_shape (s : string) :
  Spec.parse_shape Wsj.article_of (Wsj.parse_wsj_rss fromstring s).
Proof.
  unfold Wsj.parse_wsj_rss. destruct (fromstring s) as [root|e].
  - destruct (find root (Child "channel")) as [channel|].
    + eapply Spec.shape_articles; reflexivity.
    + error_shape.
  - destruct (isinstance e ParseError); error_shape.
Qed.

Lemma parse_wired_rss_shape (s : string) :
  Spec.parse_shape Wired.article_of (Wired.parse_wired_rss fromstring s).
Proof.
  unfold Wired.parse_wired_rss. destruct (fromstring s) as [root|e].
  - destruct (find root (Child "channel")) as [channel|].
    + eapply Spec.shape_articles; reflexivity.
    + error_shape.
  - destruct (isinstance e ParseError); error_shape.
Qed.

Lemma parse_ainews_rss_shape (s : string) :
  Spec.parse_shape (Ainews.story_of charref_sub)
    (Ainews.parse_ainews_rss fromstring charref_sub s).
Proof.
  unfold Ainews.parse_ainews_rss. destruct (fromstring s) as [root|e].
  - destruct (findall root (Descendant "item")) as [|item items].
    + by apply Spec.shape_articles with (items := []).
    + by apply Spec.shape_articles with (items := [item]).
  - destruct (isinstance e ParseError); error_shape.
Qed.

Lemma shape_error_is_sole (mk : Element -> gmap string value)
  (stories : list (gmap string value)) :
  (forall item, mk item !! "error" = None) ->
  Spec.parse_shape mk stories -> Spec.error_is_sole stories.
Proof.
  intros Hmk [msg -> _|items ->] r Hr Herr.
  - apply list_elem_of_singleton in Hr. by subst.
  - apply list_elem_of_In, in_map_iff in Hr as (item & <- & _).
    unfold Spec.is_error in Herr. rewrite Hmk in Herr. by destruct Herr.
Qed.

(** A list of articles only is the second shape. *)
Lemma shape_of_articles (mk : Element -> gmap string value)
  (stories : list (gmap string value)) :
  Spec.parse_shape mk stories -> Forall Spec.is_article stories ->
  exists items, stories = map mk items.
Proof.
  intros [msg -> _|items ->] Hart; [|eauto].
  apply Forall_inv in Hart. unfold Spec.is_article in Hart.
  rewrite error_record_lookup in Hart. discriminate Hart.
Qed.

(** A list of ten records is the second shape. *)
Lemma shape_of_ten (mk : Element -> gmap string value)
  (stories : list (gmap string value)) :
  Spec.parse_shape mk stories -> length stories = 10%nat ->
  exists items, stories = map mk items.
Proof.
  intros [msg -> _|items ->] Hlen; [discriminate Hlen | eauto].
Qed.

(** C9.  Whatever the input text, the list a parser returns never mixes an
    error record with article records: a record with an [error] key is the
    only element of the list it is in. *)
Theorem parsers_error_is_sole (s : string) :
  Spec.error_is_sole (Hackernews.parse_hn_rss fromstring s)
  /\ Spec.error_is_sole (Techcrunch.parse_tc_rss fromstring s)
  /\ Spec.error_is_sole (Wsj.parse_wsj_rss fromstring s)
  /\ Spec.error_is_sole (Wired.parse_wired_rss fromstring s)
  /\ Spec.error_is_sole (Ainews.parse_ainews_rss fromstring charref_sub s).
Proof.
  repeat split.
  - eapply shape_error_is_sole; [apply hn_story_no_error | apply parse_hn_rss_shape].
  - eapply shape_error_is_sole; [apply tc_article_no_error | apply parse_tc_rss_shape].
  - eapply shape_error_is_sole; [apply wsj_article_no_error | apply parse_wsj_rss_shape].
  - eapply shape_error_is_sole; [apply wired_article_no_error | apply parse_wired_rss_shape].
  - eapply shape_error_is_sole;
      [apply ainews_story_no_error | apply parse_ainews_rss_shape].
Qed.

(** C6.  TechCrunch, WSJ and Wired look for the channel among the children
    of the root.  For a well-formed document whose root has no such child,
    each of the three parsers returns the single error record that says so. *)
Theorem parse_without_channel (s : string) (root : Element) :
  fromstring s = Ok root ->
  find root (Child "channel") = None ->
  let missing := [ error_record "Invalid RSS format: No channel element found" ] in
  Techcrunch.parse_tc_rss fromstring s = missing
  /\ Wsj.parse_wsj_rss fromstring s = missing
  /\ Wired.parse_wired_rss fromstring s = missing.
Proof.
  intros Hroot Hchannel missing.
  unfold Techcrunch.parse_tc_rss, Wsj.parse_wsj_rss, Wired.parse_wired_rss.
  rewrite Hroot, Hchannel. auto.
Qed.

(** C4, as the code has it.  For a text that [ET.fromstring] rejects with a
    [ParseError], every parser returns exactly one error record.  In the
    TechCrunch, WSJ, Wired and AI news parsers its message is the prefix
    [Error parsing XML: ] followed by the diagnostic; the Hacker News parser
    has one handler for every exception, and its message is the prefix
    [Error parsing RSS: ] followed by the diagnostic. *)
Theorem parse_malformed_xml (s : string) (e : exn) :
  fromstring s = Raise e ->
  isinstance e ParseError = true ->
  Techcrunch.parse_tc_rss fromstring s
    = [ error_record ("Error parsing XML: " +:+ exn_str e) ]
  /\ Wsj.parse_wsj_rss fromstring s
    = [ error_record ("Error parsing XML: " +:+ exn_str e) ]
  /\ Wired.parse_wired_rss fromstring s
    = [ error_record ("Error parsing XML: " +:+ exn_str e) ]
  /\ Ainews.parse_ainews_rss fromstring charref_sub s
    = [ error_record ("Error parsing XML: " +:+ exn_str e) ]
  /\ Hackernews.parse_hn_rss fromstring s
    = [ error_record ("Error parsing RSS: " +:+ exn_str e) ].
Proof.
  intros Hraise Hparse.
  unfold Techcrunch.parse_tc_rss, Wsj.parse_wsj_rss, Wired.parse_wired_rss,
    Ainews.parse_ainews_rss, Hackernews.parse_hn_rss.
  rewrite Hraise, Hparse. auto.
Qed.

End Parsers.

(** Against C4 as stated: the Hacker News parser, given a text that is not
    XML, does not produce a message that begins with [Error parsing XML: ]. *)
Lemma parse_hn_rss_not_xml_message :
  ~ exists diag : string,
      Hackernews.parse_hn_rss Samples.sample_fromstring "not xml"
      = [ error_record ("Error parsing XML: " +:+ diag) ].
Proof.
  intros [diag H].
  change (Hackernews.parse_hn_rss Samples.sample_fromstring "not xml")
    with [ error_record ("Error parsing RSS: " +:+ "syntax error: line 1, column 0") ] in H.
  apply error_list_inj in H. discriminate H.
Qed.

Lemma parse_malformed_xml_witness :
  Samples.sample_fromstring "not xml" = Raise Samples.syntax_error
  /\ Hackernews.parse_hn_rss Samples.sample_fromstring "not xml"
     = [ error_record "Error parsing RSS: syntax error: line 1, column 0" ]
  /\ Techcrunch.parse_tc_rss Samples.sample_fromstring "not xml"
     = [ error_record "Error parsing XML: syntax error: line 1, column 0" ].
Proof.
  destruct (parse_malformed_xml Samples.sample_fromstring Samples.no_charrefs
              "not xml" Samples.syntax_error eq_refl eq_refl)
    as (Htc & _ & _ & _ & Hhn).
  split; [reflexivity | split; [exact Hhn | exact Htc]].
Defined.

Lemma parse_without_channel_witness :
  Samples.sample_fromstring Samples.no_channel_xml = Ok Samples.no_channel_tree
  /\ Techcrunch.parse_tc_rss Samples.sample_fromstring Samples.no_channel_xml
     = [ error_record "Invalid RSS format: No channel element found" ].
Proof.
  split; [reflexivity|].
  apply (parse_without_channel Samples.sample_fromstring Samples.no_channel_xml
           Samples.no_channel_tree); reflexivity.
Defined.

(** ** Image of a WSJ item *)

(** C8.  The image URL of an item is the [url] attribute of its Media RSS
    content element when that element has one; failing that, of its Media
    RSS thumbnail; failing that, of its plain enclosure; and the empty string
    when none of the three gives a URL.  So when the content and the
    thumbnail carry different URLs, the URL of the content is returned. *)
Theorem extract_image_url_priority (item : Element) :
  let content := Spec.url_at item (Descendant (qname MRSS "content")) in
  let thumbnail := Spec.url_at item (Descendant (qname MRSS "thumbnail")) in
  let enclosure := Spec.url_at item (Child "enclosure") in
  (forall u, content = Some u -> Wsj.extract_image_url item = u)
  /\ (forall u, content = None -> thumbnail = Some u ->
                Wsj.extract_image_url item = u)
  /\ (forall u, content = None -> thumbnail = None -> enclosure = Some u ->
                Wsj.extract_image_url item = u)
  /\ (content = None -> thumbnail = None -> enclosure = None ->
      Wsj.extract_image_url item = EmptyString)
  /\ (forall c t, content = Some c -> thumbnail = Some t -> c <> t ->
                  Wsj.extract_image_url item = c).
Proof.
  unfold Spec.url_at, Wsj.extract_image_url. cbv zeta.
  destruct (find item (Descendant (qname MRSS "content"))) as [mc|];
    [destruct (attrib mc !! "url") as [cu|]|];
    (destruct (find item (Descendant (qname MRSS "thumbnail"))) as [mt|];
       [destruct (attrib mt !! "url") as [tu|]|]);
    (destruct (find item (Child "enclosure")) as [en|];
       [destruct (attrib en !! "url") as [eu|]|]);
    repeat split; intros; congruence.
Qed.

Lemma extract_image_url_priority_witness :
  Spec.url_at Samples.media_item (Descendant (qname MRSS "content"))
    = Some "http://img/content.jpg"
  /\ Spec.url_at Samples.media_item (Descendant (qname MRSS "thumbnail"))
    = Some "http://img/thumb.jpg"
  /\ Wsj.extract_image_url Samples.media_item = "http://img/content.jpg".
Proof.
  split; [reflexivity | split; [reflexivity|]].
  destruct (extract_image_url_priority Samples.media_item) as (_ & _ & _ & _ & H).
  apply (H "http://img/content.jpg" "http://img/thumb.jpg");
    [reflexivity | reflexivity | discriminate].
Defined.

(** ** The recap section of the AI news feed *)


(** C5, as the code has it.  On the example text, whatever follows the
    second heading and whatever unescaping turns it into, extraction returns
    exactly one item: title [OpenAI], link [http://x], and as description the
    text of the bullet after the colon with the markup removed, which keeps
    the text of the anchor: [released a model link]. *)
Theorem extract_twitter_recap_example (charref_sub : string -> string)
  (rest rest' : string) :
  Ainews.unescape charref_sub (Samples.recap_head +:+ rest)
    = Samples.recap_head +:+ rest' ->
  Ainews.extract_twitter_recap charref_sub (Samples.recap_head +:+ rest)
  = [ Samples.recap_item "OpenAI" "released a model link" "http://x" ].
Proof.
  intros Hunescape. unfold Ainews.extract_twitter_recap.
  rewrite Hunescape. vm_compute. reflexivity.
Qed.

Lemma extract_twitter_recap_example_witness :
  Ainews.unescape Samples.no_charrefs Samples.recap_example = Samples.recap_example
  /\ Ainews.extract_twitter_recap Samples.no_charrefs Samples.recap_example
     = [ Samples.recap_item "OpenAI" "released a model link" "http://x" ].
Proof.
  split; [reflexivity|].
  apply (extract_twitter_recap_example Samples.no_charrefs "..." "...").
  reflexivity.
Defined.

(** Against C5 as stated: on the example text the description is not
    [released a model]. *)
Lemma extract_twitter_recap_not_as_claimed :
  Ainews.extract_twitter_recap Samples.no_charrefs Samples.recap_example
  <> [ Samples.recap_item "OpenAI" "released a model" "http://x" ].
Proof.
  intros H.
  apply (f_equal (fun l => match l with
                           | [d] => d !! "description"
                           | _ => None
                           end)) in H.
  vm_compute in H. discriminate H.
Qed.

(** ** Slices and formatted lists *)

Lemma slice_to_nonneg {A} (xs : list A) (count : Z) :
  0 <= count ->
  slice_to xs (Z.min count (Z.of_nat (length xs))) = take (Z.to_nat count) xs.
Proof.
  intros Hc. unfold slice_to.
  destruct (Z.ltb_spec (Z.min count (Z.of_nat (length xs))) 0) as [Hlt|_]; [lia|].
  destruct (Z.le_gt_cases count (Z.of_nat (length xs))) as [Hle|Hgt].
  - by rewrite !Z.min_l by lia.
  - rewrite (Z.min_r count) by lia. rewrite Z.min_id, Nat2Z.id.
    rewrite !take_ge by lia. reflexivity.
Qed.

Lemma slice_to_negative {A} (xs : list A) (count : Z) :
  count < 0 -> - count < Z.of_nat (length xs) ->
  slice_to xs (Z.min count (Z.of_nat (length xs)))
  = take (length xs - Z.to_nat (- count)) xs.
Proof.
  intros Hneg Hlt. unfold slice_to.
  rewrite (Z.min_l count) by lia.
  destruct (Z.ltb_spec count 0) as [_|Hge]; [|lia].
  f_equal. lia.
Qed.

Lemma take_nonempty {A B} (n : nat) (xs : list A) (a b : B) :
  (0 < n)%nat -> (0 < length xs)%nat ->
  match take n xs with [] => a | _ :: _ => b end = b.
Proof.
  intros Hn Hxs. destruct n as [|n]; [lia|]. destruct xs as [|x xs]; [simpl in Hxs; lia|].
  reflexivity.
Qed.

Lemma formatted_by_total (fmt : gmap string value -> string)
  (stories : list (gmap string value)) :
  Spec.formatted_by (fun s => Ok (fmt s)) stories (map fmt stories).
Proof.
  unfold Spec.formatted_by. induction stories as [|s stories IH]; constructor; auto.
Qed.

Lemma map_res_formatted (fmt : gmap string value -> res string)
  (stories : list (gmap string value)) :
  Forall (fun s => exists f, fmt s = Ok f) stories ->
  exists fs, map_res fmt stories = Ok fs /\ Spec.formatted_by fmt stories fs.
Proof.
  unfold Spec.formatted_by.
  induction 1 as [|s stories [f Hf] _ (fs & Hfs & IH)].
  - exists []. split; [reflexivity | constructor].
  - exists (f :: fs). split; [|by constructor].
    simpl. rewrite Hf. simpl. rewrite Hfs. reflexivity.
Qed.

Lemma first_error_articles (mk : Element -> gmap string value)
  (items : list Element) :
  (forall item, mk item !! "error" = None) ->
  App.first_error (map mk items) = None.
Proof. intros Hmk. destruct items as [|item items]; [reflexivity | apply Hmk]. Qed.

Lemma Forall_map_take {A B} (P : B -> Prop) (f : A -> B) (n : nat) (xs : list A) :
  (forall x, P (f x)) -> Forall P (take n (map f xs)).
Proof.
  intros Hf. apply Forall_take, Forall_forall. intros y Hy.
  apply list_elem_of_In, in_map_iff in Hy as (x & <- & _). apply Hf.
Qed.

(** ** Formatters on the records of the parsers *)

Lemma format_tc_story_article (repr : value -> string) (item : Element) :
  exists f, Techcrunch.format_tc_story repr (Techcrunch.article_of item) = Ok f.
Proof.
  unfold Techcrunch.format_tc_story. rewrite tc_article_no_error. cbv zeta.
  change (get (Techcrunch.article_of item) "categories" (VList []))
    with (VList (texts (findall item (Child "category")))).
  destruct (texts (findall item (Child "category"))); simpl; eauto.
Qed.

Lemma format_wired_story_article (repr : value -> string) (item : Element) :
  exists f, Wired.format_wired_story repr (Wired.article_of item) = Ok f.
Proof.
  unfold Wired.format_wired_story. rewrite wired_article_no_error. cbv zeta.
  change (get (Wired.article_of item) "categories" (VList []))
    with (VList (texts (findall item (Child "category")))).
  destruct (texts (findall item (Child "category"))); simpl; eauto.
Qed.

(** ** Tools *)

Section Tools.
Variable http_get : string -> string -> res string.
Variable fromstring : string -> res Element.
Variable repr : value -> string.

(** What each multi-item tool returns once the body has been fetched, is
    not taken for a failure, and has been parsed into articles. *)
Lemma hn_tool_result (url body : string) (count : Z) :
  Hackernews.fetch_hn_rss http_get url = body ->
  startswith body "Error" = false ->
  let stories := Hackernews.parse_hn_rss fromstring body in
  let shown := slice_to stories (Z.min count (Z.of_nat (length stories))) in
  App.get_hackernews_stories http_get fromstring repr url count
  = Ok (VStr match shown with
             | [] => "No stories found."
             | _ :: _ => join App.SEPARATOR (map (Hackernews.format_hn_story repr) shown)
             end).
Proof.
  intros Hget Hbody. cbv zeta.
  unfold App.get_hackernews_stories.
  rewrite Hget, Hbody.
  destruct (slice_to _ _); reflexivity.
Qed.

Lemma wsj_tool_result (url body : string) (count : Z) (items : list Element) :
  Wsj.fetch_wsj_rss http_get url = body ->
  startswith body "Error" = false ->
  Wsj.parse_wsj_rss fromstring body = map Wsj.article_of items ->
  let stories := Wsj.parse_wsj_rss fromstring body in
  let shown := slice_to stories (Z.min count (Z.of_nat (length stories))) in
  App.get_wallstreetjournal_stories http_get fromstring repr url count
  = Ok (VStr match shown with
             | [] => "No stories found."
             | _ :: _ => join App.SEPARATOR (map (Wsj.format_wsj_story repr) shown)
             end).
Proof.
  intros Hget Hbody Hparse. cbv zeta.
  unfold App.get_wallstreetjournal_stories.
  rewrite Hget, Hbody, Hparse.
  rewrite (first_error_articles _ _ wsj_article_no_error).
  destruct (slice_to _ _); reflexivity.
Qed.

Lemma tc_tool_result (url body : string) (count : Z) (items : list Element) :
  Techcrunch.fetch_tc_rss http_get url = body ->
  startswith body "Error" = false ->
  Techcrunch.parse_tc_rss fromstring body = map Techcrunch.article_of items ->
  let stories := Techcrunch.parse_tc_rss fromstring body in
  let shown := slice_to stories (Z.min count (Z.of_nat (length stories))) in
  exists fs,
    Spec.formatted_by (Techcrunch.format_tc_story repr) shown fs
    /\ App.get_techcrunch_stories http_get fromstring repr url count
       = Ok (VStr match shown with
                  | [] => "No stories found."
                  | _ :: _ => join App.SEPARATOR fs
                  end).
Proof.
  intros Hget Hbody Hparse. cbv zeta.
  unfold App.get_techcrunch_stories.
  rewrite Hget, Hbody, Hparse.
  rewrite (first_error_articles _ _ tc_article_no_error).
  set (shown := slice_to (map Techcrunch.article_of items) _).
  destruct (map_res_formatted (Techcrunch.format_tc_story repr) shown) as (fs & Hfs & Hby).
  { apply Forall_map_take, format_tc_story_article. }
  exists fs. split; [exact Hby|].
  clearbody shown. destruct shown; [reflexivity|].
  rewrite Hfs. reflexivity.
Qed.

Lemma wired_tool_result (url body : string) (count : Z) (items : list Element) :
  Wired.fetch_wired_rss http_get url = body ->
  startswith body "Error" = false ->
  Wired.parse_wired_rss fromstring body = map Wired.article_of items ->
  let stories := Wired.parse_wired_rss fromstring body in
  let shown := slice_to stories (Z.min count (Z.of_nat (length stories))) in
  exists fs,
    Spec.formatted_by (Wired.format_wired_story repr) shown fs
    /\ App.get_wired_stories http_get fromstring repr url count
       = Ok (VStr match shown with
                  | [] => "No stories found."
                  | _ :: _ => join App.SEPARATOR fs
                  end).
Proof.
  intros Hget Hbody Hparse. cbv zeta.
  unfold App.get_wired_stories.
  rewrite Hget, Hbody, Hparse.
  rewrite (first_error_articles _ _ wired_article_no_error).
  set (shown := slice_to (map Wired.article_of items) _).
  destruct (map_res_formatted (Wired.format_wired_story repr) shown) as (fs & Hfs & Hby).
  { apply Forall_map_take, format_wired_story_article. }
  exists fs. split; [exact Hby|].
  clearbody shown. destruct shown; [reflexivity|].
  rewrite Hfs. reflexivity.
Qed.

End Tools.

Section Counts.
Variable http_get : string -> string -> res string.
Variable fromstring : string -> res Element.
Variable repr : value -> string.

Lemma fetch_hn_rss_ok (url body : string) :
  http_get url Hackernews.USER_AGENT = Ok body ->
  Hackernews.fetch_hn_rss http_get url = body.
Proof. intros H. unfold Hackernews.fetch_hn_rss. by rewrite H. Qed.

Lemma fetch_wsj_rss_ok (url body : string) :
  http_get url Wsj.USER_AGENT = Ok body -> Wsj.fetch_wsj_rss http_get url = body.
Proof. intros H. unfold Wsj.fetch_wsj_rss. by rewrite H. Qed.

Lemma fetch_tc_rss_ok (url body : string) :
  http_get url Techcrunch.USER_AGENT = Ok body ->
  Techcrunch.fetch_tc_rss http_get url = body.
Proof. intros H. unfold Techcrunch.fetch_tc_rss. by rewrite H. Qed.

Lemma fetch_wired_rss_ok (url body : string) :
  http_get url Wired.USER_AGENT = Ok body ->
  Wired.fetch_wired_rss http_get url = body.
Proof. intros H. unfold Wired.fetch_wired_rss. by rewrite H. Qed.

Lemma three_of_joined (sep : string) (fmt : gmap string value -> res string)
  (stories : list (gmap string value)) (out : res value) :
  (3 <= length stories)%nat ->
  (exists fs, Spec.formatted_by fmt (take 3 stories) fs
              /\ out = Ok (VStr (join sep fs))) ->
  Spec.first_three_joined sep fmt stories out.
Proof.
  intros Hlen (fs & Hby & ->).
  destruct stories as [|s1 [|s2 [|s3 rest]]]; simpl in Hlen; try lia.
  unfold Spec.formatted_by in Hby. simpl in Hby.
  inversion Hby as [|? f1 ? fs1 H1 Hby1]; subst.
  inversion Hby1 as [|? f2 ? fs2 H2 Hby2]; subst.
  inversion Hby2 as [|? f3 ? fs3 H3 Hby3]; subst.
  inversion Hby3; subst.
  exists s1, s2, s3, rest, f1, f2, f3. repeat split; assumption.
Qed.

(** C7.  For each of the four tools that take a count: when the feed is
    fetched, its body is not taken for a failure (no XML document begins with
    the letters of [Error]) and it parses into ten records, a call with count
    3 returns exactly the first three records of the document, formatted, in
    the order of the document, with the five characters line feed, hyphen,
    hyphen, hyphen, line feed between one and the next, and nothing else. *)
Theorem count_three_of_ten (url body : string) :
  startswith body "Error" = false ->
  (http_get url Hackernews.USER_AGENT = Ok body ->
   length (Hackernews.parse_hn_rss fromstring body) = 10%nat ->
   Spec.first_three_joined (String "010"%char "---" +:+ String "010"%char "")
     (fun s => Ok (Hackernews.format_hn_story repr s))
     (Hackernews.parse_hn_rss fromstring body)
     (App.get_hackernews_stories http_get fromstring repr url 3))
  /\ (http_get url Wsj.USER_AGENT = Ok body ->
      length (Wsj.parse_wsj_rss fromstring body) = 10%nat ->
      Spec.first_three_joined (String "010"%char "---" +:+ String "010"%char "")
        (fun s => Ok (Wsj.format_wsj_story repr s))
        (Wsj.parse_wsj_rss fromstring body)
        (App.get_wallstreetjournal_stories http_get fromstring repr url 3))
  /\ (http_get url Techcrunch.USER_AGENT = Ok body ->
      length (Techcrunch.parse_tc_rss fromstring body) = 10%nat ->
      Spec.first_three_joined (String "010"%char "---" +:+ String "010"%char "")
        (Techcrunch.format_tc_story repr)
        (Techcrunch.parse_tc_rss fromstring body)
        (App.get_techcrunch_stories http_get fromstring repr url 3))
  /\ (http_get url Wired.USER_AGENT = Ok body ->
      length (Wired.parse_wired_rss fromstring body) = 10%nat ->
      Spec.first_three_joined (String "010"%char "---" +:+ String "010"%char "")
        (Wired.format_wired_story repr)
        (Wired.parse_wired_rss fromstring body)
        (App.get_wired_stories http_get fromstring repr url 3)).
Proof.
  intros Hbody.
  repeat split; intros Hget Hlen; (apply three_of_joined; [lia|]).
  - rewrite (hn_tool_result _ _ _ url body 3 (fetch_hn_rss_ok _ _ Hget) Hbody).
    cbv zeta. rewrite slice_to_nonneg by lia. change (Z.to_nat 3) with 3%nat.
    rewrite take_nonempty by lia.
    eexists. split; [apply formatted_by_total | reflexivity].
  - destruct (shape_of_ten _ _ (parse_wsj_rss_shape fromstring body) Hlen)
      as [items Hitems].
    rewrite (wsj_tool_result _ _ _ url body 3 items (fetch_wsj_rss_ok _ _ Hget)
               Hbody Hitems).
    cbv zeta. rewrite slice_to_nonneg by lia. change (Z.to_nat 3) with 3%nat.
    rewrite take_nonempty by lia.
    eexists. split; [apply formatted_by_total | reflexivity].
  - destruct (shape_of_ten _ _ (parse_tc_rss_shape fromstring body) Hlen)
      as [items Hitems].
    destruct (tc_tool_result _ _ repr url body 3 items (fetch_tc_rss_ok _ _ Hget)
                Hbody Hitems) as (fs & Hby & Hres).
    cbv zeta in Hby, Hres. rewrite slice_to_nonneg in Hby, Hres by lia.
    change (Z.to_nat 3) with 3%nat in Hby, Hres.
    rewrite take_nonempty in Hres by lia.
    exists fs. split; [exact Hby | exact Hres].
  - destruct (shape_of_ten _ _ (parse_wired_rss_shape fromstring body) Hlen)
      as [items Hitems].
    destruct (wired_tool_result _ _ repr url body 3 items
                (fetch_wired_rss_ok _ _ Hget) Hbody Hitems) as (fs & Hby & Hres).
    cbv zeta in Hby, Hres. rewrite slice_to_nonneg in Hby, Hres by lia.
    change (Z.to_nat 3) with 3%nat in Hby, Hres.
    rewrite take_nonempty in Hres by lia.
    exists fs. split; [exact Hby | exact Hres].
Qed.

(** C10.  For each of the four tools that take a count, on a feed that is
    fetched, not taken for a failure, and parsed into at least one article:
    count 0 gives the text [No stories found.]; and a negative count whose
    absolute value is below the number of records drops that many records
    from the end, the tool returning the remaining first ones, formatted and
    joined. *)
Theorem count_zero_and_negative (url body : string) (count : Z) :
  startswith body "Error" = false ->
  (http_get url Hackernews.USER_AGENT = Ok body ->
   let stories := Hackernews.parse_hn_rss fromstring body in
   Forall Spec.is_article stories -> (1 <= length stories)%nat ->
   App.get_hackernews_stories http_get fromstring repr url 0
     = Ok (VStr "No stories found.")
   /\ (count < 0 -> - count < Z.of_nat (length stories) ->
       Spec.joined_first (length stories - Z.to_nat (- count))
         (fun s => Ok (Hackernews.format_hn_story repr s)) stories
         (App.get_hackernews_stories http_get fromstring repr url count)))
  /\ (http_get url Wsj.USER_AGENT = Ok body ->
      let stories := Wsj.parse_wsj_rss fromstring body in
      Forall Spec.is_article stories -> (1 <= length stories)%nat ->
      App.get_wallstreetjournal_stories http_get fromstring repr url 0
        = Ok (VStr "No stories found.")
      /\ (count < 0 -> - count < Z.of_nat (length stories) ->
          Spec.joined_first (length stories - Z.to_nat (- count))
            (fun s => Ok (Wsj.format_wsj_story repr s)) stories
            (App.get_wallstreetjournal_stories http_get fromstring repr url count)))
  /\ (http_get url Techcrunch.USER_AGENT = Ok body ->
      let stories := Techcrunch.parse_tc_rss fromstring body in
      Forall Spec.is_article stories -> (1 <= length stories)%nat ->
      App.get_techcrunch_stories http_get fromstring repr url 0
        = Ok (VStr "No stories found.")
      /\ (count < 0 -> - count < Z.of_nat (length stories) ->
          Spec.joined_first (length stories - Z.to_nat (- count))
            (Techcrunch.format_tc_story repr) stories
            (App.get_techcrunch_stories http_get fromstring repr url count)))
  /\ (http_get url Wired.USER_AGENT = Ok body ->
      let stories := Wired.parse_wired_rss fromstring body in
      Forall Spec.is_article stories -> (1 <= length stories)%nat ->
      App.get_wired_stories http_get fromstring repr url 0
        = Ok (VStr "No stories found.")
      /\ (count < 0 -> - count < Z.of_nat (length stories) ->
          Spec.joined_first (length stories - Z.to_nat (- count))
            (Wired.format_wired_story repr) stories
            (App.get_wired_stories http_get fromstring repr url count))).
Proof.
  intros Hbody. unfold Spec.joined_first.
  split; [|split; [|split]]; cbv zeta; intros Hget Hart Hlen.
  - split.
    + rewrite (hn_tool_result _ _ _ url body 0 (fetch_hn_rss_ok _ _ Hget) Hbody).
      cbv zeta. by rewrite slice_to_nonneg by lia.
    + intros Hneg Hlt.
      rewrite (hn_tool_result _ _ _ url body count (fetch_hn_rss_ok _ _ Hget) Hbody).
      cbv zeta. rewrite slice_to_negative by lia.
      rewrite take_nonempty by lia.
      eexists. split; [apply formatted_by_total | reflexivity].
  - destruct (shape_of_articles _ _ (parse_wsj_rss_shape fromstring body) Hart)
      as [items Hitems].
    pose proof (fetch_wsj_rss_ok _ _ Hget) as Hfetch. split.
    + rewrite (wsj_tool_result _ _ _ url body 0 items Hfetch Hbody Hitems).
      cbv zeta. by rewrite slice_to_nonneg by lia.
    + intros Hneg Hlt.
      rewrite (wsj_tool_result _ _ _ url body count items Hfetch Hbody Hitems).
      cbv zeta. rewrite slice_to_negative by lia.
      rewrite take_nonempty by lia.
      eexists. split; [apply formatted_by_total | reflexivity].
  - destruct (shape_of_articles _ _ (parse_tc_rss_shape fromstring body) Hart)
      as [items Hitems].
    pose proof (fetch_tc_rss_ok _ _ Hget) as Hfetch. split.
    + destruct (tc_tool_result _ _ repr url body 0 items Hfetch Hbody Hitems)
        as (fs & _ & Hres).
      cbv zeta in Hres. by rewrite slice_to_nonneg in Hres by lia.
    + intros Hneg Hlt.
      destruct (tc_tool_result _ _ repr url body count items Hfetch Hbody Hitems)
        as (fs & Hby & Hres).
      cbv zeta in Hby, Hres.
      rewrite slice_to_negative in Hby, Hres by lia.
      rewrite take_nonempty in Hres by lia. eauto.
  - destruct (shape_of_articles _ _ (parse_wired_rss_shape fromstring body) Hart)
      as [items Hitems].
    pose proof (fetch_wired_rss_ok _ _ Hget) as Hfetch. split.
    + destruct (wired_tool_result _ _ repr url body 0 items Hfetch Hbody Hitems)
        as (fs & _ & Hres).
      cbv zeta in Hres. by rewrite slice_to_nonneg in Hres by lia.
    + intros Hneg Hlt.
      destruct (wired_tool_result _ _ repr url body count items Hfetch Hbody Hitems)
        as (fs & Hby & Hres).
      cbv zeta in Hby, Hres.
      rewrite slice_to_negative in Hby, Hres by lia.
      rewrite take_nonempty in Hres by lia. eauto.
Qed.

End Counts.

(** ** How the texts of the formatters begin *)

Lemma join_starts (sep x : string) (xs : list string) (a : ascii) (t : string) :
  x = String a t -> Spec.begins_with a (join sep (x :: xs)).
Proof. intros ->. apply join_head. Qed.

Lemma append_begins (a : ascii) (s t : string) :
  Spec.begins_with a s -> Spec.begins_with a (s +:+ t).
Proof. intros [u ->]. by exists (u +:+ t). Qed.

Ltac split_conditions :=
  repeat match goal with
         | |- context [if ?b then _ else _] => destruct b
         end.

Lemma format_hn_story_begins (repr : value -> string) (s : gmap string value) :
  Spec.begins_with nl_char (Hackernews.format_hn_story repr s).
Proof. eexists. reflexivity. Qed.

Lemma format_wsj_story_begins (repr : value -> string) (s : gmap string value) :
  Spec.begins_with nl_char (Wsj.format_wsj_story repr s)
  \/ Spec.begins_with "E" (Wsj.format_wsj_story repr s).
Proof.
  unfold Wsj.format_wsj_story. destruct (s !! "error") as [err|].
  - right. eexists. reflexivity.
  - left. cbv zeta. split_conditions; eexists; reflexivity.
Qed.

Lemma format_tc_story_begins (repr : value -> string) (s : gmap string value)
  (f : string) :
  Techcrunch.format_tc_story repr s = Ok f ->
  Spec.begins_with nl_char f \/ Spec.begins_with "E" f.
Proof.
  unfold Techcrunch.format_tc_story. destruct (s !! "error") as [err|].
  - intros [= <-]. right. eexists. reflexivity.
  - cbv zeta. destruct (join_value ", " _) as [cs|e]; split_conditions; simpl;
      intros [= <-]; left; eexists; reflexivity.
Qed.

Lemma format_wired_story_begins (repr : value -> string) (s : gmap string value)
  (f : string) :
  Wired.format_wired_story repr s = Ok f ->
  Spec.begins_with nl_char f \/ Spec.begins_with "E" f.
Proof.
  unfold Wired.format_wired_story. destruct (s !! "error") as [err|].
  - intros [= <-]. right. eexists. reflexivity.
  - cbv zeta. destruct (join_value ", " _) as [cs|e]; split_conditions; simpl;
      intros [= <-]; left; eexists; reflexivity.
Qed.

Lemma format_recap_begins (items : list (gmap string string)) (a : ascii)
  (x f : string) :
  Ainews.format_recap (String a x) items = Ok f -> Spec.begins_with a f.
Proof.
  revert x. induction items as [|item items IH]; intros x; simpl.
  - intros [= <-]. by eexists.
  - unfold Ainews.format_recap_item.
    destruct (getitem item "title") as [t|e]; [|discriminate].
    destruct (getitem item "link") as [l|e]; [|discriminate].
    destruct (getitem item "description") as [d|e]; [|discriminate].
    simpl. rewrite append_cons_head. apply IH.
Qed.

Lemma format_ainews_story_begins (repr : value -> string)
  (s : gmap string value) (f : string) :
  Ainews.format_ainews_story repr s = Ok f ->
  Spec.begins_with nl_char f \/ Spec.begins_with "E" f.
Proof.
  unfold Ainews.format_ainews_story. destruct (s !! "error") as [err|].
  - intros [= <-]. right. eexists. reflexivity.
  - cbv zeta. intros H. left.
    match type of H with
    | bind ?m _ = _ => destruct m as [g|e] eqn:Hrecap; [|discriminate H]
    end.
    assert (Spec.begins_with nl_char g) as Hg.
    { destruct (truthy _) in Hrecap.
      - destruct (get s "twitter_recap" _) as [| | |items] in Hrecap;
          try discriminate Hrecap.
        rewrite !append_cons_head in Hrecap.
        by apply format_recap_begins in Hrecap.
      - injection Hrecap as <-. eexists. reflexivity. }
    simpl in H. destruct (truthy _) in H.
    + destruct (join_value ", " _) as [cs|e]; [|discriminate H].
      simpl in H. injection H as <-. by apply append_begins.
    + by injection H as <-.
Qed.

(** A text of a tool is never the HTTP error sentinel of a fetcher. *)
Lemma tool_text_not_http_error (msg : string) :
  ~ Spec.tool_text ("HTTP Error fetching RSS: " +:+ msg).
Proof.
  intros [H|[[t H]|[[t H]|[t H]]]]; discriminate H.
Qed.

Section ToolTexts.
Variable http_get : string -> string -> res string.
Variable fromstring : string -> res Element.
Variable repr : value -> string.
Variable charref_sub : string -> string.

Lemma parse_message_text (msg : string) :
  Spec.parse_message msg -> Spec.tool_text msg.
Proof.
  intros [->|[[d ->]|[d ->]]]; unfold Spec.tool_text, Spec.begins_with; eauto 6.
Qed.

Lemma joined_text (f : string) (fs : list string) :
  Spec.begins_with nl_char f \/ Spec.begins_with "E" f ->
  Spec.tool_text (join App.SEPARATOR (f :: fs)).
Proof.
  unfold Spec.tool_text.
  intros [[t ->]|[t ->]]; [right; left | right; right; left];
    eapply join_starts; reflexivity.
Qed.

Lemma hn_tool_text (url body r : string) (count : Z) :
  Hackernews.fetch_hn_rss http_get url = body ->
  startswith body "Error" = false ->
  App.get_hackernews_stories http_get fromstring repr url count = Ok (VStr r) ->
  Spec.tool_text r.
Proof.
  intros Hf Hb. rewrite (hn_tool_result _ _ _ url body count Hf Hb). cbv zeta.
  destruct (slice_to _ _) as [|s l]; intros [= <-].
  - by left.
  - apply joined_text. left. apply format_hn_story_begins.
Qed.

Lemma wsj_tool_text (url body r : string) (count : Z) :
  Wsj.fetch_wsj_rss http_get url = body ->
  startswith body "Error" = false ->
  App.get_wallstreetjournal_stories http_get fromstring repr url count
    = Ok (VStr r) ->
  Spec.tool_text r.
Proof.
  intros Hf Hb.
  destruct (parse_wsj_rss_shape fromstring body) as [msg E M|items E].
  - unfold App.get_wallstreetjournal_stories. rewrite Hf, Hb, E.
    intros [= <-]. by apply parse_message_text.
  - rewrite (wsj_tool_result _ _ _ url body count items Hf Hb E). cbv zeta.
    destruct (slice_to _ _) as [|s l]; intros [= <-].
    + by left.
    + apply joined_text, format_wsj_story_begins.
Qed.

Lemma tc_tool_text (url body r : string) (count : Z) :
  Techcrunch.fetch_tc_rss http_get url = body ->
  startswith body "Error" = false ->
  App.get_techcrunch_stories http_get fromstring repr url count = Ok (VStr r) ->
  Spec.tool_text r.
Proof.
  intros Hf Hb.
  destruct (parse_tc_rss_shape fromstring body) as [msg E M|items E].
  - unfold App.get_techcrunch_stories. rewrite Hf, Hb, E.
    intros [= <-]. by apply parse_message_text.
  - destruct (tc_tool_result _ _ repr url body count items Hf Hb E)
      as (fs & Hby & ->).
    cbv zeta in Hby |- *.
    destruct (slice_to _ _) as [|s l]; intros [= <-].
    + by left.
    + inversion Hby as [|? f ? fs' Hfmt _]; subst.
      eapply joined_text, format_tc_story_begins, Hfmt.
Qed.

Lemma wired_tool_text (url body r : string) (count : Z) :
  Wired.fetch_wired_rss http_get url = body ->
  startswith body "Error" = false ->
  App.get_wired_stories http_get fromstring repr url count = Ok (VStr r) ->
  Spec.tool_text r.
Proof.
  intros Hf Hb.
  destruct (parse_wired_rss_shape fromstring body) as [msg E M|items E].
  - unfold App.get_wired_stories. rewrite Hf, Hb, E.
    intros [= <-]. by apply parse_message_text.
  - destruct (wired_tool_result _ _ repr url body count items Hf Hb E)
      as (fs & Hby & ->).
    cbv zeta in Hby |- *.
    destruct (slice_to _ _) as [|s l]; intros [= <-].
    + by left.
    + inversion Hby as [|? f ? fs' Hfmt _]; subst.
      eapply joined_text, format_wired_story_begins, Hfmt.
Qed.

Lemma ainews_tool_text (url body r : string) :
  Ainews.fetch_ainews_rss http_get url = body ->
  startswith body "Error" = false ->
  App.get_ainews_latest http_get fromstring repr charref_sub url = Ok (VStr r) ->
  Spec.tool_text r.
Proof.
  intros Hf Hb. unfold App.get_ainews_latest. rewrite Hf, Hb.
  destruct (parse_ainews_rss_shape fromstring charref_sub body)
    as [msg E M|items E]; rewrite E.
  - intros [= <-]. by apply parse_message_text.
  - rewrite (first_error_articles _ _ (ainews_story_no_error charref_sub)).
    destruct items as [|item items]; simpl.
    + intros [= <-]. by left.
    + destruct (Ainews.format_ainews_story repr _) as [f|e] eqn:Hfmt;
        simpl; [|discriminate].
      intros [= <-]. apply format_ainews_story_begins in Hfmt.
      unfold Spec.tool_text. tauto.
Qed.

End ToolTexts.

(** ** Failure sentinels of the fetchers *)

(** A sentinel that begins with [Error] is returned as it is: the one case
    of the three that the tools test for. *)
Lemma error_sentinel_returned (fromstring : string -> res Element)
  (repr : value -> string) (url msg : string) (count : Z) :
  let net := Samples.failing (mkExn ValueError msg) in
  let sentinel := "Error fetching RSS: " +:+ msg in
  Hackernews.fetch_hn_rss net url = sentinel
  /\ App.get_hackernews_stories net fromstring repr url count = Ok (VStr sentinel)
  /\ App.get_wallstreetjournal_stories net fromstring repr url count
     = Ok (VStr sentinel).
Proof. repeat split. Qed.

(** C1, the code at the failing input.  When the request ends in an HTTP
    status error, every fetcher returns the sentinel that begins with
    [HTTP Error].  The tools test the body for the prefix [Error] only, so
    the sentinel is handed to the parser, and whatever the parser makes of it
    no tool returns the sentinel to its caller. *)
Theorem http_error_sentinel_not_returned
  (fromstring : string -> res Element) (repr : value -> string)
  (charref_sub : string -> string) (url msg : string) (count : Z) :
  let net := Samples.failing (mkExn HTTPStatusError msg) in
  let sentinel := "HTTP Error fetching RSS: " +:+ msg in
  startswith sentinel "Error" = false
  /\ (Hackernews.fetch_hn_rss net url = sentinel
      /\ App.get_hackernews_stories net fromstring repr url count
         <> Ok (VStr sentinel))
  /\ (Wsj.fetch_wsj_rss net url = sentinel
      /\ App.get_wallstreetjournal_stories net fromstring repr url count
         <> Ok (VStr sentinel))
  /\ (Techcrunch.fetch_tc_rss net url = sentinel
      /\ App.get_techcrunch_stories net fromstring repr url count
         <> Ok (VStr sentinel))
  /\ (Ainews.fetch_ainews_rss net url = sentinel
      /\ App.get_ainews_latest net fromstring repr charref_sub url
         <> Ok (VStr sentinel))
  /\ (Wired.fetch_wired_rss net url = sentinel
      /\ App.get_wired_stories net fromstring repr url count
         <> Ok (VStr sentinel)).
Proof.
  cbv zeta. split; [reflexivity|].
  repeat split; intros H; apply (tool_text_not_http_error msg).
  - eapply hn_tool_text; [| |exact H]; reflexivity.
  - eapply wsj_tool_text; [| |exact H]; reflexivity.
  - eapply tc_tool_text; [| |exact H]; reflexivity.
  - eapply ainews_tool_text; [| |exact H]; reflexivity.
  - eapply wired_tool_text; [| |exact H]; reflexivity.
Qed.

(** With the parser that rejects the sentinel as expat does, the Hacker News
    tool answers with a story made of placeholders, and the WSJ tool with
    the message of the parse error. *)
Example http_error_sentinel_parsed :
  let net := Samples.failing (mkExn HTTPStatusError "404 Not Found") in
  App.get_hackernews_stories net Samples.sample_fromstring Samples.sample_repr
    Hackernews.DEFAULT_HN_RSS_URL 30
  = Ok (VStr (nl +:+ "Title: Unknown" +:+ nl +:+ "Link: No link" +:+ nl
              +:+ "Published: Unknown" +:+ nl))
  /\ App.get_wallstreetjournal_stories net Samples.sample_fromstring
       Samples.sample_repr Wsj.DEFAULT_WSJ_RSS_URL 30
     = Ok (VStr "Error parsing XML: syntax error: line 1, column 0").
Proof. split; reflexivity. Qed.

(** ** Formatting an error record *)

(** The four formatters that test for the [error] key. *)
Lemma formatters_with_error_branch (repr : value -> string)
  (story : gmap string value) (X : string) :
  story !! "error" = Some (VStr X) ->
  Techcrunch.format_tc_story repr story = Ok ("ERROR: " +:+ X)
  /\ Wsj.format_wsj_story repr story = "ERROR: " +:+ X
  /\ Wired.format_wired_story repr story = Ok ("ERROR: " +:+ X)
  /\ Ainews.format_ainews_story repr story = Ok ("ERROR: " +:+ X).
Proof.
  intros H.
  unfold Techcrunch.format_tc_story, Wsj.format_wsj_story,
    Wired.format_wired_story, Ainews.format_ainews_story.
  rewrite H. auto.
Qed.

(** C2, the code at the failing input.  The Hacker News formatter has no
    branch for the [error] key: given an error record with message [X] it
    renders the three article lines with their placeholders, and not the text
    [ERROR: X]. *)
Theorem format_hn_story_error_record (repr : value -> string) (X : string) :
  Hackernews.format_hn_story repr (error_record X)
  = nl +:+ "Title: Unknown" +:+ nl +:+ "Link: No link" +:+ nl
    +:+ "Published: Unknown" +:+ nl
  /\ Hackernews.format_hn_story repr (error_record X) <> "ERROR: " +:+ X.
Proof.
  split; [reflexivity|]. discriminate.
Qed.

(** ** Examples on the sample feed *)

Example hn_three_of_ten :
  App.get_hackernews_stories Samples.serve_feed Samples.sample_fromstring
    Samples.sample_repr Hackernews.DEFAULT_HN_RSS_URL 3
  = Ok (VStr (nl +:+ "Title: Story a" +:+ nl +:+ "Link: http://example.com/a"
              +:+ nl +:+ "Published: " +:+ nl
              +:+ nl +:+ "---" +:+ nl
              +:+ nl +:+ "Title: Story b" +:+ nl +:+ "Link: http://example.com/b"
              +:+ nl +:+ "Published: " +:+ nl
              +:+ nl +:+ "---" +:+ nl
              +:+ nl +:+ "Title: Story c" +:+ nl +:+ "Link: http://example.com/c"
              +:+ nl +:+ "Published: " +:+ nl)).
Proof. reflexivity. Qed.

Lemma count_three_of_ten_witness :
  startswith Samples.feed_xml "Error" = false
  /\ length (Hackernews.parse_hn_rss Samples.sample_fromstring Samples.feed_xml)
     = 10%nat
  /\ Spec.first_three_joined (String "010"%char "---" +:+ String "010"%char "")
       (fun s => Ok (Hackernews.format_hn_story Samples.sample_repr s))
       (Hackernews.parse_hn_rss Samples.sample_fromstring Samples.feed_xml)
       (App.get_hackernews_stories Samples.serve_feed Samples.sample_fromstring
          Samples.sample_repr Hackernews.DEFAULT_HN_RSS_URL 3)
  /\ Spec.first_three_joined (String "010"%char "---" +:+ String "010"%char "")
       (Techcrunch.format_tc_story Samples.sample_repr)
       (Techcrunch.parse_tc_rss Samples.sample_fromstring Samples.feed_xml)
       (App.get_techcrunch_stories Samples.serve_feed Samples.sample_fromstring
          Samples.sample_repr Techcrunch.DEFAULT_TC_RSS_URL 3).
Proof.
  split; [reflexivity | split; [reflexivity|]].
  split.
  - apply (count_three_of_ten Samples.serve_feed Samples.sample_fromstring
             Samples.sample_repr Hackernews.DEFAULT_HN_RSS_URL Samples.feed_xml
             eq_refl); reflexivity.
  - apply (count_three_of_ten Samples.serve_feed Samples.sample_fromstring
             Samples.sample_repr Techcrunch.DEFAULT_TC_RSS_URL Samples.feed_xml
             eq_refl); reflexivity.
Defined.

Lemma articles_of_sample_feed :
  Forall Spec.is_article
    (Wired.parse_wired_rss Samples.sample_fromstring Samples.feed_xml).
Proof.
  destruct (parse_wired_rss_shape Samples.sample_fromstring Samples.feed_xml)
    as [msg E _|items ->].
  - discriminate E.
  - apply Forall_forall. intros r Hr.
    apply list_elem_of_In, in_map_iff in Hr as (item & <- & _).
    apply wired_article_no_error.
Defined.

Lemma count_zero_and_negative_witness :
  App.get_wired_stories Samples.serve_feed Samples.sample_fromstring
    Samples.sample_repr Wired.DEFAULT_WIRED_RSS_URL 0
  = Ok (VStr "No stories found.")
  /\ Spec.joined_first 3 (Wired.format_wired_story Samples.sample_repr)
       (Wired.parse_wired_rss Samples.sample_fromstring Samples.feed_xml)
       (App.get_wired_stories Samples.serve_feed Samples.sample_fromstring
          Samples.sample_repr Wired.DEFAULT_WIRED_RSS_URL (-7)).
Proof.
  destruct (count_zero_and_negative Samples.serve_feed Samples.sample_fromstring
              Samples.sample_repr Wired.DEFAULT_WIRED_RSS_URL Samples.feed_xml
              (-7) eq_refl) as (_ & _ & _ & Hwired).
  destruct (Hwired eq_refl articles_of_sample_feed) as [Hzero Hneg].
  { vm_compute. lia. }
  split; [exact Hzero|].
  apply Hneg; vm_compute; reflexivity.
Defined.

Lemma parsers_error_is_sole_witness :
  Hackernews.parse_hn_rss Samples.sample_fromstring "not xml"
  = [ error_record "Error parsing RSS: syntax error: line 1, column 0" ].
Proof.
  destruct (parsers_error_is_sole Samples.sample_fromstring Samples.no_charrefs
              "not xml") as (Hhn & _).
  apply Hhn.
  - apply list_elem_of_here.
  - unfold Spec.is_error. rewrite error_record_lookup. by eexists.
Defined.

(* ===================================================================== *)
(** * Further properties of the fetchers, parsers, formatters and tools   *)
(* ===================================================================== *)

(** ** Fetchers *)

(** X1.  When the request ends in an exception, a fetcher answers with one
    of two texts: the HTTP error text when the exception is an [HTTPError],
    the general error text otherwise.  No exception makes it build the
    timeout text. *)
Theorem fetch_failure_text (http_get : string -> string -> res string)
  (url : string) (e : exn) :
  (forall agent, http_get url agent = Raise e) ->
  let text :=
    if isinstance e HTTPError then "HTTP Error fetching RSS: " +:+ exn_str e
    else "Error fetching RSS: " +:+ exn_str e in
  Hackernews.fetch_hn_rss http_get url = text
  /\ Techcrunch.fetch_tc_rss http_get url = text
  /\ Wsj.fetch_wsj_rss http_get url = text
  /\ Wired.fetch_wired_rss http_get url = text
  /\ Ainews.fetch_ainews_rss http_get url = text.
Proof.
  intros Hraise. cbv zeta.
  unfold Hackernews.fetch_hn_rss, Techcrunch.fetch_tc_rss, Wsj.fetch_wsj_rss,
    Wired.fetch_wired_rss, Ainews.fetch_ainews_rss.
  rewrite !Hraise.
  destruct (isinstance e HTTPError) eqn:Hhttp; [auto 6|].
  destruct (isinstance e TimeoutException) eqn:Htimeout; [|auto 6].
  apply timeout_handler_shadowed in Htimeout. congruence.
Qed.

Lemma fetch_failure_text_witness :
  Hackernews.fetch_hn_rss (Samples.failing (mkExn ConnectError "refused"))
    Hackernews.DEFAULT_HN_RSS_URL
  = "HTTP Error fetching RSS: refused"
  /\ Wired.fetch_wired_rss (Samples.failing (mkExn OSError "disk"))
       Wired.DEFAULT_WIRED_RSS_URL
     = "Error fetching RSS: disk".
Proof.
  split.
  - apply (fetch_failure_text (Samples.failing (mkExn ConnectError "refused"))
             Hackernews.DEFAULT_HN_RSS_URL (mkExn ConnectError "refused")
             (fun _ => eq_refl)).
  - apply (fetch_failure_text (Samples.failing (mkExn OSError "disk"))
             Wired.DEFAULT_WIRED_RSS_URL (mkExn OSError "disk")
             (fun _ => eq_refl)).
Defined.

(** ** Tools: what a call can return *)

Lemma shown_head_built {A} (mk : A -> gmap string value) (items : list A)
  (k : Z) (s : gmap string value) (l : list (gmap string value)) :
  slice_to (map mk items) k = s :: l -> exists item, s = mk item.
Proof.
  unfold slice_to. cbv zeta. intros H.
  assert (Forall (fun r => exists item, r = mk item)
            (take (Z.to_nat (if k <? 0
                             then Z.max 0 (k + Z.of_nat (length (map mk items)))
                             else Z.min k (Z.of_nat (length (map mk items)))))
               (map mk items))) as Hall.
  { apply Forall_map_take. eauto. }
  rewrite H in Hall. by apply Forall_inv in Hall.
Qed.

Lemma format_wsj_story_article_begins (repr : value -> string)
  (s : gmap string value) :
  s !! "error" = None -> Spec.begins_with nl_char (Wsj.format_wsj_story repr s).
Proof.
  intros Hs. unfold Wsj.format_wsj_story. rewrite Hs. cbv zeta.
  split_conditions; eexists; reflexivity.
Qed.

Lemma format_tc_story_article_begins (repr : value -> string)
  (s : gmap string value) (f : string) :
  s !! "error" = None -> Techcrunch.format_tc_story repr s = Ok f ->
  Spec.begins_with nl_char f.
Proof.
  intros Hs. unfold Techcrunch.format_tc_story. rewrite Hs. cbv zeta.
  destruct (join_value ", " _) as [cs|e]; split_conditions; simpl;
    intros [= <-]; eexists; reflexivity.
Qed.

Lemma format_wired_story_article_begins (repr : value -> string)
  (s : gmap string value) (f : string) :
  s !! "error" = None -> Wired.format_wired_story repr s = Ok f ->
  Spec.begins_with nl_char f.
Proof.
  intros Hs. unfold Wired.format_wired_story. rewrite Hs. cbv zeta.
  destruct (join_value ", " _) as [cs|e]; split_conditions; simpl;
    intros [= <-]; eexists; reflexivity.
Qed.

Lemma format_recap_total (items : list (gmap string string)) (formatted : string) :
  Forall (fun d => dom d = Spec.recap_keys) items ->
  exists f, Ainews.format_recap formatted items = Ok f.
Proof.
  intros Hall. revert formatted.
  induction Hall as [|item items Hdom _ IH]; intros formatted; simpl; [eauto|].
  assert (forall k, k ∈ Spec.recap_keys -> exists v, getitem item k = Ok v) as Hget.
  { intros k Hk. rewrite <- Hdom in Hk. apply elem_of_dom in Hk as [v Hv].
    exists v. unfold getitem. by rewrite Hv. }
  unfold Ainews.format_recap_item.
  destruct (Hget "title") as [t ->]; [set_solver|].
  destruct (Hget "link") as [l ->]; [set_solver|].
  destruct (Hget "description") as [d ->]; [set_solver|].
  simpl. apply IH.
Qed.

Lemma bullet_point_keys (bullet : string) :
  dom (Ainews.bullet_point bullet) = Spec.recap_keys.
Proof.
  unfold Ainews.bullet_point, Spec.recap_keys. cbv zeta.
  rewrite !dom_insert_L, dom_singleton_L. set_solver.
Qed.

Lemma extract_twitter_recap_keys (charref_sub : string -> string)
  (content : string) :
  Forall (fun d => dom d = Spec.recap_keys)
    (Ainews.extract_twitter_recap charref_sub content).
Proof.
  unfold Ainews.extract_twitter_recap. cbv zeta.
  destruct (Re.search _ _); [|constructor].
  apply Forall_forall. intros d Hd.
  apply list_elem_of_In, in_map_iff in Hd as (b & <- & _).
  apply bullet_point_keys.
Qed.

Lemma ainews_story_recap (charref_sub : string -> string) (item : Element) :
  exists ds, get (Ainews.story_of charref_sub item) "twitter_recap" (VDicts [])
             = VDicts ds
             /\ Forall (fun d => dom d = Spec.recap_keys) ds.
Proof.
  eexists. split; [reflexivity|].
  destruct (find item (Descendant (qname CONTENT "encoded"))) as [el|];
    [|constructor].
  destruct (text_truthy (text el)); [|constructor].
  destruct (text el); [|constructor].
  apply extract_twitter_recap_keys.
Qed.

Lemma ainews_story_categories (charref_sub : string -> string) (item : Element) :
  get (Ainews.story_of charref_sub item) "categories" (VList [])
  = VList (texts (findall item (Child "category"))).
Proof. reflexivity. Qed.

Lemma format_ainews_story_article (repr : value -> string)
  (charref_sub : string -> string) (item : Element) :
  exists f, Ainews.format_ainews_story repr (Ainews.story_of charref_sub item) = Ok f
            /\ Spec.begins_with nl_char f.
Proof.
  unfold Ainews.format_ainews_story. rewrite ainews_story_no_error. cbv zeta.
  destruct (ainews_story_recap charref_sub item) as (ds & -> & Hkeys).
  rewrite ainews_story_categories.
  set (formatted := nl +:+ _).
  assert (exists g, (if truthy (VDicts ds)
                     then Ainews.format_recap (formatted +:+ nl +:+ nl) ds
                     else Ok formatted) = Ok g
                    /\ Spec.begins_with nl_char g) as (g & -> & Hg).
  { destruct ds as [|d ds]; simpl.
    - eexists. split; [reflexivity|]. eexists. reflexivity.
    - destruct (format_recap_total (d :: ds) (formatted +:+ nl +:+ nl) Hkeys)
        as [g Hgok].
      exists g. split; [exact Hgok|].
      unfold formatted in Hgok. rewrite !append_cons_head in Hgok.
      by apply format_recap_begins in Hgok. }
  simpl. destruct (texts _) as [|c cs]; simpl.
  - eauto.
  - eexists. split; [reflexivity|]. by apply append_begins.
Qed.

Section Outcomes.
Variable http_get : string -> string -> res string.
Variable fromstring : string -> res Element.
Variable repr : value -> string.
Variable charref_sub : string -> string.

Ltac body_returned Hb :=
  eexists; split; [rewrite Hb; reflexivity | left; split; reflexivity].

Ltac notice := eexists; split; [reflexivity | right; left; reflexivity].

Lemma hn_tool_outcome (url : string) (count : Z) :
  Spec.tool_outcome (Hackernews.fetch_hn_rss http_get url)
    (App.get_hackernews_stories http_get fromstring repr url count).
Proof.
  unfold Spec.tool_outcome.
  destruct (startswith (Hackernews.fetch_hn_rss http_get url) "Error") eqn:Hb.
  - unfold App.get_hackernews_stories. body_returned Hb.
  - rewrite (hn_tool_result _ _ _ url _ count eq_refl Hb). cbv zeta.
    destruct (slice_to _ _) as [|s l]; [notice|].
    eexists. split; [reflexivity|]. right; right; right.
    destruct (format_hn_story_begins repr s) as [t Ht].
    eapply join_starts. exact Ht.
Qed.

Lemma wsj_tool_outcome (url : string) (count : Z) :
  Spec.tool_outcome (Wsj.fetch_wsj_rss http_get url)
    (App.get_wallstreetjournal_stories http_get fromstring repr url count).
Proof.
  unfold Spec.tool_outcome.
  destruct (startswith (Wsj.fetch_wsj_rss http_get url) "Error") eqn:Hb.
  - unfold App.get_wallstreetjournal_stories. body_returned Hb.
  - destruct (parse_wsj_rss_shape fromstring (Wsj.fetch_wsj_rss http_get url))
      as [msg E M|items E].
    + unfold App.get_wallstreetjournal_stories. rewrite Hb, E.
      eexists. split; [reflexivity|]. auto.
    + rewrite (wsj_tool_result _ _ _ url _ count items eq_refl Hb E). cbv zeta.
      rewrite E.
      destruct (slice_to _ _) as [|s l] eqn:Hshown; [notice|].
      apply shown_head_built in Hshown as [item ->].
      eexists. split; [reflexivity|]. right; right; right.
      destruct (format_wsj_story_article_begins repr _ (wsj_article_no_error item))
        as [t Ht].
      eapply join_starts. exact Ht.
Qed.

Lemma tc_tool_outcome (url : string) (count : Z) :
  Spec.tool_outcome (Techcrunch.fetch_tc_rss http_get url)
    (App.get_techcrunch_stories http_get fromstring repr url count).
Proof.
  unfold Spec.tool_outcome.
  destruct (startswith (Techcrunch.fetch_tc_rss http_get url) "Error") eqn:Hb.
  - unfold App.get_techcrunch_stories. body_returned Hb.
  - destruct (parse_tc_rss_shape fromstring (Techcrunch.fetch_tc_rss http_get url))
      as [msg E M|items E].
    + unfold App.get_techcrunch_stories. rewrite Hb, E.
      eexists. split; [reflexivity|]. auto.
    + destruct (tc_tool_result _ _ repr url _ count items eq_refl Hb E)
        as (fs & Hby & ->).
      cbv zeta in Hby |- *. rewrite E in Hby |- *.
      destruct (slice_to _ _) as [|s l] eqn:Hshown; [notice|].
      apply shown_head_built in Hshown as [item ->].
      inversion Hby as [|? f ? fs' Hfmt _]; subst.
      eexists. split; [reflexivity|]. right; right; right.
      destruct (format_tc_story_article_begins repr _ f
                  (tc_article_no_error item) Hfmt) as [t Ht].
      eapply join_starts. exact Ht.
Qed.

Lemma wired_tool_outcome (url : string) (count : Z) :
  Spec.tool_outcome (Wired.fetch_wired_rss http_get url)
    (App.get_wired_stories http_get fromstring repr url count).
Proof.
  unfold Spec.tool_outcome.
  destruct (startswith (Wired.fetch_wired_rss http_get url) "Error") eqn:Hb.
  - unfold App.get_wired_stories. body_returned Hb.
  - destruct (parse_wired_rss_shape fromstring (Wired.fetch_wired_rss http_get url))
      as [msg E M|items E].
    + unfold App.get_wired_stories. rewrite Hb, E.
      eexists. split; [reflexivity|]. auto.
    + destruct (wired_tool_result _ _ repr url _ count items eq_refl Hb E)
        as (fs & Hby & ->).
      cbv zeta in Hby |- *. rewrite E in Hby |- *.
      destruct (slice_to _ _) as [|s l] eqn:Hshown; [notice|].
      apply shown_head_built in Hshown as [item ->].
      inversion Hby as [|? f ? fs' Hfmt _]; subst.
      eexists. split; [reflexivity|]. right; right; right.
      destruct (format_wired_story_article_begins repr _ f
                  (wired_article_no_error item) Hfmt) as [t Ht].
      eapply join_starts. exact Ht.
Qed.

Lemma ainews_tool_outcome (url : string) :
  Spec.tool_outcome (Ainews.fetch_ainews_rss http_get url)
    (App.get_ainews_latest http_get fromstring repr charref_sub url).
Proof.
  unfold Spec.tool_outcome, App.get_ainews_latest.
  destruct (startswith (Ainews.fetch_ainews_rss http_get url) "Error") eqn:Hb.
  - eexists. split; [reflexivity | left; split; reflexivity].
  - destruct (parse_ainews_rss_shape fromstring charref_sub
                (Ainews.fetch_ainews_rss http_get url)) as [msg E M|items E];
      rewrite E.
    + eexists. split; [reflexivity|]. auto.
    + rewrite (first_error_articles _ _ (ainews_story_no_error charref_sub)).
      destruct items as [|item items]; simpl; [notice|].
      destruct (format_ainews_story_article repr charref_sub item)
        as (f & -> & Hf).
      simpl. eexists. split; [reflexivity|]. auto.
Qed.

Lemma articles_of_items {A} (mk : A -> gmap string value) (items : list A) :
  (forall item, mk item !! "error" = None) ->
  Forall Spec.is_article (map mk items).
Proof.
  intros Hmk. apply Forall_forall. intros r Hr.
  apply list_elem_of_In, in_map_iff in Hr as (item & <- & _). apply Hmk.
Qed.

Lemma hn_tool_answer (url : string) (count : Z) :
  let body := Hackernews.fetch_hn_rss http_get url in
  let stories := Hackernews.parse_hn_rss fromstring body in
  Spec.tool_answer false (fun s => Ok (Hackernews.format_hn_story repr s)) body
    stories (slice_to stories (Z.min count (Z.of_nat (length stories))))
    (App.get_hackernews_stories http_get fromstring repr url count).
Proof.
  cbv zeta. unfold Spec.tool_answer.
  destruct (startswith (Hackernews.fetch_hn_rss http_get url) "Error") eqn:Hb.
  - unfold App.get_hackernews_stories. rewrite Hb. eexists. split; reflexivity.
  - rewrite (hn_tool_result _ _ _ url _ count eq_refl Hb). cbv zeta.
    destruct (slice_to _ _) as [|s l]; (eexists; split; [reflexivity|]).
    + reflexivity.
    + split.
      * destruct (format_hn_story_begins repr s) as [t Ht].
        eapply join_starts. exact Ht.
      * eexists. split; [apply formatted_by_total | reflexivity].
Qed.

Lemma wsj_tool_answer (url : string) (count : Z) :
  let body := Wsj.fetch_wsj_rss http_get url in
  let stories := Wsj.parse_wsj_rss fromstring body in
  Spec.tool_answer true (fun s => Ok (Wsj.format_wsj_story repr s)) body
    stories (slice_to stories (Z.min count (Z.of_nat (length stories))))
    (App.get_wallstreetjournal_stories http_get fromstring repr url count).
Proof.
  cbv zeta. unfold Spec.tool_answer.
  destruct (startswith (Wsj.fetch_wsj_rss http_get url) "Error") eqn:Hb.
  - unfold App.get_wallstreetjournal_stories. rewrite Hb.
    eexists. split; reflexivity.
  - destruct (parse_wsj_rss_shape fromstring (Wsj.fetch_wsj_rss http_get url))
      as [msg E M|items E].
    + unfold App.get_wallstreetjournal_stories. rewrite Hb, E.
      exists msg. split; [reflexivity|]. left. split; [reflexivity | exact M].
    + rewrite (wsj_tool_result _ _ _ url _ count items eq_refl Hb E). cbv zeta.
      rewrite E.
      destruct (slice_to _ _) as [|s l] eqn:Hshown;
        (eexists; split; [reflexivity|]; right;
         split; [apply articles_of_items, wsj_article_no_error|]).
      * reflexivity.
      * apply shown_head_built in Hshown as [item ->]. split.
        -- destruct (format_wsj_story_article_begins repr _
                       (wsj_article_no_error item)) as [t Ht].
           eapply join_starts. exact Ht.
        -- eexists. split; [apply formatted_by_total | reflexivity].
Qed.

Lemma tc_tool_answer (url : string) (count : Z) :
  let body := Techcrunch.fetch_tc_rss http_get url in
  let stories := Techcrunch.parse_tc_rss fromstring body in
  Spec.tool_answer true (Techcrunch.format_tc_story repr) body
    stories (slice_to stories (Z.min count (Z.of_nat (length stories))))
    (App.get_techcrunch_stories http_get fromstring repr url count).
Proof.
  cbv zeta. unfold Spec.tool_answer.
  destruct (startswith (Techcrunch.fetch_tc_rss http_get url) "Error") eqn:Hb.
  - unfold App.get_techcrunch_stories. rewrite Hb. eexists. split; reflexivity.
  - destruct (parse_tc_rss_shape fromstring (Techcrunch.fetch_tc_rss http_get url))
      as [msg E M|items E].
    + unfold App.get_techcrunch_stories. rewrite Hb, E.
      exists msg. split; [reflexivity|]. left. split; [reflexivity | exact M].
    + destruct (tc_tool_result _ _ repr url _ count items eq_refl Hb E)
        as (fs & Hby & ->).
      cbv zeta in Hby |- *. rewrite E in Hby |- *.
      destruct (slice_to _ _) as [|s l] eqn:Hshown;
        (eexists; split; [reflexivity|]; right;
         split; [apply articles_of_items, tc_article_no_error|]).
      * reflexivity.
      * apply shown_head_built in Hshown as [item ->]. split.
        -- inversion Hby as [|? f ? fs' Hfmt _]; subst.
           destruct (format_tc_story_article_begins repr _ f
                       (tc_article_no_error item) Hfmt) as [t Ht].
           eapply join_starts. exact Ht.
        -- exists fs. split; [exact Hby | reflexivity].
Qed.

Lemma wired_tool_answer (url : string) (count : Z) :
  let body := Wired.fetch_wired_rss http_get url in
  let stories := Wired.parse_wired_rss fromstring body in
  Spec.tool_answer true (Wired.format_wired_story repr) body
    stories (slice_to stories (Z.min count (Z.of_nat (length stories))))
    (App.get_wired_stories http_get fromstring repr url count).
Proof.
  cbv zeta. unfold Spec.tool_answer.
  destruct (startswith (Wired.fetch_wired_rss http_get url) "Error") eqn:Hb.
  - unfold App.get_wired_stories. rewrite Hb. eexists. split; reflexivity.
  - destruct (parse_wired_rss_shape fromstring (Wired.fetch_wired_rss http_get url))
      as [msg E M|items E].
    + unfold App.get_wired_stories. rewrite Hb, E.
      exists msg. split; [reflexivity|]. left. split; [reflexivity | exact M].
    + destruct (wired_tool_result _ _ repr url _ count items eq_refl Hb E)
        as (fs & Hby & ->).
      cbv zeta in Hby |- *. rewrite E in Hby |- *.
      destruct (slice_to _ _) as [|s l] eqn:Hshown;
        (eexists; split; [reflexivity|]; right;
         split; [apply articles_of_items, wired_article_no_error|]).
      * reflexivity.
      * apply shown_head_built in Hshown as [item ->]. split.
        -- inversion Hby as [|? f ? fs' Hfmt _]; subst.
           destruct (format_wired_story_article_begins repr _ f
                       (wired_article_no_error item) Hfmt) as [t Ht].
           eapply join_starts. exact Ht.
        -- exists fs. split; [exact Hby | reflexivity].
Qed.

Lemma ainews_tool_answer (url : string) :
  let body := Ainews.fetch_ainews_rss http_get url in
  let stories := Ainews.parse_ainews_rss fromstring charref_sub body in
  Spec.tool_answer true (Ainews.format_ainews_story repr) body
    stories (take 1 stories)
    (App.get_ainews_latest http_get fromstring repr charref_sub url).
Proof.
  cbv zeta. unfold Spec.tool_answer, App.get_ainews_latest.
  destruct (startswith (Ainews.fetch_ainews_rss http_get url) "Error") eqn:Hb.
  - eexists. split; reflexivity.
  - destruct (parse_ainews_rss_shape fromstring charref_sub
                (Ainews.fetch_ainews_rss http_get url)) as [msg E M|items E];
      rewrite E.
    + exists msg. split; [reflexivity|]. left. split; [reflexivity | exact M].
    + rewrite (first_error_articles _ _ (ainews_story_no_error charref_sub)).
      destruct items as [|item items]; simpl.
      * eexists. split; [reflexivity|]. right. split; [constructor | reflexivity].
      * destruct (format_ainews_story_article repr charref_sub item)
          as (f & Hfmt & Hf).
        rewrite Hfmt. simpl. exists f. split; [reflexivity|]. right. split.
        -- apply (articles_of_items _ (item :: items)),
             (ainews_story_no_error charref_sub).
        -- split; [exact Hf|]. exists [f].
           split; [constructor; [exact Hfmt | constructor] | reflexivity].
Qed.

(** X2.  Every call of every tool returns a text and raises nothing, and
    which text is settled case by case.  It is the fetched body itself when
    that body begins with [Error].  Otherwise, in the four tools that look
    for an error record, it is the bare message of the record when the parser
    returned one, and the parsed records are articles when it did not.  In
    every remaining case it is the notice [No stories found.] when the tool
    is left with no record, and else the records it is left with, formatted
    in order and joined by a line feed, three hyphens and a line feed, a text
    that begins with a line feed.  The records a tool is left with are the
    slice of the parsed ones up to the count, and the first parsed one in the
    AI News tool. *)
Theorem tools_return_text (url : string) (count : Z) :
  (let body := Hackernews.fetch_hn_rss http_get url in
   let stories := Hackernews.parse_hn_rss fromstring body in
   Spec.tool_answer false (fun s => Ok (Hackernews.format_hn_story repr s)) body
     stories (slice_to stories (Z.min count (Z.of_nat (length stories))))
     (App.get_hackernews_stories http_get fromstring repr url count))
  /\ (let body := Wsj.fetch_wsj_rss http_get url in
      let stories := Wsj.parse_wsj_rss fromstring body in
      Spec.tool_answer true (fun s => Ok (Wsj.format_wsj_story repr s)) body
        stories (slice_to stories (Z.min count (Z.of_nat (length stories))))
        (App.get_wallstreetjournal_stories http_get fromstring repr url count))
  /\ (let body := Techcrunch.fetch_tc_rss http_get url in
      let stories := Techcrunch.parse_tc_rss fromstring body in
      Spec.tool_answer true (Techcrunch.format_tc_story repr) body
        stories (slice_to stories (Z.min count (Z.of_nat (length stories))))
        (App.get_techcrunch_stories http_get fromstring repr url count))
  /\ (let body := Ainews.fetch_ainews_rss http_get url in
      let stories := Ainews.parse_ainews_rss fromstring charref_sub body in
      Spec.tool_answer true (Ainews.format_ainews_story repr) body
        stories (take 1 stories)
        (App.get_ainews_latest http_get fromstring repr charref_sub url))
  /\ (let body := Wired.fetch_wired_rss http_get url in
      let stories := Wired.parse_wired_rss fromstring body in
      Spec.tool_answer true (Wired.format_wired_story repr) body
        stories (slice_to stories (Z.min count (Z.of_nat (length stories))))
        (App.get_wired_stories http_get fromstring repr url count)).
Proof.
  split; [apply hn_tool_answer|].
  split; [apply wsj_tool_answer|].
  split; [apply tc_tool_answer|].
  split; [apply ainews_tool_answer | apply wired_tool_answer].
Qed.

End Outcomes.

Lemma outcome_not_error_prefix (body x : string) (out : res value) :
  Spec.tool_outcome body out -> out <> Ok (VStr ("ERROR: " +:+ x)).
Proof.
  intros (r & -> & H) [= ->].
  destruct H as [[Hb E]|[E|[[E|[[d E]|[d E]]]|[t E]]]]; try discriminate E.
  subst body. discriminate Hb.
Qed.

Lemma slice_to_nothing {A} (xs : list A) (count : Z) :
  Z.of_nat (length xs) <= - count ->
  slice_to xs (Z.min count (Z.of_nat (length xs))) = [].
Proof.
  intros Hc. unfold slice_to. rewrite (Z.min_l count) by lia.
  destruct (Z.ltb_spec count 0) as [Hneg|Hpos].
  - rewrite Z.max_l by lia. reflexivity.
  - rewrite Z.min_l by lia. replace count with 0 by lia. reflexivity.
Qed.

Lemma slice_to_none {A} (xs : list A) (count : Z) :
  xs = [] \/ Z.of_nat (length xs) <= - count ->
  slice_to xs (Z.min count (Z.of_nat (length xs))) = [].
Proof.
  intros [->|Hc]; [|by apply slice_to_nothing].
  unfold slice_to. apply take_nil.
Qed.

Lemma take_min_length {A} (n : nat) (xs : list A) :
  take (Nat.min n (length xs)) xs = take n xs.
Proof.
  destruct (Nat.le_gt_cases n (length xs)) as [Hle|Hgt].
  - by rewrite Nat.min_l.
  - rewrite Nat.min_r by lia. by rewrite !take_ge by lia.
Qed.

Lemma map_res_ext {A B} (f g : A -> res B) (xs : list A) :
  Forall (fun x => f x = g x) xs -> map_res f xs = map_res g xs.
Proof.
  induction 1 as [|x xs Hx _ IH]; simpl; [reflexivity|].
  by rewrite Hx, IH.
Qed.

Lemma map_ext_Forall {A B} (f g : A -> B) (xs : list A) :
  Forall (fun x => f x = g x) xs -> map f xs = map g xs.
Proof.
  induction 1 as [|x xs Hx _ IH]; simpl; [reflexivity|].
  by rewrite Hx, IH.
Qed.

Section Calls.
Variable http_get : string -> string -> res string.
Variable fromstring : string -> res Element.
Variable repr : value -> string.
Variable charref_sub : string -> string.

(** X3.  No tool ever returns a text that begins with [ERROR: ].  The four
    formatters that have a branch for error records never meet one: the tools
    that call them return the message of an error record themselves, without
    that prefix, and the Hacker News formatter has no such branch. *)
Theorem tools_never_return_error_prefix (url x : string) (count : Z) :
  App.get_hackernews_stories http_get fromstring repr url count
    <> Ok (VStr ("ERROR: " +:+ x))
  /\ App.get_wallstreetjournal_stories http_get fromstring repr url count
       <> Ok (VStr ("ERROR: " +:+ x))
  /\ App.get_techcrunch_stories http_get fromstring repr url count
       <> Ok (VStr ("ERROR: " +:+ x))
  /\ App.get_ainews_latest http_get fromstring repr charref_sub url
       <> Ok (VStr ("ERROR: " +:+ x))
  /\ App.get_wired_stories http_get fromstring repr url count
       <> Ok (VStr ("ERROR: " +:+ x)).
Proof.
  repeat split; eapply outcome_not_error_prefix.
  - apply hn_tool_outcome.
  - apply wsj_tool_outcome.
  - apply tc_tool_outcome.
  - apply ainews_tool_outcome.
  - apply wired_tool_outcome.
Qed.

(** X4.  A response that succeeds with a body beginning with [Error] is
    taken for a failure: every tool returns the body as it is and never
    parses it, whatever the count. *)
Theorem error_prefixed_body_returned (url body : string) (count : Z) :
  (forall agent, http_get url agent = Ok body) ->
  startswith body "Error" = true ->
  App.get_hackernews_stories http_get fromstring repr url count = Ok (VStr body)
  /\ App.get_wallstreetjournal_stories http_get fromstring repr url count
     = Ok (VStr body)
  /\ App.get_techcrunch_stories http_get fromstring repr url count
     = Ok (VStr body)
  /\ App.get_ainews_latest http_get fromstring repr charref_sub url
     = Ok (VStr body)
  /\ App.get_wired_stories http_get fromstring repr url count = Ok (VStr body).
Proof.
  intros Hget Hb.
  unfold App.get_hackernews_stories, App.get_wallstreetjournal_stories,
    App.get_techcrunch_stories, App.get_ainews_latest, App.get_wired_stories,
    Hackernews.fetch_hn_rss, Wsj.fetch_wsj_rss, Techcrunch.fetch_tc_rss,
    Ainews.fetch_ainews_rss, Wired.fetch_wired_rss.
  rewrite !Hget, Hb. auto 6.
Qed.

(** X5.  The Hacker News tool hides a parse failure.  When the body is not
    taken for a failure and the parser raises, a call with a count of one or
    more returns one story made of the three placeholders, whatever the
    exception was; its message is lost. *)
Theorem hn_tool_hides_parse_failure (url body : string) (e : exn) (count : Z) :
  http_get url Hackernews.USER_AGENT = Ok body ->
  startswith body "Error" = false ->
  fromstring body = Raise e ->
  1 <= count ->
  App.get_hackernews_stories http_get fromstring repr url count
  = Ok (VStr (nl +:+ "Title: Unknown" +:+ nl +:+ "Link: No link" +:+ nl
              +:+ "Published: Unknown" +:+ nl)).
Proof.
  intros Hget Hb Hraise Hcount.
  rewrite (hn_tool_result _ _ _ url body count (fetch_hn_rss_ok _ _ _ Hget) Hb).
  cbv zeta. unfold Hackernews.parse_hn_rss. rewrite Hraise.
  rewrite slice_to_nonneg by lia.
  destruct (Z.to_nat count) as [|[|n]] eqn:Hn; [lia| |]; reflexivity.
Qed.

(** X6.  For each tool that takes a count, on a feed parsed into at least
    one article, a positive count returns the first min(count, N) records of
    the N parsed, formatted and joined: all of them when the count is N or
    more. *)
Theorem positive_count_truncation (url body : string) (count : Z) :
  startswith body "Error" = false ->
  0 < count ->
  (http_get url Hackernews.USER_AGENT = Ok body ->
   let stories := Hackernews.parse_hn_rss fromstring body in
   Forall Spec.is_article stories -> (1 <= length stories)%nat ->
   Spec.joined_first (Nat.min (Z.to_nat count) (length stories))
     (fun s => Ok (Hackernews.format_hn_story repr s)) stories
     (App.get_hackernews_stories http_get fromstring repr url count))
  /\ (http_get url Wsj.USER_AGENT = Ok body ->
      let stories := Wsj.parse_wsj_rss fromstring body in
      Forall Spec.is_article stories -> (1 <= length stories)%nat ->
      Spec.joined_first (Nat.min (Z.to_nat count) (length stories))
        (fun s => Ok (Wsj.format_wsj_story repr s)) stories
        (App.get_wallstreetjournal_stories http_get fromstring repr url count))
  /\ (http_get url Techcrunch.USER_AGENT = Ok body ->
      let stories := Techcrunch.parse_tc_rss fromstring body in
      Forall Spec.is_article stories -> (1 <= length stories)%nat ->
      Spec.joined_first (Nat.min (Z.to_nat count) (length stories))
        (Techcrunch.format_tc_story repr) stories
        (App.get_techcrunch_stories http_get fromstring repr url count))
  /\ (http_get url Wired.USER_AGENT = Ok body ->
      let stories := Wired.parse_wired_rss fromstring body in
      Forall Spec.is_article stories -> (1 <= length stories)%nat ->
      Spec.joined_first (Nat.min (Z.to_nat count) (length stories))
        (Wired.format_wired_story repr) stories
        (App.get_wired_stories http_get fromstring repr url count)).
Proof.
  intros Hbody Hcount. unfold Spec.joined_first.
  split; [|split; [|split]]; cbv zeta; intros Hget Hart Hlen;
    rewrite take_min_length.
  - rewrite (hn_tool_result _ _ _ url body count (fetch_hn_rss_ok _ _ _ Hget) Hbody).
    cbv zeta. rewrite slice_to_nonneg by lia. rewrite take_nonempty by lia.
    eexists. split; [apply formatted_by_total | reflexivity].
  - destruct (shape_of_articles _ _ (parse_wsj_rss_shape fromstring body) Hart)
      as [items Hitems].
    rewrite (wsj_tool_result _ _ _ url body count items
               (fetch_wsj_rss_ok _ _ _ Hget) Hbody Hitems).
    cbv zeta. rewrite slice_to_nonneg by lia. rewrite take_nonempty by lia.
    eexists. split; [apply formatted_by_total | reflexivity].
  - destruct (shape_of_articles _ _ (parse_tc_rss_shape fromstring body) Hart)
      as [items Hitems].
    destruct (tc_tool_result _ _ repr url body count items
                (fetch_tc_rss_ok _ _ _ Hget) Hbody Hitems) as (fs & Hby & Hres).
    cbv zeta in Hby, Hres. rewrite slice_to_nonneg in Hby, Hres by lia.
    rewrite take_nonempty in Hres by lia. eauto.
  - destruct (shape_of_articles _ _ (parse_wired_rss_shape fromstring body) Hart)
      as [items Hitems].
    destruct (wired_tool_result _ _ repr url body count items
                (fetch_wired_rss_ok _ _ _ Hget) Hbody Hitems) as (fs & Hby & Hres).
    cbv zeta in Hby, Hres. rewrite slice_to_nonneg in Hby, Hres by lia.
    rewrite take_nonempty in Hres by lia. eauto.
Qed.

(** X7.  For each tool that takes a count, on a feed that parsed without an
    error record: when the feed has no item at all, whatever the count (the
    default 30 included), or when the count is negative and its absolute
    value reaches the number of records, the tool returns the notice
    [No stories found.]. *)
Theorem nothing_left_to_show (url body : string) (count : Z) :
  startswith body "Error" = false ->
  (http_get url Hackernews.USER_AGENT = Ok body ->
   let stories := Hackernews.parse_hn_rss fromstring body in
   Forall Spec.is_article stories ->
   stories = [] \/ Z.of_nat (length stories) <= - count ->
   App.get_hackernews_stories http_get fromstring repr url count
   = Ok (VStr "No stories found."))
  /\ (http_get url Wsj.USER_AGENT = Ok body ->
      let stories := Wsj.parse_wsj_rss fromstring body in
      Forall Spec.is_article stories ->
      stories = [] \/ Z.of_nat (length stories) <= - count ->
      App.get_wallstreetjournal_stories http_get fromstring repr url count
      = Ok (VStr "No stories found."))
  /\ (http_get url Techcrunch.USER_AGENT = Ok body ->
      let stories := Techcrunch.parse_tc_rss fromstring body in
      Forall Spec.is_article stories ->
      stories = [] \/ Z.of_nat (length stories) <= - count ->
      App.get_techcrunch_stories http_get fromstring repr url count
      = Ok (VStr "No stories found."))
  /\ (http_get url Wired.USER_AGENT = Ok body ->
      let stories := Wired.parse_wired_rss fromstring body in
      Forall Spec.is_article stories ->
      stories = [] \/ Z.of_nat (length stories) <= - count ->
      App.get_wired_stories http_get fromstring repr url count
      = Ok (VStr "No stories found.")).
Proof.
  intros Hbody.
  split; [|split; [|split]]; cbv zeta; intros Hget Hart Hcount.
  - rewrite (hn_tool_result _ _ _ url body count (fetch_hn_rss_ok _ _ _ Hget) Hbody).
    cbv zeta. by rewrite slice_to_none.
  - destruct (shape_of_articles _ _ (parse_wsj_rss_shape fromstring body) Hart)
      as [items Hitems].
    rewrite (wsj_tool_result _ _ _ url body count items
               (fetch_wsj_rss_ok _ _ _ Hget) Hbody Hitems).
    cbv zeta. by rewrite slice_to_none.
  - destruct (shape_of_articles _ _ (parse_tc_rss_shape fromstring body) Hart)
      as [items Hitems].
    destruct (tc_tool_result _ _ repr url body count items
                (fetch_tc_rss_ok _ _ _ Hget) Hbody Hitems) as (fs & _ & Hres).
    cbv zeta in Hres. by rewrite slice_to_none in Hres.
  - destruct (shape_of_articles _ _ (parse_wired_rss_shape fromstring body) Hart)
      as [items Hitems].
    destruct (wired_tool_result _ _ repr url body count items
                (fetch_wired_rss_ok _ _ _ Hget) Hbody Hitems) as (fs & _ & Hres).
    cbv zeta in Hres. by rewrite slice_to_none in Hres.
Qed.

End Calls.

Lemma error_prefixed_body_returned_witness :
  App.get_techcrunch_stories (Samples.serve "Error 503: maintenance")
    Samples.sample_fromstring Samples.sample_repr Techcrunch.DEFAULT_TC_RSS_URL 30
  = Ok (VStr "Error 503: maintenance").
Proof.
  apply (error_prefixed_body_returned (Samples.serve "Error 503: maintenance")
           Samples.sample_fromstring Samples.sample_repr Samples.no_charrefs
           Techcrunch.DEFAULT_TC_RSS_URL "Error 503: maintenance" 30
           (fun _ => eq_refl) eq_refl).
Defined.

Lemma hn_tool_hides_parse_failure_witness :
  App.get_hackernews_stories (Samples.serve "not xml") Samples.sample_fromstring
    Samples.sample_repr Hackernews.DEFAULT_HN_RSS_URL 30
  = Ok (VStr (nl +:+ "Title: Unknown" +:+ nl +:+ "Link: No link" +:+ nl
              +:+ "Published: Unknown" +:+ nl)).
Proof.
  apply (hn_tool_hides_parse_failure (Samples.serve "not xml")
           Samples.sample_fromstring Samples.sample_repr
           Hackernews.DEFAULT_HN_RSS_URL "not xml" Samples.syntax_error 30
           eq_refl eq_refl eq_refl).
  lia.
Defined.

Lemma positive_count_truncation_witness :
  Spec.joined_first 10 (Wired.format_wired_story Samples.sample_repr)
    (Wired.parse_wired_rss Samples.sample_fromstring Samples.feed_xml)
    (App.get_wired_stories Samples.serve_feed Samples.sample_fromstring
       Samples.sample_repr Wired.DEFAULT_WIRED_RSS_URL 30).
Proof.
  destruct (positive_count_truncation Samples.serve_feed Samples.sample_fromstring
              Samples.sample_repr Wired.DEFAULT_WIRED_RSS_URL Samples.feed_xml 30
              eq_refl) as (_ & _ & _ & Hwired); [lia|].
  apply (Hwired eq_refl articles_of_sample_feed). vm_compute. lia.
Defined.

Lemma nothing_left_to_show_witness :
  Hackernews.parse_hn_rss Samples.sample_fromstring Samples.no_channel_xml = []
  /\ App.get_hackernews_stories (Samples.serve Samples.no_channel_xml)
       Samples.sample_fromstring Samples.sample_repr
       Hackernews.DEFAULT_HN_RSS_URL 30
     = Ok (VStr "No stories found.")
  /\ length (Wired.parse_wired_rss Samples.sample_fromstring Samples.feed_xml)
     = 10%nat
  /\ App.get_wired_stories Samples.serve_feed Samples.sample_fromstring
       Samples.sample_repr Wired.DEFAULT_WIRED_RSS_URL (-10)
     = Ok (VStr "No stories found.").
Proof.
  split; [reflexivity|]. split; [|split; [reflexivity|]].
  - destruct (nothing_left_to_show (Samples.serve Samples.no_channel_xml)
                Samples.sample_fromstring Samples.sample_repr
                Hackernews.DEFAULT_HN_RSS_URL Samples.no_channel_xml 30 eq_refl)
      as (Hhn & _).
    apply (Hhn eq_refl); [constructor | left; reflexivity].
  - destruct (nothing_left_to_show Samples.serve_feed Samples.sample_fromstring
                Samples.sample_repr Wired.DEFAULT_WIRED_RSS_URL Samples.feed_xml
                (-10) eq_refl) as (_ & _ & _ & Hwired).
    apply (Hwired eq_refl articles_of_sample_feed). right. vm_compute. discriminate.
Defined.

(** ** Parsers: number, order and keys of the records *)

Lemma hn_story_keys (item : Element) :
  dom (Hackernews.story_of item) = Spec.hn_keys.
Proof.
  unfold Hackernews.story_of, Spec.hn_keys.
  rewrite !dom_insert_L, dom_singleton_L. set_solver.
Qed.

Lemma tc_article_keys (item : Element) :
  dom (Techcrunch.article_of item) = Spec.tc_keys.
Proof.
  unfold Techcrunch.article_of, Spec.tc_keys. cbv zeta.
  rewrite !dom_insert_L, dom_singleton_L. set_solver.
Qed.

Lemma wsj_article_keys (item : Element) :
  dom (Wsj.article_of item) = Spec.wsj_keys.
Proof.
  unfold Wsj.article_of, Spec.wsj_keys.
  rewrite !dom_insert_L, dom_singleton_L. set_solver.
Qed.

Lemma wired_article_keys (item : Element) :
  dom (Wired.article_of item) = Spec.wired_keys.
Proof.
  unfold Wired.article_of, Spec.wired_keys. cbv zeta.
  rewrite !dom_insert_L, dom_singleton_L. set_solver.
Qed.

Lemma ainews_story_keys (charref_sub : string -> string) (item : Element) :
  dom (Ainews.story_of charref_sub item) = Spec.ainews_keys.
Proof.
  unfold Ainews.story_of, Spec.ainews_keys. cbv zeta.
  rewrite !dom_insert_L, dom_singleton_L. set_solver.
Qed.

Lemma text_or_nonempty (el : option Element) (dflt : string) :
  dflt <> EmptyString -> text_or el dflt <> EmptyString.
Proof.
  intros Hd. unfold text_or. destruct el as [e|]; [|exact Hd].
  destruct (text e) as [[|a t]|]; simpl; [exact Hd | discriminate | exact Hd].
Qed.

Lemma head_filter_Some {A} (P : A -> bool) (xs : list A) (x : A) :
  head (List.filter P xs) = Some x -> In x xs /\ P x = true.
Proof.
  induction xs as [|y xs IH]; simpl; [discriminate|].
  destruct (P y) eqn:Hy; simpl.
  - intros [= ->]. auto.
  - intros H. destruct (IH H). auto.
Qed.

Section ParsedRecords.
Variable fromstring : string -> res Element.
Variable charref_sub : string -> string.

(** X8.  For a document whose root has a channel, the TechCrunch, WSJ and
    Wired parsers return one record per item child of the channel, in
    document order, and every record has exactly the keys of its source:
    no key is ever missing.  Items that are not children of the channel are
    not counted. *)
Theorem channel_items_to_records (s : string) (root channel : Element) :
  fromstring s = Ok root ->
  find root (Child "channel") = Some channel ->
  let items := List.filter (has_tag "item") (children channel) in
  (Techcrunch.parse_tc_rss fromstring s = map Techcrunch.article_of items
   /\ Forall (fun r => dom r = Spec.tc_keys) (Techcrunch.parse_tc_rss fromstring s))
  /\ (Wsj.parse_wsj_rss fromstring s = map Wsj.article_of items
      /\ Forall (fun r => dom r = Spec.wsj_keys) (Wsj.parse_wsj_rss fromstring s))
  /\ (Wired.parse_wired_rss fromstring s = map Wired.article_of items
      /\ Forall (fun r => dom r = Spec.wired_keys)
           (Wired.parse_wired_rss fromstring s)).
Proof.
  intros Hroot Hchannel items.
  unfold Techcrunch.parse_tc_rss, Wsj.parse_wsj_rss, Wired.parse_wired_rss.
  rewrite Hroot, Hchannel.
  repeat split; apply Forall_forall; intros r Hr;
    apply list_elem_of_In, in_map_iff in Hr as (item & <- & _).
  - apply tc_article_keys.
  - apply wsj_article_keys.
  - apply wired_article_keys.
Qed.

(** X9.  The AI news parser keeps the first item only.  For a document that
    parses, it returns one record when the Hacker News parser would return
    one or more and none otherwise; and its record carries, under the four
    keys the two sources share, the very values of the first Hacker News
    record. *)
Theorem ainews_is_first_item (s : string) (root : Element) :
  fromstring s = Ok root ->
  let ai := Ainews.parse_ainews_rss fromstring charref_sub s in
  let hn := Hackernews.parse_hn_rss fromstring s in
  length ai = Nat.min 1 (length hn)
  /\ (forall r_ai r_hn, head ai = Some r_ai -> head hn = Some r_hn ->
        Forall (fun k => r_ai !! k = r_hn !! k)
          ["title"; "link"; "description"; "pubDate"])
  /\ Forall (fun r => dom r = Spec.ainews_keys) ai.
Proof.
  intros Hroot. cbv zeta.
  unfold Ainews.parse_ainews_rss, Hackernews.parse_hn_rss. rewrite Hroot.
  destruct (findall root (Descendant "item")) as [|item items]; simpl.
  - split; [reflexivity | split]; [intros r_ai r_hn [=] | constructor].
  - split; [reflexivity | split].
    + intros r_ai r_hn [= <-] [= <-]. repeat constructor.
    + constructor; [apply ainews_story_keys | constructor].
Qed.

(** X10.  In every record of a parse without error, the TechCrunch, WSJ and
    Wired parsers store a text that is not empty under [title] and under
    [description]: the element's text, or the placeholder when the element
    is missing or empty. *)
Theorem title_and_description_never_empty (s : string) :
  let filled (r : gmap string value) :=
    Spec.is_article r ->
    Spec.nonempty_text (r !! "title") /\ Spec.nonempty_text (r !! "description") in
  Forall filled (Techcrunch.parse_tc_rss fromstring s)
  /\ Forall filled (Wsj.parse_wsj_rss fromstring s)
  /\ Forall filled (Wired.parse_wired_rss fromstring s).
Proof.
  cbv zeta. unfold Spec.nonempty_text, Spec.is_article.
  split; [|split].
  - destruct (parse_tc_rss_shape fromstring s) as [msg -> _|items ->].
    + constructor; [|constructor]. intros H.
      rewrite error_record_lookup in H. discriminate H.
    + apply Forall_forall. intros r Hr.
      apply list_elem_of_In, in_map_iff in Hr as (item & <- & _). intros _.
      split; (eexists; split; [reflexivity|]); apply text_or_nonempty; discriminate.
  - destruct (parse_wsj_rss_shape fromstring s) as [msg -> _|items ->].
    + constructor; [|constructor]. intros H.
      rewrite error_record_lookup in H. discriminate H.
    + apply Forall_forall. intros r Hr.
      apply list_elem_of_In, in_map_iff in Hr as (item & <- & _). intros _.
      split; (eexists; split; [reflexivity|]); apply text_or_nonempty; discriminate.
  - destruct (parse_wired_rss_shape fromstring s) as [msg -> _|items ->].
    + constructor; [|constructor]. intros H.
      rewrite error_record_lookup in H. discriminate H.
    + apply Forall_forall. intros r Hr.
      apply list_elem_of_In, in_map_iff in Hr as (item & <- & _). intros _.
      split; (eexists; split; [reflexivity|]); apply text_or_nonempty; discriminate.
Qed.

End ParsedRecords.

Lemma channel_items_to_records_witness :
  length (Techcrunch.parse_tc_rss Samples.sample_fromstring Samples.feed_xml)
  = 10%nat
  /\ Forall (fun r => dom r = Spec.tc_keys)
       (Techcrunch.parse_tc_rss Samples.sample_fromstring Samples.feed_xml).
Proof.
  destruct (channel_items_to_records Samples.sample_fromstring Samples.feed_xml
              Samples.feed_tree
              (mkElement "channel" ∅ None (map Samples.item_tree Samples.ids))
              eq_refl eq_refl) as ((Htc & Hkeys) & _).
  split; [|exact Hkeys]. rewrite Htc. reflexivity.
Defined.

Lemma ainews_is_first_item_witness :
  length (Ainews.parse_ainews_rss Samples.sample_fromstring Samples.no_charrefs
            Samples.feed_xml) = 1%nat.
Proof.
  destruct (ainews_is_first_item Samples.sample_fromstring Samples.no_charrefs
              Samples.feed_xml Samples.feed_tree eq_refl) as (Hlen & _).
  rewrite Hlen. reflexivity.
Defined.

(** ** Fields of a record *)

(** X11.  An empty title element reads differently in the two styles of
    parser.  When the item has a title child without text, the Hacker News
    record stores [None] under [title] and its formatted text shows the word
    None as the title; the TechCrunch record stores the placeholder
    [No title]. *)
Theorem empty_title_element (repr : value -> string) (item el : Element) :
  find item (Child "title") = Some el ->
  text el = None ->
  Hackernews.story_of item !! "title" = Some VNone
  /\ (exists rest, Hackernews.format_hn_story repr (Hackernews.story_of item)
                   = nl +:+ "Title: None" +:+ nl +:+ rest)
  /\ Techcrunch.article_of item !! "title" = Some (VStr "No title").
Proof.
  intros Hfind Htext.
  assert (Hackernews.story_of item !! "title" = Some VNone) as Htitle.
  { change (Hackernews.story_of item !! "title")
      with (Some (Hackernews.field item "title" "No title")).
    unfold Hackernews.field. by rewrite Hfind, Htext. }
  split; [exact Htitle | split].
  - unfold Hackernews.format_hn_story, get. rewrite Htitle. simpl.
    eexists. reflexivity.
  - change (Techcrunch.article_of item !! "title")
      with (Some (VStr (Techcrunch.get_element_text item "title" "No title"))).
    unfold Techcrunch.get_element_text, text_or. by rewrite Hfind, Htext.
Qed.

Lemma empty_title_element_witness :
  Hackernews.story_of Samples.untitled_item !! "title" = Some VNone
  /\ Techcrunch.article_of Samples.untitled_item !! "title"
     = Some (VStr "No title").
Proof.
  destruct (empty_title_element Samples.sample_repr Samples.untitled_item
              (mkElement "title" ∅ None []) eq_refl eq_refl) as (Hhn & _ & Htc).
  split; [exact Hhn | exact Htc].
Defined.

Ltac use_agreement :=
  unfold Spec.agree_on;
  repeat match goal with
         | |- Forall _ (_ :: _) -> _ =>
             let H := fresh "Hk" in
             let T := fresh "Ht" in
             intros H; apply Forall_cons in H as [H T]; revert T
         | |- Forall _ [] -> _ => intros _
         end.

(** X12.  A formatter reads a fixed set of keys and nothing else: two
    records that agree on those keys are formatted alike.  So the Hacker News
    text never shows the description, and no formatter shows the guid, the
    image fields, the WSJ category and id, or the content of an AI news
    story. *)
Theorem formatters_read_only_their_keys (repr : value -> string)
  (s1 s2 : gmap string value) :
  (Spec.agree_on ["title"; "link"; "pubDate"] s1 s2 ->
   Hackernews.format_hn_story repr s1 = Hackernews.format_hn_story repr s2)
  /\ (Spec.agree_on ["error"; "title"; "link"; "pubDate"; "description"; "author"]
        s1 s2 ->
      Wsj.format_wsj_story repr s1 = Wsj.format_wsj_story repr s2)
  /\ (Spec.agree_on ["error"; "title"; "link"; "pubDate"; "description"; "author";
                     "categories"] s1 s2 ->
      Techcrunch.format_tc_story repr s1 = Techcrunch.format_tc_story repr s2)
  /\ (Spec.agree_on ["error"; "title"; "link"; "pubDate"; "description"; "author";
                     "subject"; "categories"] s1 s2 ->
      Wired.format_wired_story repr s1 = Wired.format_wired_story repr s2)
  /\ (Spec.agree_on ["error"; "title"; "link"; "pubDate"; "description";
                     "twitter_recap"; "categories"] s1 s2 ->
      Ainews.format_ainews_story repr s1 = Ainews.format_ainews_story repr s2).
Proof.
  split; [|split; [|split; [|split]]]; use_agreement.
  - unfold Hackernews.format_hn_story, get. by rewrite Hk, Hk0, Hk1.
  - unfold Wsj.format_wsj_story, get. by rewrite Hk, Hk0, Hk1, Hk2, Hk3, Hk4.
  - unfold Techcrunch.format_tc_story, get.
    by rewrite Hk, Hk0, Hk1, Hk2, Hk3, Hk4, Hk5.
  - unfold Wired.format_wired_story, get.
    by rewrite Hk, Hk0, Hk1, Hk2, Hk3, Hk4, Hk5, Hk6.
  - unfold Ainews.format_ainews_story, get.
    by rewrite Hk, Hk0, Hk1, Hk2, Hk3, Hk4, Hk5.
Qed.

Lemma formatters_read_only_their_keys_witness :
  Hackernews.format_hn_story Samples.sample_repr
    (<["description" := VStr "first"]> (Hackernews.story_of Samples.untitled_item))
  = Hackernews.format_hn_story Samples.sample_repr
      (<["description" := VStr "second"]> (Hackernews.story_of Samples.untitled_item)).
Proof.
  apply (formatters_read_only_their_keys Samples.sample_repr).
  repeat constructor.
Defined.

(** X13.  The WSJ helper looks below the children only when the element has
    no child of the tag.  With such a child it returns what the TechCrunch
    and Wired helpers return, even when the child is empty and an element of
    the same tag with a text lies deeper. *)
Theorem wsj_get_element_text_direct_child (element el : Element)
  (t dflt : string) :
  find element (Child t) = Some el ->
  Wsj.get_element_text element t dflt = Techcrunch.get_element_text element t dflt
  /\ Wsj.get_element_text element t dflt = Wired.get_element_text element t dflt
  /\ Wsj.get_element_text element t dflt = text_or (Some el) dflt.
Proof.
  intros Hfind.
  unfold Wsj.get_element_text, Techcrunch.get_element_text,
    Wired.get_element_text. cbv zeta. by rewrite Hfind.
Qed.

Lemma wsj_get_element_text_direct_child_witness :
  Wsj.get_element_text Samples.untitled_item "title" "No title" = "No title".
Proof.
  destruct (wsj_get_element_text_direct_child Samples.untitled_item
              (mkElement "title" ∅ None []) "title" "No title" eq_refl)
    as (_ & _ & H).
  rewrite H. reflexivity.
Defined.

(** X14.  What the WSJ helper returns is the default or the text of an
    element that lies below the given one: it never makes a text up.  For a
    tag other than [creator] that element carries the tag asked for. *)
Theorem wsj_get_element_text_sound (element : Element) (t dflt : string) :
  String.eqb t "creator" = false ->
  Wsj.get_element_text element t dflt = dflt
  \/ exists el, In el (descendants element)
                /\ tag el = t
                /\ text el = Some (Wsj.get_element_text element t dflt).
Proof.
  intros Hcreator. unfold Wsj.get_element_text. cbv zeta. rewrite Hcreator.
  assert (forall p, (p = Child t \/ p = StarDescendant t) ->
            forall el, find element p = Some el ->
                       In el (descendants element) /\ tag el = t) as Hin.
  { intros p Hp el Hel. unfold find in Hel.
    destruct Hp as [-> | ->]; simpl in Hel;
      apply head_filter_Some in Hel as [Hel Htag];
      (split; [|by apply String.eqb_eq]).
    - unfold descendants. apply in_flat_map. exists el. split; [exact Hel|].
      destruct el. simpl. auto.
    - unfold descendants in *. apply in_flat_map in Hel as (c & Hc & Hel).
      apply in_flat_map. exists c. split; [exact Hc|].
      destruct c as [ct ca cx cs]. simpl in *. auto. }
  set (found := match find element (Child t) with
                | Some e => Some e
                | None => find element (StarDescendant t)
                end).
  assert (forall el, found = Some el ->
                     In el (descendants element) /\ tag el = t) as Hfound.
  { unfold found. intros el.
    destruct (find element (Child t)) as [e|] eqn:Hchild.
    - intros [= <-]. eapply Hin; [|exact Hchild]. auto.
    - intros Hstar. eapply Hin; [|exact Hstar]. auto. }
  unfold text_or. destruct found as [el|]; [|by left].
  destruct (Hfound el eq_refl) as [Hel Htag].
  destruct (text el) as [x|] eqn:Hx; simpl; [|by left].
  destruct (str_truthy x); [|by left].
  right. exists el. auto.
Qed.

Lemma wsj_get_element_text_sound_witness :
  Wsj.get_element_text Samples.wrapped_item "title" "No title" = "Nested title"
  /\ Techcrunch.get_element_text Samples.wrapped_item "title" "No title"
     = "No title".
Proof.
  split; [|reflexivity].
  destruct (wsj_get_element_text_sound Samples.wrapped_item "title" "No title"
              eq_refl) as [H|(el & _ & _ & H)]; [discriminate H | reflexivity].
Defined.

(** X15.  The Wired record takes its image from the Media RSS thumbnail and
    from nothing else.  When the first thumbnail below the item is missing or
    has no [url] attribute, the three image fields are the empty string,
    whatever width, height, Media RSS content or enclosure the item carries;
    otherwise the image URL is that attribute. *)
Theorem wired_image_fields (item : Element) :
  let url := Spec.url_at item (Descendant (qname MRSS "thumbnail")) in
  let r := Wired.article_of item in
  (url = None ->
   r !! "image_url" = Some (VStr EmptyString)
   /\ r !! "image_width" = Some (VStr EmptyString)
   /\ r !! "image_height" = Some (VStr EmptyString))
  /\ (forall u, url = Some u -> r !! "image_url" = Some (VStr u)).
Proof.
  cbv zeta. unfold Spec.url_at.
  change (Wired.article_of item !! "image_url")
    with (Some (VStr
      match match find item (Descendant (qname MRSS "thumbnail")) with
            | Some th => match attrib th !! "url" with
                         | Some u => Some (th, u)
                         | None => None
                         end
            | None => None
            end with
      | Some (_, u) => u
      | None => EmptyString
      end)).
  change (Wired.article_of item !! "image_width")
    with (Some (VStr
      match match find item (Descendant (qname MRSS "thumbnail")) with
            | Some th => match attrib th !! "url" with
                         | Some u => Some (th, u)
                         | None => None
                         end
            | None => None
            end with
      | Some (th, _) => default EmptyString (attrib th !! "width")
      | None => EmptyString
      end)).
  change (Wired.article_of item !! "image_height")
    with (Some (VStr
      match match find item (Descendant (qname MRSS "thumbnail")) with
            | Some th => match attrib th !! "url" with
                         | Some u => Some (th, u)
                         | None => None
                         end
            | None => None
            end with
      | Some (th, _) => default EmptyString (attrib th !! "height")
      | None => EmptyString
      end)).
  destruct (find item (Descendant (qname MRSS "thumbnail"))) as [th|];
    [destruct (attrib th !! "url") as [u|]|]; split; try discriminate;
    try (intros _; auto); intros x [= ->]; reflexivity.
Qed.

Lemma wired_image_fields_witness :
  Wired.article_of Samples.thumb_no_url_item !! "image_url"
    = Some (VStr EmptyString)
  /\ Wired.article_of Samples.thumb_no_url_item !! "image_width"
    = Some (VStr EmptyString).
Proof.
  destruct (wired_image_fields Samples.thumb_no_url_item) as [H _].
  destruct (H eq_refl) as (Hurl & Hwidth & _). auto.
Defined.

(** X16.  Authors.  The WSJ record joins the texts of all Dublin Core
    creators below the item, the TechCrunch and Wired records keep the first
    creator only.  With at most one creator the three agree; with two
    creators that both have a text, WSJ gives both texts separated by a comma
    and a space, and the other two give the first. *)
Theorem author_of_creators (item : Element) :
  let creators := findall item (Descendant (qname DC "creator")) in
  let wsj := Wsj.article_of item !! "author" in
  let tc := Techcrunch.article_of item !! "author" in
  let wired := Wired.article_of item !! "author" in
  tc = wired
  /\ ((length creators <= 1)%nat -> wsj = tc)
  /\ (forall c1 c2 a b x y,
        creators = [c1; c2] ->
        text c1 = Some (String a x) -> text c2 = Some (String b y) ->
        wsj = Some (VStr (String a x +:+ ", " +:+ String b y))
        /\ tc = Some (VStr (String a x))).
Proof.
  cbv zeta.
  change (Wsj.article_of item !! "author")
    with (Some (VStr (join ", "
                        (texts (findall item (Descendant (qname DC "creator"))))))).
  change (Techcrunch.article_of item !! "author")
    with (Some (VStr (text_or (head (findall item (Descendant (qname DC "creator"))))
                        EmptyString))).
  change (Wired.article_of item !! "author")
    with (Some (VStr (text_or (head (findall item (Descendant (qname DC "creator"))))
                        EmptyString))).
  split; [reflexivity | split].
  - destruct (findall item (Descendant (qname DC "creator"))) as [|c [|c' cs]];
      simpl; [reflexivity | | lia].
    intros _. unfold text_or, texts. simpl.
    destruct (text c) as [[|a x]|]; reflexivity.
  - intros c1 c2 a b x y -> H1 H2. unfold text_or, texts. simpl.
    rewrite H1, H2. simpl. split; reflexivity.
Qed.

Lemma author_of_creators_witness :
  Wsj.article_of Samples.two_authors_item !! "author" = Some (VStr "Alice, Bob")
  /\ Techcrunch.article_of Samples.two_authors_item !! "author"
     = Some (VStr "Alice")
  /\ Wsj.article_of Samples.untitled_item !! "author"
     = Techcrunch.article_of Samples.untitled_item !! "author".
Proof.
  destruct (author_of_creators Samples.two_authors_item) as (_ & _ & Htwo).
  destruct (Htwo (Samples.leaf (qname DC "creator") "Alice")
              (Samples.leaf (qname DC "creator") "Bob")
              "A"%char "B"%char "lice" "ob" eq_refl eq_refl eq_refl)
    as [Hwsj Htc].
  destruct (author_of_creators Samples.untitled_item) as (_ & Hone & _).
  split; [exact Hwsj | split; [exact Htc|]].
  apply Hone. vm_compute. lia.
Defined.

(** ** Formatting the records of a parser *)

Lemma Forall_slice_to {A} (P : A -> Prop) (xs : list A) (k : Z) :
  Forall P xs -> Forall P (slice_to xs k).
Proof. intros H. unfold slice_to. by apply Forall_take. Qed.

Lemma Forall_shape (P : gmap string value -> Prop)
  (mk : Element -> gmap string value) (stories : list (gmap string value)) :
  (forall msg, P (error_record msg)) -> (forall item, P (mk item)) ->
  Spec.parse_shape mk stories -> Forall P stories.
Proof.
  intros Herr Hmk [msg -> _|items ->].
  - repeat constructor. apply Herr.
  - apply Forall_forall. intros r Hr.
    apply list_elem_of_In, in_map_iff in Hr as (item & <- & _). apply Hmk.
Qed.

Lemma str_hn_field (r1 r2 : value -> string) (item : Element) (t dflt : string) :
  str r1 (Hackernews.field item t dflt) = str r2 (Hackernews.field item t dflt).
Proof.
  unfold Hackernews.field. destruct (find item (Child t)) as [el|]; [|reflexivity].
  destruct (text el); reflexivity.
Qed.

Lemma str_ainews_field (r1 r2 : value -> string) (item : Element)
  (t dflt : string) :
  str r1 (Ainews.field item t dflt) = str r2 (Ainews.field item t dflt).
Proof.
  unfold Ainews.field. destruct (find item (Child t)) as [el|]; [|reflexivity].
  destruct (text el); reflexivity.
Qed.

Lemma format_hn_story_repr (r1 r2 : value -> string) (item : Element) :
  Hackernews.format_hn_story r1 (Hackernews.story_of item)
  = Hackernews.format_hn_story r2 (Hackernews.story_of item).
Proof.
  unfold Hackernews.format_hn_story.
  change (get (Hackernews.story_of item) "title" (VStr "Unknown"))
    with (Hackernews.field item "title" "No title").
  change (get (Hackernews.story_of item) "link" (VStr "No link"))
    with (Hackernews.field item "link" EmptyString).
  change (get (Hackernews.story_of item) "pubDate" (VStr "Unknown"))
    with (Hackernews.field item "pubDate" EmptyString).
  by rewrite !(str_hn_field r1 r2).
Qed.

Lemma format_wsj_story_repr (r1 r2 : value -> string) (item : Element) :
  Wsj.format_wsj_story r1 (Wsj.article_of item)
  = Wsj.format_wsj_story r2 (Wsj.article_of item).
Proof. reflexivity. Qed.

Lemma format_tc_story_repr (r1 r2 : value -> string) (item : Element) :
  Techcrunch.format_tc_story r1 (Techcrunch.article_of item)
  = Techcrunch.format_tc_story r2 (Techcrunch.article_of item).
Proof. reflexivity. Qed.

Lemma format_wired_story_repr (r1 r2 : value -> string) (item : Element) :
  Wired.format_wired_story r1 (Wired.article_of item)
  = Wired.format_wired_story r2 (Wired.article_of item).
Proof. reflexivity. Qed.

Lemma format_ainews_story_repr (r1 r2 : value -> string)
  (charref_sub : string -> string) (item : Element) :
  Ainews.format_ainews_story r1 (Ainews.story_of charref_sub item)
  = Ainews.format_ainews_story r2 (Ainews.story_of charref_sub item).
Proof.
  unfold Ainews.format_ainews_story. rewrite ainews_story_no_error. cbv zeta.
  change (get (Ainews.story_of charref_sub item) "title" (VStr "Unknown Title"))
    with (Ainews.field item "title" "No title").
  change (get (Ainews.story_of charref_sub item) "link" (VStr "No link available"))
    with (Ainews.field item "link" EmptyString).
  change (get (Ainews.story_of charref_sub item) "pubDate"
            (VStr "Unknown publication date"))
    with (Ainews.field item "pubDate" EmptyString).
  change (get (Ainews.story_of charref_sub item) "description"
            (VStr "No description available"))
    with (Ainews.field item "description" "No description").
  by rewrite !(str_ainews_field r1 r2).
Qed.

Section Repr.
Variable http_get : string -> string -> res string.
Variable fromstring : string -> res Element.
Variable charref_sub : string -> string.

(** X17.  The parsers store texts and lists of texts, and the formatters
    interpolate the texts only.  So on the records of its parser a formatter
    never asks for the [repr] of a list: the result of every tool is the same
    for any two ways of printing lists. *)
Theorem tools_ignore_repr (r1 r2 : value -> string) (url : string) (count : Z) :
  App.get_hackernews_stories http_get fromstring r1 url count
  = App.get_hackernews_stories http_get fromstring r2 url count
  /\ App.get_wallstreetjournal_stories http_get fromstring r1 url count
     = App.get_wallstreetjournal_stories http_get fromstring r2 url count
  /\ App.get_techcrunch_stories http_get fromstring r1 url count
     = App.get_techcrunch_stories http_get fromstring r2 url count
  /\ App.get_ainews_latest http_get fromstring r1 charref_sub url
     = App.get_ainews_latest http_get fromstring r2 charref_sub url
  /\ App.get_wired_stories http_get fromstring r1 url count
     = App.get_wired_stories http_get fromstring r2 url count.
Proof.
  split; [|split; [|split; [|split]]].
  - unfold App.get_hackernews_stories.
    destruct (startswith _ "Error"); [reflexivity|]. cbv zeta.
    rewrite (map_ext_Forall (Hackernews.format_hn_story r1)
               (Hackernews.format_hn_story r2)); [reflexivity|].
    apply Forall_slice_to.
    eapply Forall_shape; [| |apply parse_hn_rss_shape].
    + reflexivity.
    + apply format_hn_story_repr.
  - unfold App.get_wallstreetjournal_stories.
    destruct (startswith _ "Error"); [reflexivity|]. cbv zeta.
    destruct (App.first_error _); [reflexivity|].
    rewrite (map_ext_Forall (Wsj.format_wsj_story r1) (Wsj.format_wsj_story r2));
      [reflexivity|].
    apply Forall_slice_to.
    eapply Forall_shape; [| |apply parse_wsj_rss_shape].
    + reflexivity.
    + apply format_wsj_story_repr.
  - unfold App.get_techcrunch_stories.
    destruct (startswith _ "Error"); [reflexivity|]. cbv zeta.
    destruct (App.first_error _); [reflexivity|].
    rewrite (map_res_ext (Techcrunch.format_tc_story r1)
               (Techcrunch.format_tc_story r2)); [reflexivity|].
    apply Forall_slice_to.
    eapply Forall_shape; [| |apply parse_tc_rss_shape].
    + reflexivity.
    + apply format_tc_story_repr.
  - unfold App.get_ainews_latest.
    destruct (startswith _ "Error"); [reflexivity|]. cbv zeta.
    destruct (parse_ainews_rss_shape fromstring charref_sub
                (Ainews.fetch_ainews_rss http_get url)) as [msg -> _|items ->].
    + reflexivity.
    + rewrite (first_error_articles _ _ (ainews_story_no_error charref_sub)).
      destruct items as [|item items]; simpl; [reflexivity|].
      by rewrite (format_ainews_story_repr r1 r2).
  - unfold App.get_wired_stories.
    destruct (startswith _ "Error"); [reflexivity|]. cbv zeta.
    destruct (App.first_error _); [reflexivity|].
    rewrite (map_res_ext (Wired.format_wired_story r1)
               (Wired.format_wired_story r2)); [reflexivity|].
    apply Forall_slice_to.
    eapply Forall_shape; [| |apply parse_wired_rss_shape].
    + reflexivity.
    + apply format_wired_story_repr.
Qed.

(** X18.  Composing a parser with its formatter never raises.  On every
    record that the TechCrunch, Wired and AI news parsers return, the
    formatter of the source returns a text: for the error record, the text
    [ERROR: ] followed by its message; for an article, a text beginning with
    a line feed.  (The formatters can raise on dictionaries that hold the
    wrong kind of value; the parsers build none.) *)
Theorem formatters_total_on_parsed (repr : value -> string) (s : string) :
  let formats (fmt : gmap string value -> res string) (r : gmap string value) :=
    (forall msg, r = error_record msg -> fmt r = Ok ("ERROR: " +:+ msg))
    /\ exists f, fmt r = Ok f
                 /\ (Spec.is_article r -> Spec.begins_with nl_char f) in
  Forall (formats (Techcrunch.format_tc_story repr))
    (Techcrunch.parse_tc_rss fromstring s)
  /\ Forall (formats (Wired.format_wired_story repr))
       (Wired.parse_wired_rss fromstring s)
  /\ Forall (formats (Ainews.format_ainews_story repr))
       (Ainews.parse_ainews_rss fromstring charref_sub s).
Proof.
  cbv zeta. unfold Spec.is_article. split; [|split].
  - eapply Forall_shape; [| |apply parse_tc_rss_shape].
    + intros msg. split; [intros m ->%error_record_inj; reflexivity|].
      eexists. split; [reflexivity|]. intros H.
      rewrite error_record_lookup in H. discriminate H.
    + intros item. split.
      * intros msg H. apply (f_equal (fun d => d !! "error")) in H.
        rewrite tc_article_no_error, error_record_lookup in H. discriminate H.
      * destruct (format_tc_story_article repr item) as [f Hf].
        exists f. split; [exact Hf|]. intros Hart.
        eapply format_tc_story_article_begins; eassumption.
  - eapply Forall_shape; [| |apply parse_wired_rss_shape].
    + intros msg. split; [intros m ->%error_record_inj; reflexivity|].
      eexists. split; [reflexivity|]. intros H.
      rewrite error_record_lookup in H. discriminate H.
    + intros item. split.
      * intros msg H. apply (f_equal (fun d => d !! "error")) in H.
        rewrite wired_article_no_error, error_record_lookup in H. discriminate H.
      * destruct (format_wired_story_article repr item) as [f Hf].
        exists f. split; [exact Hf|]. intros Hart.
        eapply format_wired_story_article_begins; eassumption.
  - eapply Forall_shape; [| |apply parse_ainews_rss_shape].
    + intros msg. split; [intros m ->%error_record_inj; reflexivity|].
      eexists. split; [reflexivity|]. intros H.
      rewrite error_record_lookup in H. discriminate H.
    + intros item. split.
      * intros msg H. apply (f_equal (fun d => d !! "error")) in H.
        rewrite ainews_story_no_error, error_record_lookup in H. discriminate H.
      * destruct (format_ainews_story_article repr charref_sub item)
          as (f & Hf & Hbegin).
        exists f. split; [exact Hf | auto].
Qed.

End Repr.

(** ** The recap extractor: strings and the matcher *)

Lemma length_append (s t : string) :
  String.length (s +:+ t) = (String.length s + String.length t)%nat.
Proof.
  induction s as [|a s IH]; [reflexivity|].
  rewrite append_cons_head. simpl. by rewrite IH.
Qed.

Lemma append_assoc_str (s t u : string) : (s +:+ t) +:+ u = s +:+ (t +:+ u).
Proof.
  induction s as [|a s IH]; [reflexivity|].
  rewrite !append_cons_head. by rewrite IH.
Qed.

Lemma take_chars_append (s t : string) :
  take_chars (String.length s) (s +:+ t) = s.
Proof.
  induction s as [|a s IH]; [by destruct t|].
  rewrite append_cons_head. simpl. by rewrite IH.
Qed.

Lemma take_chars_append_more (s t : string) (k : nat) :
  take_chars (String.length s + k) (s +:+ t) = s +:+ take_chars k t.
Proof.
  induction s as [|a s IH]; [reflexivity|].
  rewrite !append_cons_head. simpl. by rewrite IH.
Qed.

Lemma drop_chars_append (s t : string) :
  drop_chars (String.length s) (s +:+ t) = t.
Proof.
  induction s as [|a s IH]; [reflexivity|].
  rewrite append_cons_head. simpl. exact IH.
Qed.

Lemma strip_prefix_append (p s : string) : Re.strip_prefix p (p +:+ s) = Some s.
Proof.
  induction p as [|a p IH]; [by destruct s|].
  rewrite append_cons_head. simpl. by rewrite Ascii.eqb_refl.
Qed.

(** A prefix test looks at the first characters only: when [p] is not a
    prefix of [s] and [s] is at least as long, [p] is not a prefix of any
    extension of [s]. *)
Lemma strip_prefix_none_extend (p s u : string) :
  Re.strip_prefix p s = None -> (String.length p <= String.length s)%nat ->
  Re.strip_prefix p (s +:+ u) = None.
Proof.
  revert s. induction p as [|a p IH]; intros s; [by destruct s|].
  destruct s as [|b s]; simpl; [lia|].
  destruct (Ascii.eqb a b); [|reflexivity].
  intros H Hlen. apply IH; [exact H | lia].
Qed.

Lemma occurs_false_here (p s : string) :
  Spec.occurs p s = false -> Re.strip_prefix p s = None.
Proof. destruct s; simpl; destruct (Re.strip_prefix p _); congruence. Qed.

Lemma occurs_false_tail (p : string) (a : ascii) (s : string) :
  Spec.occurs p (String a s) = false -> Spec.occurs p s = false.
Proof. simpl. destruct (Re.strip_prefix p (String a s)); congruence. Qed.

(** A pattern that begins with a literal matches nowhere in a text in which
    the literal does not occur. *)
Lemma search_without_literal (lit : string) (r : Re.re) (s : string) (n : nat) :
  Spec.occurs lit s = false -> Re.search_from (Re.Seq (Re.Lit lit) r) n s = None.
Proof.
  revert n. induction s as [|a s IH]; intros n Hocc.
  - simpl. unfold Re.match_at. simpl.
    by rewrite (occurs_false_here _ _ Hocc).
  - simpl. unfold Re.match_at. simpl Re.run.
    rewrite (occurs_false_here _ _ Hocc).
    apply IH. by apply occurs_false_tail in Hocc.
Qed.

(** X19.  When the heading [<h1>AI Twitter Recap</h1>] does not occur in
    the unescaped content, extraction returns the empty list; no bullet of
    any other section is taken. *)
Theorem extract_without_heading (charref_sub : string -> string)
  (content : string) :
  Spec.occurs "<h1>AI Twitter Recap</h1>" (Ainews.unescape charref_sub content)
    = false ->
  Ainews.extract_twitter_recap charref_sub content = [].
Proof.
  intros Hocc. unfold Ainews.extract_twitter_recap. cbv zeta.
  unfold Re.search, Ainews.recap_section_re.
  by rewrite (search_without_literal _ _ _ 0 Hocc).
Qed.

Lemma extract_without_heading_witness :
  Ainews.extract_twitter_recap Samples.no_charrefs
    "<h1>AI Reddit Recap</h1><ul><li>Model: released</li></ul>"
  = [].
Proof.
  apply (extract_without_heading Samples.no_charrefs). reflexivity.
Defined.

Lemma append_nonempty_r (s t : string) :
  t <> EmptyString -> s +:+ t <> EmptyString.
Proof. destruct s; [by destruct t | discriminate]. Qed.

Lemma at_eos_long (a : ascii) (s : string) :
  s <> EmptyString -> Re.at_eos (String a s) = false.
Proof. destruct s; [congruence | reflexivity]. Qed.

Lemma lazy_star_cons {R} (k : Re.cset) (kont : @Re.cont R) (n : nat) (a : ascii)
  (s : string) (c : Re.caps) :
  Re.lazy_star k kont n (String a s) c
  = match kont n (String a s) c with
    | Some x => Some x
    | None => if Re.cset_mem k a then Re.lazy_star k kont (S n) s c else None
    end.
Proof. reflexivity. Qed.

Lemma lazy_star_accept {R} (k : Re.cset) (kont : @Re.cont R) (n : nat)
  (s : string) (c : Re.caps) (x : R) :
  kont n s c = Some x -> Re.lazy_star k kont n s c = Some x.
Proof. intros H. destruct s; simpl; by rewrite H. Qed.

Lemma search_from_cons (r : Re.re) (n : nat) (a : ascii) (s : string) :
  Re.search_from r n (String a s)
  = match Re.match_at false r n (String a s) with
    | Some m => Some m
    | None => Re.search_from r (S n) s
    end.
Proof. reflexivity. Qed.

Lemma search_from_hit (r : Re.re) (n : nat) (s : string) (m : Re.match_obj) :
  Re.match_at false r n s = Some m -> Re.search_from r n s = Some m.
Proof. intros H. destruct s; simpl; by rewrite H. Qed.

Lemma match_at_literal_none (lit : string) (r : Re.re) (n : nat) (s : string) :
  Re.strip_prefix lit s = None ->
  Re.match_at false (Re.Seq (Re.Lit lit) r) n s = None.
Proof. intros H. unfold Re.match_at. simpl Re.run. by rewrite H. Qed.

(** The search for a pattern that begins with a literal passes over a
    prefix of the text in which the literal does not begin. *)
Lemma search_from_after (lit' : string) (z : ascii) (r : Re.re) (pre t : string)
  (n : nat) :
  Spec.occurs (lit' +:+ String z EmptyString) (pre +:+ lit') = false ->
  Re.search_from (Re.Seq (Re.Lit (lit' +:+ String z EmptyString)) r) n
    (pre +:+ (lit' +:+ String z EmptyString) +:+ t)
  = Re.search_from (Re.Seq (Re.Lit (lit' +:+ String z EmptyString)) r)
      (n + String.length pre) ((lit' +:+ String z EmptyString) +:+ t).
Proof.
  revert n. induction pre as [|a pre IH]; intros n Hocc.
  - simpl String.length. by rewrite Nat.add_0_r.
  - rewrite append_cons_head, search_from_cons.
    rewrite match_at_literal_none.
    + rewrite IH by (rewrite append_cons_head in Hocc;
                     by apply occurs_false_tail in Hocc).
      simpl String.length. f_equal. lia.
    + replace (String a (pre +:+ (lit' +:+ String z EmptyString) +:+ t))
        with (String a (pre +:+ lit') +:+ String z t).
      * apply strip_prefix_none_extend.
        -- apply occurs_false_here. by rewrite append_cons_head in Hocc.
        -- simpl. rewrite !length_append. simpl. lia.
      * rewrite append_cons_head. f_equal.
        rewrite !append_assoc_str. reflexivity.
Qed.

Lemma run_alt_h1_fail {R} (n : nat) (s : string) (c : Re.caps) (K : @Re.cont R) :
  Re.strip_prefix "<h1>" s = None -> Re.at_eos s = false ->
  Re.run (Re.Alt (Re.Lit "<h1>") Re.Eos) n s c K = None.
Proof.
  intros H1 H2.
  change (Re.run (Re.Alt (Re.Lit "<h1>") Re.Eos) n s c K)
    with (match match Re.strip_prefix "<h1>" s with
                | Some s' => K (n + 4)%nat s' c
                | None => None
                end with
          | Some x => Some x
          | None => if Re.at_eos s then K n s c else None
          end).
  by rewrite H1, H2.
Qed.

(** The lazy star of the section pattern stops at the first [<h1>]. *)
Lemma lazy_star_to_h1 {R} (K : @Re.cont R) (G : nat -> Re.caps -> Re.caps)
  (sec rest : string) (n : nat) (c : Re.caps) (x : R) :
  Spec.occurs "<h1>" (sec +:+ "<h1") = false ->
  K (n + String.length sec + 4)%nat rest (G (n + String.length sec)%nat c) = Some x ->
  Re.lazy_star Re.Dot
    (fun n' s' c' => Re.run (Re.Alt (Re.Lit "<h1>") Re.Eos) n' s' (G n' c') K)
    n (sec +:+ "<h1>" +:+ rest) c
  = Some x.
Proof.
  revert n. induction sec as [|a sec IH]; intros n Hocc HK.
  - apply lazy_star_accept.
    change (EmptyString +:+ "<h1>" +:+ rest)
      with (String "<" (String "h" (String "1" (String ">" rest)))).
    simpl. simpl in HK. rewrite !Nat.add_0_r in HK. by rewrite HK.
  - rewrite append_cons_head, lazy_star_cons.
    rewrite run_alt_h1_fail.
    + simpl Re.cset_mem. cbv iota. apply IH.
      * rewrite append_cons_head in Hocc. by apply occurs_false_tail in Hocc.
      * simpl String.length in HK.
        replace (S n + String.length sec)%nat
          with (n + S (String.length sec))%nat by lia.
        exact HK.
    + replace (String a (sec +:+ "<h1>" +:+ rest))
        with (String a (sec +:+ "<h1") +:+ (">" +:+ rest)).
      * apply strip_prefix_none_extend.
        -- apply occurs_false_here. by rewrite append_cons_head in Hocc.
        -- simpl. rewrite length_append. simpl. lia.
      * rewrite append_cons_head. f_equal.
        rewrite append_assoc_str. reflexivity.
    + apply at_eos_long, append_nonempty_r. discriminate.
Qed.

Lemma run_recap_section {R} (n : nat) (s : string) (c : Re.caps) (K : @Re.cont R) :
  Re.run Ainews.recap_section_re n s c K
  = match Re.strip_prefix "<h1>AI Twitter Recap</h1>" s with
    | Some s' =>
        Re.lazy_star Re.Dot
          (fun n' s'' c' =>
             Re.run (Re.Alt (Re.Lit "<h1>") Re.Eos) n' s''
               ((1%nat, take_chars (n' - (n + 25)) s') :: c') K)
          (n + 25)%nat s' c
    | None => None
    end.
Proof. reflexivity. Qed.

(** At the heading, the section pattern matches and its group is the text up
    to the next [<h1>]. *)
Lemma match_recap_section (sec rest : string) (n : nat) :
  Spec.occurs "<h1>" (sec +:+ "<h1") = false ->
  exists m,
    Re.match_at false Ainews.recap_section_re n
      ("<h1>AI Twitter Recap</h1>" +:+ sec +:+ "<h1>" +:+ rest) = Some m
    /\ Re.group m 1 = Some sec.
Proof.
  intros Hocc. unfold Re.match_at.
  rewrite run_recap_section, strip_prefix_append.
  eexists. split.
  - apply (lazy_star_to_h1 _
             (fun n' c' => (1%nat, take_chars (n' - (n + 25))
                                     (sec +:+ "<h1>" +:+ rest)) :: c'));
      [exact Hocc | reflexivity].
  - simpl.
    replace (n + 25 + String.length sec - (n + 25))%nat
      with (String.length sec) by lia.
    by rewrite take_chars_append.
Qed.

(** X20.  The recap section ends at the next [<h1>]: what follows it never
    contributes.  When the unescaped content is some text in which the
    heading does not begin, then the heading, then a section in which no
    [<h1>] begins, then [<h1>] and anything at all, extraction returns the
    bullet points of the section and of nothing else. *)
Theorem extract_section_only (charref_sub : string -> string)
  (content pre sec rest : string) :
  Ainews.unescape charref_sub content
    = pre +:+ "<h1>AI Twitter Recap</h1>" +:+ sec +:+ "<h1>" +:+ rest ->
  Spec.occurs "<h1>AI Twitter Recap</h1>" (pre +:+ "<h1>AI Twitter Recap</h1")
    = false ->
  Spec.occurs "<h1>" (sec +:+ "<h1") = false ->
  Ainews.extract_twitter_recap charref_sub content
  = map Ainews.bullet_point (Re.findall1 Ainews.bullet_re sec).
Proof.
  intros Hcontent Hpre Hsec.
  unfold Ainews.extract_twitter_recap. cbv zeta. rewrite Hcontent.
  destruct (match_recap_section sec rest (0 + String.length pre) Hsec)
    as (m & Hm & Hgroup).
  unfold Re.search.
  assert (Re.search_from Ainews.recap_section_re 0
            (pre +:+ "<h1>AI Twitter Recap</h1>" +:+ sec +:+ "<h1>" +:+ rest)
          = Some m) as ->.
  { etransitivity.
    - apply (search_from_after "<h1>AI Twitter Recap</h1" ">"%char _ pre
               (sec +:+ "<h1>" +:+ rest) 0 Hpre).
    - apply search_from_hit. exact Hm. }
  by rewrite Hgroup.
Qed.

Lemma extract_section_only_witness :
  Ainews.extract_twitter_recap Samples.no_charrefs Samples.two_sections
  = [ Samples.recap_item "Ann" "ships" EmptyString ].
Proof.
  rewrite (extract_section_only Samples.no_charrefs Samples.two_sections
             "<p>Intro</p>"
             "<ul><li>Ann: ships</li></ul>"
             "AI Reddit Recap</h1><ul><li>Bob: posts</li></ul>"
             eq_refl eq_refl eq_refl).
  reflexivity.
Defined.

(** ** The recap extractor: one bullet point *)

Lemma bullet_title (bullet : string) :
  Ainews.bullet_point bullet !! "title"
  = Some match Re.rmatch Ainews.title_re (strip (Re.sub_empty Ainews.tag_re bullet)) with
         | Some m => strip (default EmptyString (Re.group m 1))
         | None => strip (Re.sub_empty Ainews.tag_re bullet)
         end.
Proof. reflexivity. Qed.

Lemma bullet_description (bullet : string) :
  Ainews.bullet_point bullet !! "description"
  = Some match Re.rmatch Ainews.title_re (strip (Re.sub_empty Ainews.tag_re bullet)) with
         | Some m => strip (drop_chars (String.length (Re.m_text m))
                              (strip (Re.sub_empty Ainews.tag_re bullet)))
         | None => EmptyString
         end.
Proof. reflexivity. Qed.

Lemma bullet_link (bullet : string) :
  Ainews.bullet_point bullet !! "link"
  = Some match Re.search Ainews.href_re bullet with
         | Some m => default EmptyString (Re.group m 1)
         | None => EmptyString
         end.
Proof. reflexivity. Qed.

Lemma contains_char_cons (c a : ascii) (s : string) :
  contains_char c (String a s) = false ->
  Ascii.eqb a c = false /\ contains_char c s = false.
Proof. simpl. destruct (Ascii.eqb a c); [discriminate | auto]. Qed.

Lemma run_colon {R} (n : nat) (s : string) (c : Re.caps) (K : @Re.cont R) :
  Re.run (Re.Lit ":") n s c K
  = match Re.strip_prefix ":" s with
    | Some s' => K (n + 1)%nat s' c
    | None => None
    end.
Proof. reflexivity. Qed.

Lemma strip_prefix_char_ne (z a : ascii) (s : string) :
  Ascii.eqb a z = false ->
  Re.strip_prefix (String z EmptyString) (String a s) = None.
Proof. intros H. simpl. rewrite Ascii.eqb_sym. by rewrite H. Qed.

(** The lazy star of the title pattern stops at the first colon of the
    first line. *)
Lemma lazy_star_to_colon {R} (K : @Re.cont R) (G : nat -> Re.caps -> Re.caps)
  (t d : string) (n : nat) (c : Re.caps) (x : R) :
  contains_char ":" t = false -> contains_char nl_char t = false ->
  K (n + String.length t + 1)%nat d (G (n + String.length t)%nat c) = Some x ->
  Re.lazy_star Re.DotLine
    (fun n' s' c' => Re.run (Re.Lit ":") n' s' (G n' c') K) n (t +:+ ":" +:+ d) c
  = Some x.
Proof.
  revert n. induction t as [|a t IH]; intros n Hcolon Hnl HK.
  - apply lazy_star_accept. rewrite run_colon.
    change (EmptyString +:+ ":" +:+ d) with (":" +:+ d).
    rewrite strip_prefix_append. simpl in HK. by rewrite !Nat.add_0_r in HK.
  - apply contains_char_cons in Hcolon as [Ha Hcolon].
    apply contains_char_cons in Hnl as [Hb Hnl].
    rewrite append_cons_head, lazy_star_cons, run_colon.
    rewrite (strip_prefix_char_ne _ _ _ Ha).
    unfold Re.cset_mem. rewrite Hb. simpl negb. cbv iota.
    apply IH; [exact Hcolon | exact Hnl|].
    simpl String.length in HK.
    replace (S n + String.length t)%nat with (n + S (String.length t))%nat by lia.
    exact HK.
Qed.

(** Without a colon on the first line the title pattern does not match. *)
Lemma lazy_star_no_colon {R} (K : @Re.cont R) (G : nat -> Re.caps -> Re.caps)
  (t rest : string) (n : nat) (c : Re.caps) :
  contains_char ":" t = false ->
  rest = EmptyString \/ (exists r, rest = String nl_char r) ->
  Re.lazy_star Re.DotLine
    (fun n' s' c' => Re.run (Re.Lit ":") n' s' (G n' c') K) n (t +:+ rest) c
  = None.
Proof.
  revert n. induction t as [|a t IH]; intros n Hcolon Hrest.
  - destruct Hrest as [->|[r ->]]; reflexivity.
  - apply contains_char_cons in Hcolon as [Ha Hcolon].
    rewrite append_cons_head, lazy_star_cons, run_colon.
    rewrite (strip_prefix_char_ne _ _ _ Ha).
    destruct (Re.cset_mem Re.DotLine a); [|reflexivity].
    by apply IH.
Qed.

Lemma rmatch_title_re (s : string) :
  Re.rmatch Ainews.title_re s
  = Re.lazy_star Re.DotLine
      (fun n' s' c' =>
         Re.run (Re.Lit ":") n' s' ((1%nat, take_chars (n' - 0) s) :: c')
           (fun n'' _ c'' => Some (Re.mkMatch 0 n'' (take_chars (n'' - 0) s) c'')))
      0 s [].
Proof. reflexivity. Qed.

Lemma rmatch_title_split (t d : string) :
  contains_char ":" t = false -> contains_char nl_char t = false ->
  exists m, Re.rmatch Ainews.title_re (t +:+ ":" +:+ d) = Some m
            /\ Re.group m 1 = Some t
            /\ Re.m_text m = t +:+ ":".
Proof.
  intros Hcolon Hnl. rewrite rmatch_title_re.
  eexists. split; [|split].
  - apply (lazy_star_to_colon _
             (fun n' c' => (1%nat, take_chars (n' - 0) (t +:+ ":" +:+ d)) :: c'));
      [exact Hcolon | exact Hnl | reflexivity].
  - simpl. rewrite Nat.sub_0_r. by rewrite take_chars_append.
  - simpl. rewrite Nat.sub_0_r.
    rewrite (take_chars_append_more t (":" +:+ d) 1). reflexivity.
Qed.

(** X21.  Title and description of a bullet.  When the text of the bullet,
    with its markup removed and trimmed, has a colon on its first line, the
    title is what stands before the first colon and the description is all
    that follows it, both trimmed. *)
Theorem bullet_split_at_first_colon (bullet t d : string) :
  strip (Re.sub_empty Ainews.tag_re bullet) = t +:+ ":" +:+ d ->
  contains_char ":" t = false -> contains_char nl_char t = false ->
  Ainews.bullet_point bullet !! "title" = Some (strip t)
  /\ Ainews.bullet_point bullet !! "description" = Some (strip d).
Proof.
  intros Hclean Hcolon Hnl.
  rewrite bullet_title, bullet_description, Hclean.
  destruct (rmatch_title_split t d Hcolon Hnl) as (m & -> & -> & ->).
  split; [reflexivity|].
  rewrite length_append. simpl String.length.
  replace (t +:+ ":" +:+ d) with ((t +:+ ":") +:+ d)
    by (by rewrite append_assoc_str).
  replace (String.length t + 1)%nat with (String.length (t +:+ ":"))
    by (rewrite length_append; reflexivity).
  by rewrite drop_chars_append.
Qed.

Lemma bullet_split_at_first_colon_witness :
  Ainews.bullet_point "<b>Gemini </b>: now <i>faster</i>: 2x" !! "title"
    = Some "Gemini"
  /\ Ainews.bullet_point "<b>Gemini </b>: now <i>faster</i>: 2x" !! "description"
    = Some "now faster: 2x".
Proof.
  apply (bullet_split_at_first_colon "<b>Gemini </b>: now <i>faster</i>: 2x"
           "Gemini " " now faster: 2x"); reflexivity.
Defined.

(** X22.  Defaults of a bullet.  When the first line of the cleaned text has
    no colon, the whole text is the title and the description is empty, even
    if a colon comes on a later line.  When the bullet has no opening of an
    anchor with an [href], the link is empty. *)
Theorem bullet_defaults (bullet : string) :
  (forall t rest,
     strip (Re.sub_empty Ainews.tag_re bullet) = t +:+ rest ->
     contains_char ":" t = false ->
     rest = EmptyString \/ (exists r, rest = String nl_char r) ->
     Ainews.bullet_point bullet !! "title" = Some (t +:+ rest)
     /\ Ainews.bullet_point bullet !! "description" = Some EmptyString)
  /\ (Spec.occurs ("<a href=" +:+ dq) bullet = false ->
      Ainews.bullet_point bullet !! "link" = Some EmptyString).
Proof.
  split.
  - intros t rest Hclean Hcolon Hrest.
    rewrite bullet_title, bullet_description, Hclean, rmatch_title_re.
    rewrite (lazy_star_no_colon _
               (fun n' c' => (1%nat, take_chars (n' - 0) (t +:+ rest)) :: c')
               t rest 0 [] Hcolon Hrest).
    split; reflexivity.
  - intros Hocc. rewrite bullet_link. unfold Re.search, Ainews.href_re.
    by rewrite (search_without_literal _ _ _ 0 Hocc).
Qed.

Lemma bullet_defaults_witness :
  Ainews.bullet_point Samples.two_line_bullet !! "title"
    = Some Samples.two_line_bullet
  /\ Ainews.bullet_point Samples.two_line_bullet !! "description"
    = Some EmptyString
  /\ Ainews.bullet_point Samples.two_line_bullet !! "link" = Some EmptyString.
Proof.
  destruct (bullet_defaults Samples.two_line_bullet) as [Hsplit Hlink].
  destruct (Hsplit "Summary" (nl +:+ "Key: value") eq_refl eq_refl)
    as [Htitle Hdesc].
  { right. eexists. reflexivity. }
  split; [exact Htitle | split; [exact Hdesc | apply Hlink; reflexivity]].
Defined.

Lemma run_href {R} (n : nat) (s : string) (c : Re.caps) (K : @Re.cont R) :
  Re.run Ainews.href_re n s c K
  = match Re.strip_prefix ("<a href=" +:+ dq) s with
    | Some s' =>
        match s' with
        | String a s'' =>
            if Re.cset_mem (Re.NotChar dq_char) a then
              Re.greedy_star (Re.NotChar dq_char)
                (fun n' s3 c' =>
                   Re.run (Re.Lit dq) n' s3
                     ((1%nat, take_chars (n' - (n + 9)) s') :: c') K)
                (S (n + 9)) s'' c
            else None
        | EmptyString => None
        end
    | None => None
    end.
Proof. reflexivity. Qed.

Lemma greedy_star_cons {R} (k : Re.cset) (kont : @Re.cont R) (n : nat) (a : ascii)
  (s : string) (c : Re.caps) :
  Re.greedy_star k kont n (String a s) c
  = if Re.cset_mem k a then
      match Re.greedy_star k kont (S n) s c with
      | Some x => Some x
      | None => kont n (String a s) c
      end
    else kont n (String a s) c.
Proof. reflexivity. Qed.

(** The greedy run of the link pattern ends at the first double quote. *)
Lemma greedy_star_to_quote {R} (K : @Re.cont R) (G : nat -> Re.caps -> Re.caps)
  (u rest : string) (n : nat) (c : Re.caps) (x : R) :
  contains_char dq_char u = false ->
  K (n + String.length u + 1)%nat rest (G (n + String.length u)%nat c) = Some x ->
  Re.greedy_star (Re.NotChar dq_char)
    (fun n' s' c' => Re.run (Re.Lit dq) n' s' (G n' c') K) n (u +:+ dq +:+ rest) c
  = Some x.
Proof.
  revert n. induction u as [|a u IH]; intros n Hq HK.
  - change (EmptyString +:+ dq +:+ rest) with (String dq_char rest).
    rewrite greedy_star_cons.
    change (Re.cset_mem (Re.NotChar dq_char) dq_char) with false. cbv iota.
    change (Re.run (Re.Lit dq) n (String dq_char rest) (G n c) K)
      with (K (n + 1)%nat rest (G n c)).
    simpl in HK. by rewrite !Nat.add_0_r in HK.
  - apply contains_char_cons in Hq as [Ha Hq].
    rewrite append_cons_head, greedy_star_cons.
    unfold Re.cset_mem at 1. rewrite Ha. simpl negb. cbv iota.
    rewrite IH; [reflexivity | exact Hq|].
    simpl String.length in HK.
    replace (S n + String.length u)%nat with (n + S (String.length u))%nat by lia.
    exact HK.
Qed.

Lemma match_href (a : ascii) (u rest : string) (n : nat) :
  contains_char dq_char (String a u) = false ->
  exists m,
    Re.match_at false Ainews.href_re n
      (("<a href=" +:+ dq) +:+ String a u +:+ dq +:+ rest) = Some m
    /\ Re.group m 1 = Some (String a u).
Proof.
  intros Hq. unfold Re.match_at.
  rewrite run_href, strip_prefix_append, append_cons_head.
  apply contains_char_cons in Hq as [Ha Hq].
  unfold Re.cset_mem at 1. rewrite Ha. simpl negb. cbv iota.
  eexists. split.
  - apply (greedy_star_to_quote _
             (fun n' c' => (1%nat, take_chars (n' - (n + 9))
                                     (String a (u +:+ dq +:+ rest))) :: c'));
      [exact Hq | reflexivity].
  - simpl Re.group. unfold Re.lookup_group. simpl Nat.eqb. cbv iota.
    replace (S (n + 9 + String.length u) - (n + 9))%nat
      with (S (String.length u)) by lia.
    simpl. by rewrite take_chars_append.
Qed.

(** X23.  The link of a bullet is the [href] of its first anchor.  When the
    bullet is some text in which no anchor opens, then the opening of an
    anchor with a quoted [href] that is not empty, then anything at all, the
    link is that [href]; later anchors are not looked at. *)
Theorem bullet_link_first_anchor (bullet pre u rest : string) :
  bullet = pre +:+ ("<a href=" +:+ dq) +:+ u +:+ dq +:+ rest ->
  Spec.occurs ("<a href=" +:+ dq) (pre +:+ "<a href=") = false ->
  u <> EmptyString ->
  contains_char dq_char u = false ->
  Ainews.bullet_point bullet !! "link" = Some u.
Proof.
  intros -> Hpre Hu Hq. destruct u as [|a u]; [congruence|].
  rewrite bullet_link.
  destruct (match_href a u rest (0 + String.length pre) Hq) as (m & Hm & Hgroup).
  unfold Re.search.
  assert (Re.search_from Ainews.href_re 0
            (pre +:+ ("<a href=" +:+ dq) +:+ String a u +:+ dq +:+ rest)
          = Some m) as ->.
  { etransitivity.
    - apply (search_from_after "<a href=" dq_char _ pre
               (String a u +:+ dq +:+ rest) 0 Hpre).
    - apply search_from_hit. exact Hm. }
  by rewrite Hgroup.
Qed.

Lemma bullet_link_first_anchor_witness :
  Ainews.bullet_point Samples.two_anchor_bullet !! "link" = Some "http://first".
Proof.
  apply (bullet_link_first_anchor Samples.two_anchor_bullet "Qwen: see "
           "http://first"
           (">one</a> and <a href=" +:+ dq +:+ "http://second" +:+ dq +:+ ">two</a>"));
    [reflexivity | reflexivity | discriminate | reflexivity].
Defined.
